(** * Paper-trading engine: order lifecycle, settlement and ticker intake

    A shallow embedding of [src/order/order.service.ts] and the helpers it
    calls ([exchange/utils.ts], [order/utils.ts], [utils/math.ts],
    [user/user.service.ts]).

    Conventions of the embedding:
    - a JavaScript [number] is an exact rational ([Q]); comparisons are the
      decidable ones of [Q], and [===] on numbers is [Qeq_bool];
    - a [Map<string, V>] is an insertion-ordered association list
      ([JsMap.t V]), a [Set<string>] an insertion-ordered list ([JsSet.t]);
    - a Mongo collection is the list of its documents, in insertion order;
      [findOne] returns the first match;
    - an [async] method is a state transformer that returns either a value
      or the exception it throws; the state reached when it throws is kept
      (nothing is rolled back);
    - [new Date()] and the answers of the external services are read from an
      environment record; the symbol service always answers;
    - a method runs to its end without another one interleaving at its
      [await]s; the pub/sub subscriptions and the events pushed to clients
      are outside the state. *)

From Stdlib Require Import ZArith QArith Qabs Qround Qpower Lqa.
From Stdlib Require Import Bool List String DecimalString.
From Stdlib Require Import Sorting.Sorted Sorting.Permutation.
From Stdlib Require Import Lia.
Import ListNotations.

Local Open Scope Q_scope.

(** ** Numbers *)

Module Num.

(** [a < b], [a <= b], [a === b] on numbers. *)
Definition ltb (a b : Q) : bool := negb (Qle_bool b a).
Definition leb (a b : Q) : bool := Qle_bool a b.
Definition eqb (a b : Q) : bool := Qeq_bool a b.

(** Truthiness of a number: [0] is falsy. *)
Definition truthy (a : Q) : bool := negb (Qeq_bool a 0).

(** [Number.EPSILON = 2^-52]. *)
Definition EPSILON : Q := 1 # (2 ^ 52).

(** [Math.round]: the nearest integer, halves towards plus infinity. *)
Definition mathRound (x : Q) : Z := Qfloor (x + (1 # 2)).

(** [Math.max(0, x)]. *)
Definition max0 (x : Q) : Q := if Qle_bool 0 x then x else 0.

End Num.

(** ** [utils/math.ts]: [MathHelper.round]

    [round] renders the number -- through [toFixed] with two more decimals
    when the rendering is in exponent form --, caps the precision so that
    the integer part plus the decimals fit in 20 characters, and rounds the
    decimal string at that precision. *)

Module MathHelper.

(** Length of [num.split('.')[0]]: the digits of the integer part, and the
    sign of a negative number. *)
Definition intPartLength (q : Q) : Z :=
  let digits :=
    String.length
      (NilZero.string_of_uint (N.to_uint (Z.abs_N (Z.quot (Qnum q) (Zpos (Qden q)))))) in
  (if Num.ltb q 0 then 1 else 0) + Z.of_nat digits.

(** What [round] gives: a number, [NaN], or the [RangeError] that [toFixed]
    raises for a negative number of decimals. *)
Inductive rounded : Type :=
| Rounded (q : Q)
| NaN
| RangeError.

(** [`${_num}`] is in exponent form: the magnitude is not zero and below
    [1e-6], or it is [1e21] or more. *)
Definition exponentForm (q : Q) : bool :=
  (Num.ltb 0 (Qabs q) && Num.ltb (Qabs q) (1 # (10 ^ 6))) ||
  Num.leb (inject_Z (10 ^ 21)) (Qabs q).

(** The number that [x.toFixed(f)] renders, for [0 <= f] and a magnitude
    below [1e21]: the magnitude rounded to [f] decimals, a half upwards,
    with the sign of [x]. *)
Definition toFixed (x : Q) (f : Z) : Q :=
  (if Num.ltb x 0 then -1 else 1) *
  (inject_Z (Qfloor (Qabs x * Qpower 10 f + (1 # 2))) * Qpower 10 (- f)).

(** [round(_num, precision)], with [down] and [up] left at [false].  A
    number in exponent form goes through
    [convertFromExponential(_num, precision + 2)], which is
    [toFixed(min(precision + 2, 20))]: a [RangeError] when that is negative,
    and for [1e21] and more a string that still has its exponent, which the
    last step reads as [NaN].  The last step appends ['e-' + precision] to
    the rounded integer, which no negative precision survives. *)
Definition round (_num : Q) (precision : Z) : rounded :=
  if exponentForm _num && (precision + 2 <? 0)%Z then RangeError
  else if Num.leb (inject_Z (10 ^ 21)) (Qabs _num) then NaN
  else
    let num :=
      if exponentForm _num then toFixed _num (Z.min (precision + 2) 20) else _num in
    let precision :=
      if (20 <? intPartLength _num + precision)%Z
      then (20 - intPartLength _num)%Z
      else precision in
    if (precision <? 0)%Z then NaN
    else Rounded (inject_Z (Num.mathRound (num * Qpower 10 precision)) *
                  Qpower 10 (- precision)).

(** The tolerance of the comparisons of [MathHelper], [1e-10]. *)
Definition eps : Q := 1 # (10 ^ 10).

Definition isZero (a : Q) : bool := Num.leb (Qabs a) eps.

Definition lte (a b : Q) : bool :=
  (negb (isZero (a - b)) && Num.leb a b) || isZero (a - b).

End MathHelper.

(** ** Maps and sets of the process-local state *)

Module JsMap.

Definition t (V : Type) : Type := list (string * V).

Section Ops.
Context {V : Type}.

Fixpoint get (m : t V) (k : string) : option V :=
  match m with
  | [] => None
  | (k', v) :: r => if String.eqb k' k then Some v else get r k
  end.

(** [set] keeps the position of a key already present, and appends a new
    key: the iteration order of a JavaScript [Map]. *)
Fixpoint set (m : t V) (k : string) (v : V) : t V :=
  match m with
  | [] => [(k, v)]
  | (k', v') :: r =>
      if String.eqb k' k then (k, v) :: r else (k', v') :: set r k v
  end.

Definition delete (m : t V) (k : string) : t V :=
  filter (fun kv => negb (String.eqb (fst kv) k)) m.

Definition keys (m : t V) : list string := map fst m.
Definition values (m : t V) : list V := map snd m.
Definition size (m : t V) : nat := List.length m.

End Ops.

End JsMap.

Module JsSet.

Definition t : Type := list string.

Definition has (s : t) (x : string) : bool := existsb (String.eqb x) s.

Definition add (s : t) (x : string) : t := if has s x then s else s ++ [x].

Definition delete (s : t) (x : string) : t :=
  filter (fun y => negb (String.eqb y x)) s.

Definition size (s : t) : nat := List.length s.

End JsSet.

(** ** [exchange/types.ts] and [exchange/utils.ts] *)

Inductive ExchangeEnum : Type :=
| binance | kucoin | kucoinLinear | kucoinInverse | ftx | bybit
| binanceCoinm | binanceUsdm | bybitCoinm | bybitUsdm
| okx | okxLinear | okxInverse | coinbase
| bitget | bitgetCoinm | bitgetUsdm | mexc | hyperliquid | hyperliquidInverse.

(** The string value of each member, as the keys [symbol@exchange] use it. *)
Definition exchangeName (e : ExchangeEnum) : string :=
  match e with
  | binance => "binance" | kucoin => "kucoin"
  | kucoinLinear => "kucoinLinear" | kucoinInverse => "kucoinInverse"
  | ftx => "ftx" | bybit => "bybit"
  | binanceCoinm => "binanceCoinm" | binanceUsdm => "binanceUsdm"
  | bybitCoinm => "bybitInverse" | bybitUsdm => "bybitLinear"
  | okx => "okx" | okxLinear => "okxLinear" | okxInverse => "okxInverse"
  | coinbase => "coinbase" | bitget => "bitget"
  | bitgetCoinm => "bitgetCoinm" | bitgetUsdm => "bitgetUsdm"
  | mexc => "mexc" | hyperliquid => "hyperliquid"
  | hyperliquidInverse => "hyperliquidInverse"
  end.

Definition ExchangeEnum_eqb (a b : ExchangeEnum) : bool :=
  String.eqb (exchangeName a) (exchangeName b).

Definition spotMakerFee : Q := 1 # 1000.
Definition usdmMakerFee : Q := 2 # 10000.
Definition coinmMakerFee : Q := 1 # 10000.

(** [isFutures] and [isCoinm] of [src/exchange/utils.ts], the module that
    [order.service.ts] imports.  (A second copy of these helpers in the
    repository also lists [hyperliquidInverse] in both; nothing below depends
    on that member.) *)
Definition isFutures (exchange : ExchangeEnum) : bool :=
  match exchange with
  | binanceCoinm | binanceUsdm | bybitCoinm | bybitUsdm
  | okxLinear | okxInverse | kucoinLinear | kucoinInverse
  | bitgetCoinm | bitgetUsdm => true
  | _ => false
  end.

Definition isCoinm (exchange : ExchangeEnum) : bool :=
  match exchange with
  | binanceCoinm | bybitCoinm | okxInverse | kucoinInverse | bitgetCoinm => true
  | _ => false
  end.

Module BaseAsset.
Record t : Type := mk {
  minAmount : Q; maxAmount : Q; step : Q; name : string; maxMarketAmount : Q
}.
End BaseAsset.

Module QuoteAsset.
Record t : Type := mk { minAmount : Q; name : string }.
End QuoteAsset.

Module ExchangeInfo.
Record t : Type := mk {
  baseAsset : BaseAsset.t;
  quoteAsset : QuoteAsset.t;
  maxOrders : Q;
  priceAssetPrecision : Q
}.
End ExchangeInfo.

(** [Ticker], as decoded from the pub/sub message, and [Tick]. *)
Module Ticker.
Record t : Type := mk {
  bestAsk : Q; bestBid : Q; bestAskQnt : Q; bestBidQnt : Q;
  symbol : string; time : Z; price : Q; eventTime : option Z
}.
End Ticker.

Module Tick.
Record t : Type := mk {
  bestBid : Q; bestAsk : Q; bidQty : Q; askQty : Q; time : Z
}.
End Tick.

(** ** [schema/order.schema.ts] and [schema/positions.schema.ts] *)

Module OrderType.
Inductive t : Type := LIMIT | MARKET.
Definition eqb (a b : t) : bool :=
  match a, b with LIMIT, LIMIT | MARKET, MARKET => true | _, _ => false end.
End OrderType.

Module OrderSide.
Inductive t : Type := BUY | SELL.
Definition eqb (a b : t) : bool :=
  match a, b with BUY, BUY | SELL, SELL => true | _, _ => false end.
End OrderSide.

Module OrderStatus.
(** [CREATED] is the member whose value is ['NEW']. *)
Inductive t : Type := CREATED | FILLED | PARTIALLY_FILLED | CANCELED | EXPIRED.
Definition eqb (a b : t) : bool :=
  match a, b with
  | CREATED, CREATED | FILLED, FILLED | PARTIALLY_FILLED, PARTIALLY_FILLED
  | CANCELED, CANCELED | EXPIRED, EXPIRED => true
  | _, _ => false
  end.
(** The statuses from which an order never moves again. *)
Definition terminal (s : t) : bool :=
  match s with FILLED | CANCELED | EXPIRED => true | _ => false end.
End OrderStatus.

Module PositionSide.
Inductive t : Type := both | long | short.
Definition eqb (a b : t) : bool :=
  match a, b with
  | both, both | long, long | short, short => true
  | _, _ => false
  end.
End PositionSide.

Module PositionStatus.
Inductive t : Type := new | closed.
Definition eqb (a b : t) : bool :=
  match a, b with new, new | closed, closed => true | _, _ => false end.
End PositionStatus.

(** [===] between two optional position sides ([undefined] is [None]). *)
Definition sideEq (a b : option PositionSide.t) : bool :=
  match a, b with
  | Some x, Some y => PositionSide.eqb x y
  | None, None => true
  | _, _ => false
  end.

(** An [ObjectId] is a number drawn from a counter; [toString] renders it. *)
Definition ObjectId : Type := nat.
Definition idToString (i : ObjectId) : string :=
  NilZero.string_of_uint (Nat.to_uint i).

(** An order document ([Order], [OrderDataType]).  [feePerc] is [0] when the
    field is absent (both are falsy), [reduceOnly] is [false] when absent. *)
Module Order.
Record t : Type := mk {
  _id : ObjectId;
  amount : Q;
  filledAmount : Q;
  filledQuoteAmount : Q;
  quoteAmount : Q;
  price : Q;
  avgFilledPrice : Q;
  fee : Q;
  feePerc : Q;
  symbol : string;
  user : string;
  exchange : ExchangeEnum;
  status : OrderStatus.t;
  type : OrderType.t;
  side : OrderSide.t;
  externalId : string;
  createdAt : Z;
  updatedAt : Z;
  reduceOnly : bool;
  positionSide : option PositionSide.t
}.
Definition id (o : t) : string := idToString (_id o).
End Order.

(** A position document ([Position], [LocalPosition]). *)
Module Position.
Record t : Type := mk {
  _id : ObjectId;
  symbol : string;
  margin : Q;
  entryPrice : Q;
  closePrice : Q;
  liquidationPrice : Q;
  positionSide : PositionSide.t;
  positionAmt : Q;
  user : string;
  exchange : ExchangeEnum;
  createdAt : Z;
  updatedAt : Z;
  status : PositionStatus.t;
  profit : Q;
  fee : Q;
  leverage : Q;
  uuid : string
}.
Definition id (p : t) : string := idToString (_id p).
End Position.

Module Leverage.
Record t : Type := mk {
  user : string; symbol : string; side : option PositionSide.t;
  leverage : Q; locked : bool
}.
End Leverage.

Module Hedge.
Record t : Type := mk { user : string; hedge : bool }.
End Hedge.

Module User.
Record t : Type := mk { id : string; key : string; secret : string }.
End User.

Module Wallet.
Record t : Type := mk { user : string; asset : string; free : Q; locked : Q }.
End Wallet.

(** One entry of a balance update: the increments of [free] and [locked]. *)
Module BalanceUpdate.
Record t : Type := mk { asset : string; free : Q; locked : Q }.
End BalanceUpdate.

(** [CreateOrderDto] of [order.controller.ts]. *)
Module CreateOrderDto.
Record t : Type := mk {
  key : string;
  secret : string;
  symbol : string;
  amount : Q;
  type : OrderType.t;
  exchange : ExchangeEnum;
  side : OrderSide.t;
  externalId : string;
  price : Q;
  reduceOnly : bool;
  positionSide : option PositionSide.t
}.
End CreateOrderDto.

Module CreateOrderResponse.
Record t : Type := mk { orderId : string; status : OrderStatus.t }.
End CreateOrderResponse.

(** ** The engine's state, the environment, and the exceptions *)

Inductive Exception : Type :=
| HttpException (message : string) (status : Z)
| TypeError (message : string)
| MongoServerError (message : string).

(** Durable storage (one list per collection) and the process-local maps of
    [OrderService].  [nextId] is the supply of fresh [ObjectId]s and uuids. *)
Record State : Type := mkState {
  users : list User.t;
  wallets : list Wallet.t;
  orderModel : list Order.t;
  positionModel : list Position.t;
  leverageModel : list Leverage.t;
  hedgeModel : list Hedge.t;
  watchSymbols : JsMap.t JsSet.t;
  tickerTimeMap : JsMap.t Z;
  symbolPriceMap : JsMap.t (option Q);
  tickerSignatureMap : JsMap.t string;
  currentOrders : JsMap.t (JsMap.t Order.t);
  currentPositions : JsMap.t (JsMap.t Position.t);
  nextId : nat
}.

(** What a call reads from outside the engine: the clock, the symbol
    service ([ExchangeService.getExchangeInfo]) and the latest-price service
    ([ExchangeService.getLatestPriceInExchange]).  The latter resolves to
    [null] when its request fails ([None] here), and else to an answer whose
    [data] field is a price or [null] ([Some data]). *)
Record Env : Type := mkEnv {
  now : Z;
  getExchangeInfo : string -> ExchangeEnum -> ExchangeInfo.t;
  latestPrice : ExchangeEnum -> string -> option (option Q)
}.

Definition newDataLimit : Z := 30 * 1000.

Definition with_wallets (s : State) (w : list Wallet.t) : State :=
  mkState (users s) w (orderModel s) (positionModel s) (leverageModel s)
    (hedgeModel s) (watchSymbols s) (tickerTimeMap s) (symbolPriceMap s)
    (tickerSignatureMap s) (currentOrders s) (currentPositions s) (nextId s).

Definition with_orderModel (s : State) (o : list Order.t) : State :=
  mkState (users s) (wallets s) o (positionModel s) (leverageModel s)
    (hedgeModel s) (watchSymbols s) (tickerTimeMap s) (symbolPriceMap s)
    (tickerSignatureMap s) (currentOrders s) (currentPositions s) (nextId s).

Definition with_positionModel (s : State) (p : list Position.t) : State :=
  mkState (users s) (wallets s) (orderModel s) p (leverageModel s)
    (hedgeModel s) (watchSymbols s) (tickerTimeMap s) (symbolPriceMap s)
    (tickerSignatureMap s) (currentOrders s) (currentPositions s) (nextId s).

Definition with_leverageModel (s : State) (l : list Leverage.t) : State :=
  mkState (users s) (wallets s) (orderModel s) (positionModel s) l
    (hedgeModel s) (watchSymbols s) (tickerTimeMap s) (symbolPriceMap s)
    (tickerSignatureMap s) (currentOrders s) (currentPositions s) (nextId s).

Definition with_watchSymbols (s : State) (w : JsMap.t JsSet.t) : State :=
  mkState (users s) (wallets s) (orderModel s) (positionModel s)
    (leverageModel s) (hedgeModel s) w (tickerTimeMap s) (symbolPriceMap s)
    (tickerSignatureMap s) (currentOrders s) (currentPositions s) (nextId s).

Definition with_tickerTimeMap (s : State) (m : JsMap.t Z) : State :=
  mkState (users s) (wallets s) (orderModel s) (positionModel s)
    (leverageModel s) (hedgeModel s) (watchSymbols s) m (symbolPriceMap s)
    (tickerSignatureMap s) (currentOrders s) (currentPositions s) (nextId s).

Definition with_symbolPriceMap (s : State) (m : JsMap.t (option Q)) : State :=
  mkState (users s) (wallets s) (orderModel s) (positionModel s)
    (leverageModel s) (hedgeModel s) (watchSymbols s) (tickerTimeMap s) m
    (tickerSignatureMap s) (currentOrders s) (currentPositions s) (nextId s).

Definition with_tickerSignatureMap (s : State) (m : JsMap.t string) : State :=
  mkState (users s) (wallets s) (orderModel s) (positionModel s)
    (leverageModel s) (hedgeModel s) (watchSymbols s) (tickerTimeMap s)
    (symbolPriceMap s) m (currentOrders s) (currentPositions s) (nextId s).

Definition with_currentOrders (s : State) (m : JsMap.t (JsMap.t Order.t)) : State :=
  mkState (users s) (wallets s) (orderModel s) (positionModel s)
    (leverageModel s) (hedgeModel s) (watchSymbols s) (tickerTimeMap s)
    (symbolPriceMap s) (tickerSignatureMap s) m (currentPositions s) (nextId s).

Definition with_currentPositions (s : State) (m : JsMap.t (JsMap.t Position.t)) : State :=
  mkState (users s) (wallets s) (orderModel s) (positionModel s)
    (leverageModel s) (hedgeModel s) (watchSymbols s) (tickerTimeMap s)
    (symbolPriceMap s) (tickerSignatureMap s) (currentOrders s) m (nextId s).

Definition with_nextId (s : State) (n : nat) : State :=
  mkState (users s) (wallets s) (orderModel s) (positionModel s)
    (leverageModel s) (hedgeModel s) (watchSymbols s) (tickerTimeMap s)
    (symbolPriceMap s) (tickerSignatureMap s) (currentOrders s)
    (currentPositions s) n.

(** The outcome of a call: the value returned or the exception thrown. *)
Inductive Result (A : Type) : Type :=
| Ok (a : A)
| Throw (e : Exception).
Arguments Ok {A} a.
Arguments Throw {A} e.

(** An [async] method: it runs on a state and leaves a state, also when it
    throws. *)
Definition M (A : Type) : Type := State -> Result A * State.

Definition ret {A} (a : A) : M A := fun s => (Ok a, s).
Definition throw {A} (e : Exception) : M A := fun s => (Throw e, s).
Definition bind {A B} (m : M A) (k : A -> M B) : M B :=
  fun s => match m s with
           | (Ok a, s') => k a s'
           | (Throw e, s') => (Throw e, s')
           end.
Definition gets {A} (f : State -> A) : M A := fun s => (Ok (f s), s).
Definition modify (f : State -> State) : M unit := fun s => (Ok tt, f s).

Declare Scope async_scope.
Delimit Scope async_scope with async.
Notation "x <- m ;; k" := (bind m (fun x => k))
  (at level 61, m at next level, right associativity) : async_scope.
Notation "m ;;; k" := (bind m (fun _ => k))
  (at level 61, right associativity) : async_scope.

(** The key [`${symbol}@${exchange}`]. *)
Definition symKey (symbol : string) (exchange : ExchangeEnum) : string :=
  (symbol ++ "@" ++ exchangeName exchange)%string.

(** ** [user.service.ts] *)

Definition getUserByKeyAndSecretOrThrow (key secret : string) : M User.t :=
  fun s =>
    match find (fun u => String.eqb (User.key u) key && String.eqb (User.secret u) secret)
               (users s) with
    | Some u => (Ok u, s)
    | None => (Throw (HttpException "User not found" 400), s)
    end.

Definition getUserByIdOrThrow (_id : string) : M User.t :=
  fun s =>
    match find (fun u => String.eqb (User.id u) _id) (users s) with
    | Some u => (Ok u, s)
    | None => (Throw (HttpException "User not found" 400), s)
    end.

(** [getUserBalanceByUserIdOrThrow(user, asset)]: the wallet rows of the user
    for the listed assets. *)
Definition getUserBalanceByUserIdOrThrow (user : string) (asset : list string)
    (ws : list Wallet.t) : list Wallet.t :=
  filter (fun w => String.eqb (Wallet.user w) user &&
                   (match asset with
                    | [] => true
                    | _ => existsb (String.eqb (Wallet.asset w)) asset
                    end)) ws.

(** [findOneAndUpdate({user, asset}, {$inc: {free, locked}}, {upsert: true})]:
    the first matching row is incremented; without a match a row is inserted
    with the increments as its values.  The guard on the sign of the result
    is commented out in the source, and so is absent here. *)
Fixpoint incWallet (ws : list Wallet.t) (user : string) (u : BalanceUpdate.t)
    : list Wallet.t :=
  match ws with
  | [] => [Wallet.mk user (BalanceUpdate.asset u) (BalanceUpdate.free u) (BalanceUpdate.locked u)]
  | w :: r =>
      if String.eqb (Wallet.user w) user && String.eqb (Wallet.asset w) (BalanceUpdate.asset u)
      then Wallet.mk (Wallet.user w) (Wallet.asset w)
             (Wallet.free w + BalanceUpdate.free u)
             (Wallet.locked w + BalanceUpdate.locked u) :: r
      else w :: incWallet r user u
  end.

Definition increaseUserBalance (user : string) (updates : list BalanceUpdate.t)
    (ws : list Wallet.t) : list Wallet.t :=
  fold_left (fun acc u => incWallet acc user u) updates ws.

(** [OrderService.updateBalance]; the balance snapshot it then pushes to the
    client is outside the state. *)
Definition updateBalance (user : string) (data : list BalanceUpdate.t) (s : State) : State :=
  match data with
  | [] => s
  | _ => with_wallets s (increaseUserBalance user data (wallets s))
  end.

(** ** [order/utils.ts] and the projection of [OrderService] *)

Definition getOrdersBySymbols (symbols : list string)
    (currentOrders : JsMap.t (JsMap.t Order.t)) : list Order.t :=
  flat_map (fun symbol =>
              match JsMap.get currentOrders symbol with
              | Some m => JsMap.values m
              | None => []
              end) symbols.

Definition getPositionsBySymbols (symbols : list string)
    (currentPositions : JsMap.t (JsMap.t Position.t)) : list Position.t :=
  flat_map (fun symbol =>
              match JsMap.get currentPositions symbol with
              | Some m => JsMap.values m
              | None => []
              end) symbols.

Definition getOrderByExternalIdAndSymbol (symbol externalId : string) (s : State)
    : option Order.t :=
  match JsMap.get (currentOrders s) symbol with
  | Some m => JsMap.get m externalId
  | None => None
  end.

Definition setOrder (order : Order.t) (s : State) : State :=
  let bySymbol := match JsMap.get (currentOrders s) (Order.symbol order) with
                  | Some m => m
                  | None => []
                  end in
  with_currentOrders s
    (JsMap.set (currentOrders s) (Order.symbol order)
       (JsMap.set bySymbol (Order.externalId order) order)).

Definition removeOrderAt (symbol externalId : string) (s : State) : State :=
  match JsMap.get (currentOrders s) symbol with
  | Some bySymbol =>
      with_currentOrders s
        (JsMap.set (currentOrders s) symbol (JsMap.delete bySymbol externalId))
  | None => s
  end.

Definition removeOrder (order : Order.t) (s : State) : State :=
  removeOrderAt (Order.symbol order) (Order.externalId order) s.

Definition setPosition (position : Position.t) (s : State) : State :=
  let bySymbol := match JsMap.get (currentPositions s) (Position.symbol position) with
                  | Some m => m
                  | None => []
                  end in
  with_currentPositions s
    (JsMap.set (currentPositions s) (Position.symbol position)
       (JsMap.set bySymbol (Position.uuid position) position)).

Definition removePosition (position : Position.t) (s : State) : State :=
  match JsMap.get (currentPositions s) (Position.symbol position) with
  | Some bySymbol =>
      with_currentPositions s
        (JsMap.set (currentPositions s) (Position.symbol position)
           (JsMap.delete bySymbol (Position.uuid position)))
  | None => s
  end.

(** [mapOrderDocumentToDataType]: the projected order is the stored one
    without its [feePerc]. *)
Definition mapOrderDocumentToDataType (p : Order.t) : Order.t :=
  Order.mk (Order._id p) (Order.amount p) (Order.filledAmount p)
    (Order.filledQuoteAmount p) (Order.quoteAmount p) (Order.price p)
    (Order.avgFilledPrice p) (Order.fee p) 0 (Order.symbol p) (Order.user p)
    (Order.exchange p) (Order.status p) (Order.type p) (Order.side p)
    (Order.externalId p) (Order.createdAt p) (Order.updatedAt p)
    (Order.reduceOnly p) (Order.positionSide p).

Definition mapPositionToDataType (p : Position.t) : Position.t := p.

Definition pushPosition (p : Order.t) (s : State) : State :=
  setOrder (mapOrderDocumentToDataType p) s.

Definition pushFuturePosition (p : Position.t) (s : State) : State :=
  setPosition (mapPositionToDataType p) s.

(** [(this.watchSymbols.get(sym) ?? new Set())]. *)
Definition watchSet (sym : string) (s : State) : JsSet.t :=
  match JsMap.get (watchSymbols s) sym with
  | Some w => w
  | None => []
  end.

(** [this.watchSymbols.set(sym, (this.watchSymbols.get(sym) ?? new Set()).add(id))]. *)
Definition watchAdd (sym id : string) (s : State) : State :=
  with_watchSymbols s (JsMap.set (watchSymbols s) sym (JsSet.add (watchSet sym s) id)).

(** The three statements that drop a holder from the watch set: delete the
    id from the symbol's set (when there is one), and delete the symbol when
    its set is empty or missing.  The unsubscription from the pub/sub channel
    that follows is outside the state. *)
Definition watchDrop (sym id : string) (s : State) : State :=
  let s1 := match JsMap.get (watchSymbols s) sym with
            | Some w => with_watchSymbols s (JsMap.set (watchSymbols s) sym (JsSet.delete w id))
            | None => s
            end in
  if Nat.eqb (JsSet.size (watchSet sym s1)) 0
  then with_watchSymbols s1 (JsMap.delete (watchSymbols s1) sym)
  else s1.

(** ** Fees and the liquidation price *)

Inductive FeeKind : Type := taker | maker.

Definition getUserFee (type : FeeKind) (exchange : ExchangeEnum) : Q :=
  match type with
  | maker =>
      if isFutures exchange
      then (if isCoinm exchange then coinmMakerFee else usdmMakerFee)
      else spotMakerFee
  | taker =>
      if isFutures exchange
      then (if isCoinm exchange then coinmMakerFee * 5 else usdmMakerFee * 2)
      else spotMakerFee
  end.

Definition liquidationPrice (entryPrice : Q) (position : PositionSide.t)
    (fee : Q) (leverage : Q) : Q :=
  entryPrice *
  (if Num.ltb 1 leverage
   then (1 + (1 / leverage) * (if PositionSide.eqb position PositionSide.long then -1 else 1)) *
        (1 + fee * (if PositionSide.eqb position PositionSide.long then -1 else 1))
   else if PositionSide.eqb position PositionSide.long
        then fee
        else 1 / fee).

(** [v4()]: a fresh uuid, drawn from the id supply. *)
Definition uuidOf (n : nat) : string := ("uuid-" ++ idToString n)%string.

Definition feeKindOf (type : OrderType.t) : FeeKind :=
  match type with OrderType.LIMIT => maker | OrderType.MARKET => taker end.

(** [createPositionFromOrder]; the [_id] is assigned by [positionModel.create]. *)
Definition createPositionFromOrder (env : Env) (uuid : string) (order : Order.t)
    (leverage : Q) (_margin _fee amount : option Q) : Position.t :=
  let margin := match _margin with
                | Some m => m
                | None => (Order.amount order * Order.price order) / leverage
                end in
  let fee := match _fee with Some f => f | None => Order.fee order end in
  let time := now env in
  let feePerc := getUserFee (feeKindOf (Order.type order)) (Order.exchange order) in
  let positionSide :=
    match Order.side order with
    | OrderSide.BUY => PositionSide.long
    | OrderSide.SELL => PositionSide.short
    end in
  Position.mk 0%nat
    (Order.symbol order)
    margin
    (Order.price order)
    0
    (liquidationPrice (Order.price order) positionSide feePerc leverage)
    positionSide
    (match amount with Some a => a | None => Order.amount order end)
    (Order.user order)
    (Order.exchange order)
    time time
    PositionStatus.new
    (- fee)
    fee
    leverage
    uuid.

(** [positionModel.create(createPositionFromOrder(...))]: one id of the supply
    is the uuid, the next the [_id] of the document. *)
Definition createPosition (env : Env) (order : Order.t) (leverage : Q)
    (_margin _fee amount : option Q) (s : State) : Position.t * State :=
  let p := createPositionFromOrder env (uuidOf (nextId s)) order leverage _margin _fee amount in
  let position :=
    Position.mk (S (nextId s)) (Position.symbol p) (Position.margin p)
      (Position.entryPrice p) (Position.closePrice p) (Position.liquidationPrice p)
      (Position.positionSide p) (Position.positionAmt p) (Position.user p)
      (Position.exchange p) (Position.createdAt p) (Position.updatedAt p)
      (Position.status p) (Position.profit p) (Position.fee p)
      (Position.leverage p) (Position.uuid p) in
  (position,
   with_nextId (with_positionModel s (positionModel s ++ [position])) (S (S (nextId s)))).

Definition addPositionToWatchList (position : Position.t) (s : State) : State :=
  watchAdd (symKey (Position.symbol position) (Position.exchange position))
    (Position.id position) (setPosition position s).

(** [leverageModel.updateOne({user, symbol, side}, {$set: {locked}})]. *)
Fixpoint setLeverageLocked (ls : list Leverage.t) (user symbol : string)
    (side : option PositionSide.t) (locked : bool) : list Leverage.t :=
  match ls with
  | [] => []
  | l :: r =>
      if String.eqb (Leverage.user l) user && String.eqb (Leverage.symbol l) symbol
         && sideEq (Leverage.side l) side
      then Leverage.mk (Leverage.user l) (Leverage.symbol l) (Leverage.side l)
             (Leverage.leverage l) locked :: r
      else l :: setLeverageLocked r user symbol side locked
  end.

Definition lockLeverage (user symbol : string) (side : option PositionSide.t) (s : State) : State :=
  with_leverageModel s (setLeverageLocked (leverageModel s) user symbol side true).

Definition unLockLeverage (user symbol : string) (side : option PositionSide.t) (s : State) : State :=
  with_leverageModel s (setLeverageLocked (leverageModel s) user symbol side false).

(** ** [processFuturesPosition] *)

(** The fields of a position that settlement assigns. *)
Definition updatePosition (c : Position.t)
    (margin entryPrice closePrice liquidationPrice positionAmt : Q)
    (updatedAt : Z) (status : PositionStatus.t) (profit fee : Q) : Position.t :=
  Position.mk (Position._id c) (Position.symbol c) margin entryPrice closePrice
    liquidationPrice (Position.positionSide c) positionAmt (Position.user c)
    (Position.exchange c) (Position.createdAt c) updatedAt status profit fee
    (Position.leverage c) (Position.uuid c).

(** The fields of an order that a trimmed reduce-only fill assigns. *)
Definition trimOrder (o : Order.t) (fee amount : Q) : Order.t :=
  Order.mk (Order._id o) amount amount (amount * Order.price o)
    (amount * Order.price o) (Order.price o) (Order.avgFilledPrice o) fee
    (Order.feePerc o) (Order.symbol o) (Order.user o) (Order.exchange o)
    (Order.status o) (Order.type o) (Order.side o) (Order.externalId o)
    (Order.createdAt o) (Order.updatedAt o) (Order.reduceOnly o)
    (Order.positionSide o).

(** [orderModel.findOneAndUpdate({externalId}, {...order})]: the first
    document with that [externalId] takes the fields of [order].  These
    include its [_id], which the server lets no update change: the update is
    refused ([None]) when the document found is another one than the
    order's. *)
Fixpoint replaceOrderByExternalId (os : list Order.t) (order : Order.t)
    : option (list Order.t) :=
  match os with
  | [] => Some []
  | o :: r =>
      if String.eqb (Order.externalId o) (Order.externalId order)
      then if Nat.eqb (Order._id o) (Order._id order) then Some (order :: r) else None
      else match replaceOrderByExternalId r order with
           | Some r' => Some (o :: r')
           | None => None
           end
  end.

(** [positionModel.findOneAndUpdate({uuid}, {...current, updatedAt})]. *)
Fixpoint replacePositionByUuid (ps : list Position.t) (current : Position.t) : list Position.t :=
  match ps with
  | [] => []
  | p :: r =>
      if String.eqb (Position.uuid p) (Position.uuid current)
      then current :: r
      else p :: replacePositionByUuid r current
  end.

Definition hedgeOf (user : string) (s : State) : bool :=
  match find (fun h => String.eqb (Hedge.user h) user) (hedgeModel s) with
  | Some h => Hedge.hedge h
  | None => false
  end.

(** The position the order acts on: the user's position on the symbol, of
    the order's position side when the user is in hedge mode. *)
Definition findPosition (symbol user : string) (hedge : bool)
    (positionSide : option PositionSide.t) (s : State) : option Position.t :=
  find (fun p => String.eqb (Position.user p) user &&
                 (if hedge then sideEq (Some (Position.positionSide p)) positionSide else true))
       (getPositionsBySymbols [symbol] (currentPositions s)).

(** What the branch taken on an existing position leaves: the position as
    assigned, the state after the branch's own writes, the balance
    increments, and whether the branch's update of the order was refused. *)
Record Settled : Type := mkSettled {
  st_current : Position.t;
  st_state : State;
  st_locked : Q;
  st_free : Q;
  st_refused : bool
}.

(** [Math.abs(r) < x]; a comparison with [NaN] is false.  (At the precision
    10 of its one use, [round] raises no [RangeError].) *)
Definition absLt (r : MathHelper.rounded) (x : Q) : bool :=
  match r with
  | MathHelper.Rounded q => Num.ltb (Qabs q) x
  | MathHelper.NaN | MathHelper.RangeError => false
  end.

Definition settleExisting (env : Env) (order : Order.t) (leverage : Q)
    (symbol : ExchangeInfo.t) (current : Position.t) (margin : Q) (s : State) : Settled :=
  let coinm := isCoinm (Order.exchange order) in
  let qMin := QuoteAsset.minAmount (ExchangeInfo.quoteAsset symbol) in
  let feePerc :=
    if Num.truthy (Order.feePerc order) then Order.feePerc order
    else getUserFee (feeKindOf (Order.type order)) (Order.exchange order) in
  if (OrderSide.eqb (Order.side order) OrderSide.BUY &&
      PositionSide.eqb (Position.positionSide current) PositionSide.long) ||
     (OrderSide.eqb (Order.side order) OrderSide.SELL &&
      PositionSide.eqb (Position.positionSide current) PositionSide.short)
  then
    let entryPrice :=
      (Position.entryPrice current * Position.positionAmt current +
       Order.price order * Order.amount order) /
      (Position.positionAmt current + Order.amount order) in
    mkSettled
      (updatePosition current
         (Position.margin current + margin)
         entryPrice
         (Position.closePrice current)
         (liquidationPrice entryPrice (Position.positionSide current) feePerc leverage)
         (Position.positionAmt current + Order.amount order)
         (now env)
         (Position.status current)
         (Position.profit current - Order.fee order)
         (Position.fee current + Order.fee order))
      s margin (- margin - Order.fee order) false
  else
    let long := PositionSide.eqb (Position.positionSide current) PositionSide.long in
    let dir : Q := if long then 1 else -1 in
    let diff := Position.positionAmt current - Order.amount order in
    let roundedDiff := MathHelper.round diff 10 in
    if Num.leb (Qabs diff) Num.EPSILON ||
       (if coinm
        then absLt roundedDiff 1
        else absLt roundedDiff (BaseAsset.minAmount (ExchangeInfo.baseAsset symbol)))
    then
      let profit :=
        if coinm
        then ((Position.positionAmt current * qMin) / Position.entryPrice current -
              (Position.positionAmt current * qMin) / Order.price order) * dir -
             Order.fee order
        else (Position.positionAmt current * Order.price order -
              Position.positionAmt current * Position.entryPrice current) * dir -
             Order.fee order in
      let old := Position.margin current in
      mkSettled
        (updatePosition current 0 (Position.entryPrice current) (Order.price order)
           (Position.liquidationPrice current) (Position.positionAmt current)
           (Position.updatedAt current) PositionStatus.closed
           (Position.profit current + profit) (Position.fee current + Order.fee order))
        (watchDrop (symKey (Order.symbol order) (Order.exchange order)) (Position.id current)
           (unLockLeverage (Order.user order) (Order.symbol order) (Order.positionSide order) s))
        (- old) (old + profit) false
    else if Num.leb diff 0 then
      if Order.reduceOnly order then
        let fee :=
          Order.fee order -
          (if coinm
           then (Qabs diff * qMin) / Order.price order
           else Qabs diff * feePerc) in
        let order := trimOrder order fee (Position.positionAmt current) in
        let profit :=
          if coinm
          then ((Order.amount order * qMin) / Position.entryPrice current -
                (Order.amount order * qMin) / Order.price order) * dir -
               Order.fee order
          else (Order.amount order * Order.price order -
                Order.amount order * Position.entryPrice current) * dir -
               Order.fee order in
        let old := Position.margin current in
        let closed :=
          updatePosition current 0 (Position.entryPrice current) (Order.price order)
            (Position.liquidationPrice current) (Position.positionAmt current)
            (Position.updatedAt current) PositionStatus.closed
            (Position.profit current + profit) (Position.fee current + Order.fee order) in
        match replaceOrderByExternalId (orderModel s) order with
        | Some orders =>
            mkSettled closed
              (unLockLeverage (Order.user order) (Order.symbol order) (Order.positionSide order)
                 (with_orderModel s orders))
              (- old) (old + profit) false
        | None => mkSettled closed s (- old) (old + profit) true
        end
      else
        let diffMargin :=
          if coinm
          then (Position.positionAmt current * qMin) / Position.entryPrice current / leverage
          else (Position.positionAmt current * Position.entryPrice current) / leverage in
        let fee :=
          (if coinm
           then (Position.positionAmt current * qMin) / Order.price order
           else Position.positionAmt current * Order.price order) * feePerc in
        let profit :=
          if coinm
          then ((Position.positionAmt current * qMin) / Position.entryPrice current -
                (Position.positionAmt current * qMin) / Order.price order) * dir - fee
          else (Position.positionAmt current * Order.price order -
                Position.positionAmt current * Position.entryPrice current) * dir - fee in
        let '(position, s1) :=
          createPosition env order leverage (Some (margin - diffMargin))
            (Some (Order.fee order - fee))
            (Some (Order.amount order - Position.positionAmt current)) s in
        mkSettled
          (updatePosition current (Position.margin current - diffMargin)
             (Position.entryPrice current) (Order.price order)
             (Position.liquidationPrice current) (Position.positionAmt current)
             (Position.updatedAt current) PositionStatus.closed
             (Position.profit current + profit) (Position.fee current + fee))
          (addPositionToWatchList position s1)
          (- diffMargin + (margin - diffMargin))
          (diffMargin + profit + fee - Order.fee order - (margin - diffMargin))
          false
    else
      let profit :=
        if coinm
        then ((Order.amount order * qMin) / Position.entryPrice current -
              (Order.amount order * qMin) / Order.price order) * dir -
             Order.fee order
        else (Order.amount order * Order.price order -
              Order.amount order * Position.entryPrice current) * dir -
             Order.fee order in
      mkSettled
        (updatePosition current (Position.margin current - margin)
           (Position.entryPrice current) (Position.closePrice current)
           (Position.liquidationPrice current)
           (Position.positionAmt current - Order.amount order)
           (Position.updatedAt current) (Position.status current)
           (Position.profit current + profit) (Position.fee current + Order.fee order))
        s (- margin) (margin + profit) false.

(** The position found is the projection's own object, and the branches
    assign its fields in place: when the update of the order is refused, the
    exception leaves the method with these assignments made and nothing
    else. *)
Definition processFuturesPosition (env : Env) (order : Order.t) (leverage : Q)
    (symbol : ExchangeInfo.t) : M unit := fun s =>
  let hedge := hedgeOf (Order.user order) s in
  let current :=
    findPosition (Order.symbol order) (Order.user order) hedge (Order.positionSide order) s in
  let margin :=
    if isCoinm (Order.exchange order)
    then (Order.amount order * QuoteAsset.minAmount (ExchangeInfo.quoteAsset symbol)) /
         Order.price order / leverage
    else (Order.amount order * Order.price order) / leverage in
  let asset :=
    if isCoinm (Order.exchange order)
    then BaseAsset.name (ExchangeInfo.baseAsset symbol)
    else QuoteAsset.name (ExchangeInfo.quoteAsset symbol) in
  match current with
  | None =>
      let '(position, s1) := createPosition env order leverage (Some margin) None None s in
      let s2 := addPositionToWatchList position s1 in
      let s3 := lockLeverage (Order.user order) (Order.symbol order) (Order.positionSide order) s2 in
      (Ok tt,
       updateBalance (Order.user order)
         [BalanceUpdate.mk asset (- margin - Order.fee order) margin] s3)
  | Some current =>
      let r := settleExisting env order leverage symbol current margin s in
      let current := st_current r in
      if st_refused r
      then (Throw (MongoServerError
                     "Performing an update on the path '_id' would modify the immutable field '_id'"),
            setPosition current (st_state r))
      else
      let s1 :=
        if PositionStatus.eqb (Position.status current) PositionStatus.closed
        then removePosition current (st_state r)
        else setPosition current (st_state r) in
      let stored :=
        updatePosition current (Position.margin current) (Position.entryPrice current)
          (Position.closePrice current) (Position.liquidationPrice current)
          (Position.positionAmt current) (now env) (Position.status current)
          (Position.profit current) (Position.fee current) in
      let s2 := with_positionModel s1 (replacePositionByUuid (positionModel s1) stored) in
      (Ok tt,
       updateBalance (Order.user order) [BalanceUpdate.mk asset (st_free r) (st_locked r)] s2)
  end.

(** ** Order creation *)

Local Open Scope async_scope.

(** [!currentPrice]: no price, or a price that is falsy. *)
Definition noPrice (p : option Q) : bool :=
  match p with
  | Some q => negb (Num.truthy q)
  | None => true
  end.

(** [this.symbolPriceMap.get(key)] and [this.tickerTimeMap.get(key) ?? 0]. *)
Definition cachedPrice (s : State) (key : string) : option Q :=
  match JsMap.get (symbolPriceMap s) key with
  | Some p => p
  | None => None
  end.

Definition cachedTickerTime (s : State) (key : string) : Z :=
  match JsMap.get (tickerTimeMap s) key with
  | Some t => t
  | None => 0%Z
  end.

(** The end of [getLatestPriceInExchange]: the price, or a 400 when there is
    none. *)
Definition priceOrThrow (currentPrice : option Q) : M Q :=
  fun s1 =>
    match currentPrice with
    | Some p =>
        if Num.truthy p then (Ok p, s1)
        else (Throw (HttpException "Failed to get latest price from exchange" 400), s1)
    | None => (Throw (HttpException "Failed to get latest price from exchange" 400), s1)
    end.

(** When the price service resolved to [null], reading [request.status]
    throws, before anything is written. *)
Definition getLatestPriceInExchange (env : Env) (symbol : string)
    (exchange : ExchangeEnum) : M Q :=
  fun s =>
    let key := symKey symbol exchange in
    if noPrice (cachedPrice s key) ||
       (newDataLimit <? now env - cachedTickerTime s key)%Z
    then
      match latestPrice env exchange symbol with
      | None =>
          (Throw (TypeError "Cannot read properties of null (reading 'status')"), s)
      | Some data =>
          priceOrThrow data
            (with_symbolPriceMap
               (with_tickerTimeMap s (JsMap.set (tickerTimeMap s) key (now env)))
               (JsMap.set (symbolPriceMap s) key data))
      end
    else priceOrThrow (cachedPrice s key) s.

(** [orderModel.create(data)]: the unique index on [(externalId, symbol)]
    refuses a duplicate; the document gets a fresh [_id] and its timestamps. *)
Definition orderModel_create (env : Env) (data : Order.t) : M Order.t :=
  fun s =>
    if existsb (fun o => String.eqb (Order.externalId o) (Order.externalId data) &&
                         String.eqb (Order.symbol o) (Order.symbol data))
               (orderModel s)
    then (Throw (MongoServerError "E11000 duplicate key error"), s)
    else
      let o :=
        Order.mk (nextId s) (Order.amount data) (Order.filledAmount data)
          (Order.filledQuoteAmount data) (Order.quoteAmount data) (Order.price data)
          (Order.avgFilledPrice data) (Order.fee data) (Order.feePerc data)
          (Order.symbol data) (Order.user data) (Order.exchange data)
          (Order.status data) (Order.type data) (Order.side data)
          (Order.externalId data) (now env) (now env) (Order.reduceOnly data)
          (Order.positionSide data) in
      (Ok o, with_nextId (with_orderModel s (orderModel s ++ [o])) (S (nextId s))).

Definition processMarketOrder (env : Env) (order : CreateOrderDto.t)
    (user : User.t) (leverage : Q) : M CreateOrderResponse.t :=
  currentPrice <- getLatestPriceInExchange env (CreateOrderDto.symbol order)
                    (CreateOrderDto.exchange order) ;;
  let exchange := CreateOrderDto.exchange order in
  let symbol := getExchangeInfo env (CreateOrderDto.symbol order) exchange in
  let quoteAssetAmount := CreateOrderDto.amount order * currentPrice in
  let baseAssetAmount :=
    if isCoinm exchange
    then (CreateOrderDto.amount order * QuoteAsset.minAmount (ExchangeInfo.quoteAsset symbol)) /
         currentPrice
    else CreateOrderDto.amount order in
  let feePerc := getUserFee taker exchange in
  let fee0 :=
    if isFutures exchange
    then (if isCoinm exchange then baseAssetAmount * feePerc else quoteAssetAmount * feePerc)
    else 0 in
  let fee :=
    match CreateOrderDto.side order with
    | OrderSide.SELL => if isFutures exchange then fee0 else quoteAssetAmount * feePerc
    | OrderSide.BUY => if isFutures exchange then fee0 else CreateOrderDto.amount order * feePerc
    end in
  let orderData :=
    Order.mk 0%nat (CreateOrderDto.amount order) (CreateOrderDto.amount order)
      quoteAssetAmount quoteAssetAmount currentPrice currentPrice fee feePerc
      (CreateOrderDto.symbol order) (User.id user) exchange OrderStatus.FILLED
      OrderType.MARKET (CreateOrderDto.side order) (CreateOrderDto.externalId order)
      0%Z 0%Z (CreateOrderDto.reduceOnly order) (CreateOrderDto.positionSide order) in
  orderInDb <- orderModel_create env orderData ;;
  (if isFutures exchange
   then processFuturesPosition env orderInDb leverage symbol
   else
     let balance :=
       match CreateOrderDto.side order with
       | OrderSide.SELL =>
           [BalanceUpdate.mk (QuoteAsset.name (ExchangeInfo.quoteAsset symbol))
              (quoteAssetAmount - fee) 0;
            BalanceUpdate.mk (BaseAsset.name (ExchangeInfo.baseAsset symbol))
              (- CreateOrderDto.amount order) 0]
       | OrderSide.BUY =>
           [BalanceUpdate.mk (BaseAsset.name (ExchangeInfo.baseAsset symbol))
              (baseAssetAmount - fee) 0;
            BalanceUpdate.mk (QuoteAsset.name (ExchangeInfo.quoteAsset symbol))
              (- quoteAssetAmount) 0]
       end in
     modify (updateBalance (User.id user) balance)) ;;;
  ret (CreateOrderResponse.mk (Order.id orderInDb) (Order.status orderInDb)).

Definition createLimitOrder (env : Env) (order : CreateOrderDto.t)
    (user : User.t) : M CreateOrderResponse.t :=
  let exchange := CreateOrderDto.exchange order in
  let symbol := getExchangeInfo env (CreateOrderDto.symbol order) exchange in
  let quoteAssetAmount := CreateOrderDto.amount order * CreateOrderDto.price order in
  orderInDb <- orderModel_create env
    (Order.mk 0%nat (CreateOrderDto.amount order) 0 0 quoteAssetAmount
       (CreateOrderDto.price order) 0 0 (getUserFee maker exchange)
       (CreateOrderDto.symbol order) (User.id user) exchange OrderStatus.CREATED
       (CreateOrderDto.type order) (CreateOrderDto.side order)
       (CreateOrderDto.externalId order) 0%Z 0%Z (CreateOrderDto.reduceOnly order)
       (CreateOrderDto.positionSide order)) ;;
  let balance :=
    if negb (isFutures exchange)
    then match CreateOrderDto.side order with
         | OrderSide.SELL =>
             [BalanceUpdate.mk (BaseAsset.name (ExchangeInfo.baseAsset symbol))
                (- CreateOrderDto.amount order) (CreateOrderDto.amount order)]
         | OrderSide.BUY =>
             [BalanceUpdate.mk (QuoteAsset.name (ExchangeInfo.quoteAsset symbol))
                (- quoteAssetAmount) quoteAssetAmount]
         end
    else [] in
  modify (updateBalance (User.id user) balance) ;;;
  modify (pushPosition orderInDb) ;;;
  modify (watchAdd (symKey (CreateOrderDto.symbol order) exchange)
            (CreateOrderDto.externalId order)) ;;;
  ret (CreateOrderResponse.mk (Order.id orderInDb) (Order.status orderInDb)).

(** The request with its [type] reassigned. *)
Definition withType (order : CreateOrderDto.t) (type : OrderType.t) : CreateOrderDto.t :=
  CreateOrderDto.mk (CreateOrderDto.key order) (CreateOrderDto.secret order)
    (CreateOrderDto.symbol order) (CreateOrderDto.amount order) type
    (CreateOrderDto.exchange order) (CreateOrderDto.side order)
    (CreateOrderDto.externalId order) (CreateOrderDto.price order)
    (CreateOrderDto.reduceOnly order) (CreateOrderDto.positionSide order).

(** The test that turns a request into a market order: it asks for one, or
    its limit price crosses the current price. *)
Definition marketable (order : CreateOrderDto.t) (currentPrice : Q) : bool :=
  OrderType.eqb (CreateOrderDto.type order) OrderType.MARKET ||
  (OrderSide.eqb (CreateOrderDto.side order) OrderSide.BUY &&
   Num.ltb currentPrice (CreateOrderDto.price order)) ||
  (OrderSide.eqb (CreateOrderDto.side order) OrderSide.SELL &&
   Num.ltb (CreateOrderDto.price order) currentPrice).

(** [!balance || balance.free < x]. *)
Definition lacks (balance : option Wallet.t) (x : Q) : bool :=
  match balance with
  | None => true
  | Some b => Num.ltb (Wallet.free b) x
  end.

(** The leverage read at the start of [createOrder] for a derivatives
    exchange; a missing leverage row is inserted, unlocked, with leverage 1. *)
Definition ensureLeverage (user : User.t) (order : CreateOrderDto.t) : M Q :=
  fun s =>
    match find (fun l => String.eqb (Leverage.user l) (User.id user) &&
                         String.eqb (Leverage.symbol l) (CreateOrderDto.symbol order) &&
                         sideEq (Leverage.side l) (CreateOrderDto.positionSide order))
               (leverageModel s) with
    | Some leverageDoc => (Ok (Leverage.leverage leverageDoc), s)
    | None =>
        (Ok 1,
         with_leverageModel s
           (leverageModel s ++
            [Leverage.mk (User.id user) (CreateOrderDto.symbol order)
               (CreateOrderDto.positionSide order) 1 false]))
    end.

(** The part of [createOrder] that follows the reading of the user, the
    balances, the leverage and the current price: the choice of the type,
    the balance checks and the hand-over to the market or limit path. *)
Definition admitOrder (env : Env) (order : CreateOrderDto.t) (user : User.t)
    (balance : list Wallet.t) (leverage currentPrice : Q) : M CreateOrderResponse.t :=
  let exchange := CreateOrderDto.exchange order in
  let symbol := getExchangeInfo env (CreateOrderDto.symbol order) exchange in
  let quoteAsset := QuoteAsset.name (ExchangeInfo.quoteAsset symbol) in
  let baseAsset := BaseAsset.name (ExchangeInfo.baseAsset symbol) in
  let baseAssetBalance := find (fun b => String.eqb (Wallet.asset b) baseAsset) balance in
  let quoteAssetBalance := find (fun b => String.eqb (Wallet.asset b) quoteAsset) balance in
  let isMarket := marketable order currentPrice in
  let order := withType order (if isMarket then OrderType.MARKET else OrderType.LIMIT) in
  let usedPrice := if isMarket then currentPrice else CreateOrderDto.price order in
  let amount := CreateOrderDto.amount order in
  let qMin := QuoteAsset.minAmount (ExchangeInfo.quoteAsset symbol) in
  if isFutures exchange then
    hedge <- gets (hedgeOf (User.id user)) ;;
    if hedge && sideEq (CreateOrderDto.positionSide order) (Some PositionSide.both)
    then throw (HttpException "Position side must be specified in hedge mode" 400)
    else
      find_ <- gets (findPosition (CreateOrderDto.symbol order) (User.id user) hedge
                       (CreateOrderDto.positionSide order)) ;;
      let openCheck :=
        if isCoinm exchange
        then lacks baseAssetBalance ((amount * qMin) / usedPrice / leverage)
        else lacks quoteAssetBalance ((amount * usedPrice) / leverage) in
      let notEnough :=
        match find_ with
        | Some p =>
            let side := CreateOrderDto.side order in
            if (PositionSide.eqb (Position.positionSide p) PositionSide.long &&
                OrderSide.eqb side OrderSide.BUY) ||
               (PositionSide.eqb (Position.positionSide p) PositionSide.short &&
                OrderSide.eqb side OrderSide.SELL)
            then openCheck
            else if ((PositionSide.eqb (Position.positionSide p) PositionSide.short &&
                      OrderSide.eqb side OrderSide.BUY) ||
                     (PositionSide.eqb (Position.positionSide p) PositionSide.long &&
                      OrderSide.eqb side OrderSide.SELL)) &&
                    negb (CreateOrderDto.reduceOnly order)
            then
              let diff :=
                if isCoinm exchange
                then Num.max0 (((amount - Position.positionAmt p) * qMin) /
                               CreateOrderDto.price order / leverage)
                else Num.max0 (((amount - Position.positionAmt p) *
                                CreateOrderDto.price order) / leverage) in
              if isCoinm exchange
              then lacks baseAssetBalance diff
              else lacks quoteAssetBalance diff
            else false
        | None => openCheck
        end in
      if notEnough then throw (HttpException "Not enough balance" 400)
      else if (match find_ with None => true | Some _ => false end) &&
              CreateOrderDto.reduceOnly order
      then throw (HttpException "Reduce order is rejected" 400)
      else if OrderType.eqb (CreateOrderDto.type order) OrderType.LIMIT
      then createLimitOrder env order user
      else processMarketOrder env order user leverage
  else if marketable order currentPrice then
    if OrderSide.eqb (CreateOrderDto.side order) OrderSide.BUY &&
       lacks quoteAssetBalance (amount * currentPrice)
    then throw (HttpException "Not enough balance" 400)
    else if OrderSide.eqb (CreateOrderDto.side order) OrderSide.SELL &&
            lacks baseAssetBalance amount
    then throw (HttpException "Not enough balance" 400)
    else processMarketOrder env order user leverage
  else
    if OrderSide.eqb (CreateOrderDto.side order) OrderSide.BUY &&
       lacks quoteAssetBalance (amount * CreateOrderDto.price order)
    then throw (HttpException "Not enough balance" 400)
    else if OrderSide.eqb (CreateOrderDto.side order) OrderSide.SELL &&
            lacks baseAssetBalance amount
    then throw (HttpException "Not enough balance" 400)
    else createLimitOrder env order user.

Definition createOrder (env : Env) (order : CreateOrderDto.t) : M CreateOrderResponse.t :=
  user <- getUserByKeyAndSecretOrThrow (CreateOrderDto.key order) (CreateOrderDto.secret order) ;;
  let exchange := CreateOrderDto.exchange order in
  let symbol := getExchangeInfo env (CreateOrderDto.symbol order) exchange in
  balance <- gets (fun s => getUserBalanceByUserIdOrThrow (User.id user)
                              [BaseAsset.name (ExchangeInfo.baseAsset symbol);
                               QuoteAsset.name (ExchangeInfo.quoteAsset symbol)]
                              (wallets s)) ;;
  leverage <- (if isFutures exchange then ensureLeverage user order else ret 1) ;;
  currentPrice <- getLatestPriceInExchange env (CreateOrderDto.symbol order) exchange ;;
  admitOrder env order user balance leverage currentPrice.

(** Two states with the same users, balances, orders, positions, hedge
    settings, watch set and projection; the leverage rows and the price and
    time caches may differ. *)
Definition sameBooks (s s' : State) : Prop :=
  users s' = users s /\ wallets s' = wallets s /\ orderModel s' = orderModel s /\
  positionModel s' = positionModel s /\ hedgeModel s' = hedgeModel s /\
  watchSymbols s' = watchSymbols s /\ tickerSignatureMap s' = tickerSignatureMap s /\
  currentOrders s' = currentOrders s /\ currentPositions s' = currentPositions s /\
  nextId s' = nextId s.

(** ** Cancellation *)

(** [orderModel.updateOne({_id}, ...)]: the document with that [_id] is
    rewritten by [f]. *)
Fixpoint updateOrderById (os : list Order.t) (_id : ObjectId)
    (f : Order.t -> Order.t) : list Order.t :=
  match os with
  | [] => []
  | o :: r =>
      if Nat.eqb (Order._id o) _id then f o :: r
      else o :: updateOrderById r _id f
  end.

Definition setStatus (status : OrderStatus.t) (o : Order.t) : Order.t :=
  Order.mk (Order._id o) (Order.amount o) (Order.filledAmount o)
    (Order.filledQuoteAmount o) (Order.quoteAmount o) (Order.price o)
    (Order.avgFilledPrice o) (Order.fee o) (Order.feePerc o) (Order.symbol o)
    (Order.user o) (Order.exchange o) status (Order.type o) (Order.side o)
    (Order.externalId o) (Order.createdAt o) (Order.updatedAt o)
    (Order.reduceOnly o) (Order.positionSide o).

(** The reservation a cancelled order gives back: the unfilled quote amount
    of a BUY, the unfilled base amount of a SELL, nothing on a derivatives
    exchange. *)
Definition cancelAmount (order : Order.t) : Q :=
  if isFutures (Order.exchange order) then 0
  else match Order.side order with
       | OrderSide.BUY => Order.quoteAmount order - Order.filledQuoteAmount order
       | OrderSide.SELL => Order.amount order - Order.filledAmount order
       end.

Definition cancelAsset (env : Env) (order : Order.t) : string :=
  let symbol := getExchangeInfo env (Order.symbol order) (Order.exchange order) in
  match Order.side order with
  | OrderSide.BUY => QuoteAsset.name (ExchangeInfo.quoteAsset symbol)
  | OrderSide.SELL => BaseAsset.name (ExchangeInfo.baseAsset symbol)
  end.

Definition processCancelOrder (env : Env) (orderId : string) (user : User.t)
    (expired : bool) : M string :=
  fun s =>
    match find (fun o => String.eqb (Order.externalId o) orderId &&
                         String.eqb (Order.user o) (User.id user))
               (orderModel s) with
    | None => (Throw (HttpException "Unknown order" 400), s)
    | Some order =>
        if OrderStatus.terminal (Order.status order)
        then (Throw (HttpException "Unknown order" 400), s)
        else
          let status := if expired then OrderStatus.EXPIRED else OrderStatus.CANCELED in
          let s1 := with_orderModel s
                      (updateOrderById (orderModel s) (Order._id order) (setStatus status)) in
          let s2 :=
            match Order.type order with
            | OrderType.LIMIT =>
                let amount := cancelAmount order in
                if Num.truthy amount
                then updateBalance (User.id user)
                       [BalanceUpdate.mk (cancelAsset env order) amount (- amount)] s1
                else s1
            | OrderType.MARKET => s1
            end in
          let s3 := watchDrop (symKey (Order.symbol order) (Order.exchange order))
                      (Order.externalId order) s2 in
          (Ok "canceled"%string,
           removeOrderAt (Order.symbol order) (Order.externalId order) s3)
    end.

Definition cancelOrderByKeySecretExternalIdAndSymbol (env : Env)
    (key secret externalId : string) (expired : bool) : M string :=
  user <- getUserByKeyAndSecretOrThrow key secret ;;
  processCancelOrder env externalId user expired.

(** The lookup by [_id] dereferences its result without a test. *)
Definition cancelOrderByKeySecretIdAndSymbol (env : Env)
    (key secret orderId : string) (expired : bool) : M string :=
  user <- getUserByKeyAndSecretOrThrow key secret ;;
  order <- gets (fun s => find (fun o => String.eqb (Order.id o) orderId) (orderModel s)) ;;
  match order with
  | None => throw (TypeError "Cannot read properties of null (reading 'externalId')")
  | Some order => processCancelOrder env (Order.externalId order) user expired
  end.

(** ** Limit-order fills *)

(** The order after a fill of [baseAssetAmount] for [quoteAssetAmount]. *)
Definition fillOrder (order : Order.t) (status : OrderStatus.t)
    (baseAssetAmount quoteAssetAmount fee feePerc : Q) (updatedAt : Z) : Order.t :=
  Order.mk (Order._id order) (Order.amount order)
    (Order.filledAmount order + baseAssetAmount)
    (Order.filledQuoteAmount order + quoteAssetAmount)
    (Order.quoteAmount order) (Order.price order) (Order.price order)
    (Order.fee order + fee) feePerc (Order.symbol order) (Order.user order)
    (Order.exchange order) status (Order.type order) (Order.side order)
    (Order.externalId order) (Order.createdAt order) updatedAt
    (Order.reduceOnly order) (Order.positionSide order).

(** The update of the stored document: the three increments, and the
    assigned [avgFilledPrice], [status] and [updatedAt]. *)
Definition fillStored (order : Order.t) (status : OrderStatus.t)
    (baseAssetAmount quoteAssetAmount fee : Q) (updatedAt : Z) (o : Order.t) : Order.t :=
  Order.mk (Order._id o) (Order.amount o)
    (Order.filledAmount o + baseAssetAmount)
    (Order.filledQuoteAmount o + quoteAssetAmount)
    (Order.quoteAmount o) (Order.price o) (Order.price order)
    (Order.fee o + fee) (Order.feePerc o) (Order.symbol o) (Order.user o)
    (Order.exchange o) status (Order.type o) (Order.side o)
    (Order.externalId o) (Order.createdAt o) updatedAt
    (Order.reduceOnly o) (Order.positionSide o).

(** The size of a fill and whether it completes the order: the whole
    remainder on a derivatives exchange or when the price is strictly better
    than the touched side, else at most the quoted size. *)
Definition fillSize (futures : bool) (strictlyBetter : bool) (remaining qty : Q) : Q * bool :=
  if futures || strictlyBetter then (remaining, true)
  else if Num.leb remaining qty then (remaining, true)
  else (qty, false).

Definition processLimitOrder (env : Env) (order : Order.t) (data : Tick.t) (s : State) : State :=
  if OrderStatus.terminal (Order.status order) then s
  else
    match getOrderByExternalIdAndSymbol (Order.symbol order) (Order.externalId order) s with
    | None => s
    | Some inCurrent =>
        if OrderStatus.terminal (Order.status inCurrent) then s
        else
          let exchange := Order.exchange order in
          let symbol := getExchangeInfo env (Order.symbol order) exchange in
          let sym := symKey (Order.symbol order) exchange in
          let qMin := QuoteAsset.minAmount (ExchangeInfo.quoteAsset symbol) in
          let feePerc :=
            if Num.truthy (Order.feePerc order) then Order.feePerc order
            else getUserFee maker exchange in
          let futures := isFutures exchange in
          let '(order, isFilled, s1) :=
            if OrderSide.eqb (Order.side order) OrderSide.SELL &&
               Num.leb (Order.price order) (Tick.bestBid data) &&
               (futures || Num.ltb 0 (Tick.bidQty data))
            then
              let '(baseAssetAmount, isFilled) :=
                fillSize futures (Num.ltb (Order.price order) (Tick.bestBid data))
                  (Order.amount order - Order.filledAmount order) (Tick.bidQty data) in
              let quoteAssetAmount := baseAssetAmount * Order.price order in
              let fee :=
                if isCoinm exchange
                then ((baseAssetAmount * qMin) / Order.price order) * feePerc
                else quoteAssetAmount * feePerc in
              let status :=
                if isFilled then OrderStatus.FILLED else OrderStatus.PARTIALLY_FILLED in
              let order' :=
                fillOrder order status baseAssetAmount quoteAssetAmount fee feePerc
                  (Tick.time data) in
              let s1 := with_orderModel s
                          (updateOrderById (orderModel s) (Order._id order)
                             (fillStored order status baseAssetAmount quoteAssetAmount fee
                                (Tick.time data))) in
              let s2 :=
                if negb futures
                then updateBalance (Order.user order)
                       [BalanceUpdate.mk (QuoteAsset.name (ExchangeInfo.quoteAsset symbol))
                          (quoteAssetAmount - fee) 0;
                        BalanceUpdate.mk (BaseAsset.name (ExchangeInfo.baseAsset symbol))
                          0 (- baseAssetAmount)] s1
                else s1 in
              (order', isFilled, setOrder order' s2)
            else if OrderSide.eqb (Order.side order) OrderSide.BUY &&
                    Num.leb (Tick.bestAsk data) (Order.price order) &&
                    (futures || Num.ltb 0 (Tick.askQty data))
            then
              let '(baseAssetAmount, isFilled) :=
                fillSize futures (Num.ltb (Tick.bestAsk data) (Order.price order))
                  (Order.amount order - Order.filledAmount order) (Tick.askQty data) in
              let quoteAssetAmount := baseAssetAmount * Order.price order in
              let fee :=
                if isCoinm exchange
                then ((baseAssetAmount * qMin) / Order.price order) * feePerc
                else if isFutures exchange
                     then quoteAssetAmount * feePerc
                     else baseAssetAmount * feePerc in
              let status :=
                if isFilled then OrderStatus.FILLED else OrderStatus.PARTIALLY_FILLED in
              let order' :=
                fillOrder order status baseAssetAmount quoteAssetAmount fee feePerc
                  (Tick.time data) in
              let s1 := with_orderModel s
                          (updateOrderById (orderModel s) (Order._id order)
                             (fillStored order status baseAssetAmount quoteAssetAmount fee
                                (Tick.time data))) in
              let s2 :=
                if negb futures
                then updateBalance (Order.user order)
                       [BalanceUpdate.mk (BaseAsset.name (ExchangeInfo.baseAsset symbol))
                          (baseAssetAmount - fee) 0;
                        BalanceUpdate.mk (QuoteAsset.name (ExchangeInfo.quoteAsset symbol))
                          0 (- quoteAssetAmount)] s1
                else s1 in
              (order', isFilled, setOrder order' s2)
            else (order, false, s) in
          if isFilled then
            let s2 := removeOrder order (watchDrop sym (Order.externalId order) s1) in
            if isFutures exchange then
              match find (fun u => String.eqb (User.id u) (Order.user order)) (users s2) with
              | None => s2
              | Some user =>
                  (* the query for the leverage row asks for an [exchange],
                     which no leverage row has: it finds none, and the
                     leverage is [leverage?.leverage ?? 1]; what
                     [processFuturesPosition] throws is caught and logged *)
                  let leverage : Q := 1 in
                  snd (processFuturesPosition env order leverage symbol s2)
              end
            else s2
          else s1
    end.

(** ** The matching scan of a tick batch *)

(** [Array.prototype.sort(compareFn)]: a stable sort; an element goes before
    the first one it does not compare greater than. *)
Section ArraySort.
Context {A : Type} (compareFn : A -> A -> Q).

Fixpoint sortInsert (x : A) (l : list A) : list A :=
  match l with
  | [] => [x]
  | y :: r => if Num.leb (compareFn x y) 0 then x :: y :: r else y :: sortInsert x r
  end.

Fixpoint Array_sort (l : list A) : list A :=
  match l with
  | [] => []
  | x :: r => sortInsert x (Array_sort r)
  end.
End ArraySort.

(** The calls the scan makes, in the order it makes them.  Neither call is
    awaited by the scan. *)
Inductive Call : Type :=
| closeFuturePosition (position : Position.t)
| processLimitOrderCall (order : Order.t) (data : Tick.t).

Definition openLimit (exchange : ExchangeEnum) (o : Order.t) : bool :=
  ExchangeEnum_eqb (Order.exchange o) exchange &&
  (OrderStatus.eqb (Order.status o) OrderStatus.CREATED ||
   OrderStatus.eqb (Order.status o) OrderStatus.PARTIALLY_FILLED) &&
  OrderType.eqb (Order.type o) OrderType.LIMIT.

Definition livePosition (exchange : ExchangeEnum) (p : Position.t) : bool :=
  ExchangeEnum_eqb (Position.exchange p) exchange &&
  PositionStatus.eqb (Position.status p) PositionStatus.new.

Definition longPositions (data : Tick.t) (filteredFutures : list Position.t) : list Position.t :=
  Array_sort (fun a b => Position.liquidationPrice a - Position.liquidationPrice b)
    (filter (fun p => PositionSide.eqb (Position.positionSide p) PositionSide.long &&
                      Num.leb (Tick.bestBid data) (Position.liquidationPrice p))
            filteredFutures).

Definition shortPositions (data : Tick.t) (filteredFutures : list Position.t) : list Position.t :=
  Array_sort (fun a b => Position.liquidationPrice b - Position.liquidationPrice a)
    (filter (fun p => PositionSide.eqb (Position.positionSide p) PositionSide.short &&
                      Num.leb (Position.liquidationPrice p) (Tick.bestAsk data))
            filteredFutures).

Definition sellPositions (isFuturesExchange : bool) (data : Tick.t)
    (filterPositions : list Order.t) : list Order.t :=
  Array_sort (fun a b => Order.price a - Order.price b)
    (filter (fun p => OrderSide.eqb (Order.side p) OrderSide.SELL &&
                      Num.leb (Order.price p) (Tick.bestBid data) &&
                      (isFuturesExchange || Num.ltb 0 (Tick.bidQty data)))
            filterPositions).

Definition buyPositions (isFuturesExchange : bool) (data : Tick.t)
    (filterPositions : list Order.t) : list Order.t :=
  Array_sort (fun a b => Order.price b - Order.price a)
    (filter (fun p => OrderSide.eqb (Order.side p) OrderSide.BUY &&
                      Num.leb (Tick.bestAsk data) (Order.price p) &&
                      (isFuturesExchange || Num.ltb 0 (Tick.askQty data)))
            filterPositions).

(** The calls made for one [(symbol, data)] entry of the batch. *)
Definition scanSymbol (exchange : ExchangeEnum) (positions : list Order.t)
    (futures : list Position.t) (entry : string * Tick.t) : list Call :=
  let '(symbol, data) := entry in
  let isFuturesExchange := isFutures exchange in
  let filteredFutures := filter (fun p => String.eqb (Position.symbol p) symbol) futures in
  let filterPositions := filter (fun p => String.eqb (Order.symbol p) symbol) positions in
  map closeFuturePosition
      (longPositions data filteredFutures ++ shortPositions data filteredFutures) ++
  map (fun order => processLimitOrderCall order data)
      (sellPositions isFuturesExchange data filterPositions ++
       buyPositions isFuturesExchange data filterPositions).

Definition processTickerQueue (exchange : ExchangeEnum) (tickerData : JsMap.t Tick.t)
    (s : State) : list Call :=
  let positions :=
    filter (openLimit exchange) (getOrdersBySymbols (JsMap.keys tickerData) (currentOrders s)) in
  let futures :=
    filter (livePosition exchange)
      (getPositionsBySymbols (JsMap.keys tickerData) (currentPositions s)) in
  flat_map (scanSymbol exchange positions futures) tickerData.

(** ** Ticker intake *)

Section TickerIntake.

(** The rendering of a number inside a template literal. *)
Variable numberToString : Q -> string.

Definition signatureOf (t : Ticker.t) : string :=
  (numberToString (Ticker.bestAsk t) ++ numberToString (Ticker.bestBid t) ++
   numberToString (Ticker.bestAskQnt t) ++ numberToString (Ticker.bestBidQnt t) ++
   numberToString (Ticker.price t))%string.

(** [t.eventTime ?? t.time]. *)
Definition tickerTimeOf (t : Ticker.t) : Z :=
  match Ticker.eventTime t with
  | Some eventTime => eventTime
  | None => Ticker.time t
  end.

(** One turn of the loop over the tickers of a message: the state and the
    batch built so far, after ticker [t]. *)
Definition intakeTicker (env : Env) (exchange : ExchangeEnum)
    (acc : State * JsMap.t Tick.t) (t : Ticker.t) : State * JsMap.t Tick.t :=
  let '(s, tickerData) := acc in
  let sym := symKey (Ticker.symbol t) exchange in
  if Nat.eqb (JsSet.size (watchSet sym s)) 0 then acc
  else
    let tickerTime := tickerTimeOf t in
    if (tickerTime <? match JsMap.get (tickerTimeMap s) sym with
                      | Some x => x
                      | None => 0
                      end)%Z
    then acc
    else if (tickerTime + newDataLimit <? now env)%Z
    then
      (with_symbolPriceMap
         (with_tickerTimeMap s (JsMap.set (tickerTimeMap s) sym (now env)))
         (JsMap.delete (symbolPriceMap s) sym),
       tickerData)
    else
      let s1 := with_tickerTimeMap s (JsMap.set (tickerTimeMap s) sym tickerTime) in
      let signature := signatureOf t in
      if match JsMap.get (tickerSignatureMap s1) sym with
         | Some last => String.eqb last signature
         | None => false
         end
      then (s1, tickerData)
      else
        let s2 := with_tickerSignatureMap s1
                    (JsMap.set (tickerSignatureMap s1) sym signature) in
        let s3 := with_symbolPriceMap s2
                    (JsMap.set (symbolPriceMap s2) sym (Some (Ticker.price t))) in
        (s3,
         JsMap.set tickerData (Ticker.symbol t)
           (Tick.mk (Ticker.bestBid t) (Ticker.bestAsk t) (Ticker.bestBidQnt t)
              (Ticker.bestAskQnt t) (tickerTimeOf t))).

(** [processTickers]: the state it leaves and the calls of the matching
    scan it starts (none when no ticker survives the filters). *)
Definition processTickers (env : Env) (exchange : ExchangeEnum)
    (tickers : list Ticker.t) (s : State) : list Call * State :=
  let tickerTime := match tickers with
                    | [] => 0%Z
                    | t :: _ => tickerTimeOf t
                    end in
  if (tickerTime <? match JsMap.get (tickerTimeMap s) (exchangeName exchange) with
                    | Some x => x
                    | None => 0
                    end)%Z
  then ([], s)
  else
    let s1 := with_tickerTimeMap s
                (JsMap.set (tickerTimeMap s) (exchangeName exchange) tickerTime) in
    let '(s2, tickerData) := fold_left (intakeTicker env exchange) tickers (s1, []) in
    if Nat.eqb (JsMap.size tickerData) 0 then ([], s2)
    else (processTickerQueue exchange tickerData s2, s2).

(** [redisCb]: a pub/sub message carries one ticker and its exchange. *)
Definition redisCb (env : Env) (msg : Ticker.t * ExchangeEnum) (s : State)
    : list Call * State :=
  processTickers env (snd msg) [fst msg] s.

End TickerIntake.

(** ** Reading a stored order *)

(** [orderModel.findOne({externalId, symbol})]: the pair is the unique key of
    the collection. *)
Definition keyed (externalId symbol : string) (o : Order.t) : bool :=
  String.eqb (Order.externalId o) externalId && String.eqb (Order.symbol o) symbol.

Definition findOrder (externalId symbol : string) (s : State) : option Order.t :=
  find (keyed externalId symbol) (orderModel s).

(** A limit request crosses the current price: a BUY above it, a SELL below
    it. *)
Definition crosses (order : CreateOrderDto.t) (currentPrice : Q) : Prop :=
  (CreateOrderDto.side order = OrderSide.BUY /\ currentPrice < CreateOrderDto.price order) \/
  (CreateOrderDto.side order = OrderSide.SELL /\ CreateOrderDto.price order < currentPrice).

(** ** Reading a balance *)

(** [walletModel.findOne({user, asset})], and the [free] and [locked] it
    holds ([0] for a row that does not exist). *)
Definition findWallet (ws : list Wallet.t) (user asset : string) : option Wallet.t :=
  find (fun w => String.eqb (Wallet.user w) user && String.eqb (Wallet.asset w) asset) ws.

Definition freeOf (ws : list Wallet.t) (user asset : string) : Q :=
  match findWallet ws user asset with Some w => Wallet.free w | None => 0 end.

Definition lockedOf (ws : list Wallet.t) (user asset : string) : Q :=
  match findWallet ws user asset with Some w => Wallet.locked w | None => 0 end.

(** ** The reduce-only fill that exceeds its position *)

(** The case of [settleExisting] in which a reduce-only order meets an
    opposite position smaller than the order by the close threshold or
    more. *)
Definition trimBranch (order : Order.t) (symbol : ExchangeInfo.t) (current : Position.t) : Prop :=
  let diff := Position.positionAmt current - Order.amount order in
  ((Order.side order = OrderSide.SELL /\ Position.positionSide current = PositionSide.long) \/
   (Order.side order = OrderSide.BUY /\ Position.positionSide current = PositionSide.short)) /\
  Order.reduceOnly order = true /\
  diff <= 0 /\
  Num.EPSILON < Qabs diff /\
  absLt (MathHelper.round diff 10)
    (if isCoinm (Order.exchange order)
     then 1
     else BaseAsset.minAmount (ExchangeInfo.baseAsset symbol)) = false.

(** ** What the scan of one batch entry may call *)

(** [projected cur batch x]: the projection [cur] holds [x], under some key,
    in its map for one of the symbols of the batch. *)
Definition projected {V T : Type} (cur : JsMap.t (JsMap.t V)) (batch : JsMap.t T)
    (x : V) : Prop :=
  exists key tick m k,
    In (key, tick) batch /\ JsMap.get cur key = Some m /\ In (k, x) m.

(** [scanned exchange s batch (symbol, data) calls]: the calls are the
    liquidations of the symbol's live positions that the tick reaches -- the
    LONG ones by ascending liquidation price, then the SHORT ones by
    descending liquidation price -- followed by the fills of the symbol's
    open limit orders that the tick reaches -- the SELL ones by ascending
    price, then the BUY ones by descending price. *)
Definition scanned (exchange : ExchangeEnum) (s : State) (batch : JsMap.t Tick.t)
    (entry : string * Tick.t) (calls : list Call) : Prop :=
  let symbol := fst entry in
  let data := snd entry in
  let live (p : Position.t) :=
    projected (currentPositions s) batch p /\
    Position.symbol p = symbol /\ Position.exchange p = exchange /\
    Position.status p = PositionStatus.new in
  let open (o : Order.t) :=
    projected (currentOrders s) batch o /\
    Order.symbol o = symbol /\ Order.exchange o = exchange /\
    (Order.status o = OrderStatus.CREATED \/
     Order.status o = OrderStatus.PARTIALLY_FILLED) /\
    Order.type o = OrderType.LIMIT in
  exists longs shorts sells buys,
    calls = map closeFuturePosition (longs ++ shorts) ++
            map (fun o => processLimitOrderCall o data) (sells ++ buys) /\
    Sorted (fun a b => Position.liquidationPrice a <= Position.liquidationPrice b) longs /\
    (forall p, In p longs <->
       live p /\ Position.positionSide p = PositionSide.long /\
       Tick.bestBid data <= Position.liquidationPrice p) /\
    Sorted (fun a b => Position.liquidationPrice b <= Position.liquidationPrice a) shorts /\
    (forall p, In p shorts <->
       live p /\ Position.positionSide p = PositionSide.short /\
       Position.liquidationPrice p <= Tick.bestAsk data) /\
    Sorted (fun a b => Order.price a <= Order.price b) sells /\
    (forall o, In o sells <->
       open o /\ Order.side o = OrderSide.SELL /\
       Order.price o <= Tick.bestBid data /\
       (isFutures exchange = true \/ 0 < Tick.bidQty data)) /\
    Sorted (fun a b => Order.price b <= Order.price a) buys /\
    (forall o, In o buys <->
       open o /\ Order.side o = OrderSide.BUY /\
       Tick.bestAsk data <= Order.price o /\
       (isFutures exchange = true \/ 0 < Tick.askQty data)).

(** ** The sign of the balances *)

(** Every wallet row has a non-negative [free] and a non-negative
    [locked]. *)
Definition walletsNonneg (ws : list Wallet.t) : Prop :=
  Forall (fun w => 0 <= Wallet.free w /\ 0 <= Wallet.locked w) ws.

(** ** Scenarios

    Concrete users, symbols and requests on which the properties below are
    exercised. *)

Module Scenario.

Definition btcusdt : ExchangeInfo.t :=
  ExchangeInfo.mk (BaseAsset.mk (1 # 1000) 1000 (1 # 1000) "BTC" 100)
    (QuoteAsset.mk 100 "USDT") 200 2.

Definition alice : User.t := User.mk "u1" "key1" "secret1".

(** An environment whose latest-price service answers [price]. *)
Definition envAt (price : option Q) : Env :=
  mkEnv 1000000 (fun _ _ => btcusdt) (fun _ _ => Some price).

(** An environment whose latest-price service cannot be reached. *)
Definition envDown : Env :=
  mkEnv 1000000 (fun _ _ => btcusdt) (fun _ _ => None).

(** A fresh engine with the given users, wallets and hedge settings. *)
Definition fresh (us : list User.t) (ws : list Wallet.t) (hs : list Hedge.t) : State :=
  mkState us ws [] [] [] hs [] [] [] [] [] [] 0.

Definition request (exchange : ExchangeEnum) (type : OrderType.t) (side : OrderSide.t)
    (amount price : Q) (externalId : string) (reduceOnly : bool)
    (positionSide : option PositionSide.t) : CreateOrderDto.t :=
  CreateOrderDto.mk "key1" "secret1" "BTCUSDT" amount type exchange side
    externalId price reduceOnly positionSide.

(** Alice holds 1000 USDT on a linear exchange, opens a LONG of 1 at 100,
    then sends a reduce-only market SELL of 2. *)
Definition linearStart : State := fresh [alice] [Wallet.mk "u1" "USDT" 1000 0] [].
Definition linearOpen : State :=
  snd (createOrder (envAt (Some 100))
         (request binanceUsdm OrderType.MARKET OrderSide.BUY 1 0 "open" false None)
         linearStart).
Definition linearReduce : CreateOrderDto.t :=
  request binanceUsdm OrderType.MARKET OrderSide.SELL 2 0 "reduce" true None.

(** The same on an inverse exchange, with 10 BTC, contracts of 100 USDT. *)
Definition inverseStart : State := fresh [alice] [Wallet.mk "u1" "BTC" 10 0] [].
Definition inverseOpen : State :=
  snd (createOrder (envAt (Some 100))
         (request binanceCoinm OrderType.MARKET OrderSide.BUY 2 0 "open" false None)
         inverseStart).
Definition inverseReduce : CreateOrderDto.t :=
  request binanceCoinm OrderType.MARKET OrderSide.SELL 5 0 "reduce" true None.

(** Alice in hedge mode, and a derivatives request without a position
    side. *)
Definition hedgeStart : State :=
  fresh [alice] [Wallet.mk "u1" "USDT" 1000 0] [Hedge.mk "u1" true].
Definition unsidedRequest : CreateOrderDto.t :=
  request binanceUsdm OrderType.MARKET OrderSide.BUY 1 0 "unsided" false None.

(** Alice with 10000 USDT on a spot exchange and a resting limit BUY of
    0.1 at 50000. *)
Definition spotStart : State := fresh [alice] [Wallet.mk "u1" "USDT" 10000 0] [].
Definition spotLimitBuy : CreateOrderDto.t :=
  request binance OrderType.LIMIT OrderSide.BUY (1 # 10) 50000 "limit1" false None.
Definition spotResting : State :=
  snd (createOrder (envAt (Some 50000)) spotLimitBuy spotStart).

(** Alice with exactly the margin of a market BUY of 1 at 100 on a linear
    exchange. *)
Definition thinStart : State := fresh [alice] [Wallet.mk "u1" "USDT" 100 0] [].
Definition thinOpen : CreateOrderDto.t :=
  request binanceUsdm OrderType.MARKET OrderSide.BUY 1 0 "open" false None.

(** A tick that touches the resting limit BUY with a quoted size of 0.2;
    the stored row of that order, and the order as the projection holds
    it. *)
Definition touch : Tick.t := Tick.mk 49990 50000 (2 # 10) (2 # 10) 1000500.
Definition limit1 : Order.t :=
  Order.mk 0%nat (1 # 10) 0 0 ((1 # 10) * 50000) 50000 0 0 (1 # 1000) "BTCUSDT" "u1"
    binance OrderStatus.CREATED OrderType.LIMIT OrderSide.BUY "limit1"
    1000000 1000000 false None.
Definition limit1View : Order.t :=
  Order.mk 0%nat (1 # 10) 0 0 ((1 # 10) * 50000) 50000 0 0 0 "BTCUSDT" "u1"
    binance OrderStatus.CREATED OrderType.LIMIT OrderSide.BUY "limit1"
    1000000 1000000 false None.

(** Alice with 1000 USDT and leverage 10 on a linear exchange: a LONG of 1
    opened at 100 (liquidation price 89.964) and a resting limit BUY of 1
    at 95; then a tick with best bid 89 and best ask 89.5. *)
Definition leveraged : State :=
  mkState [alice] [Wallet.mk "u1" "USDT" 1000 0] [] []
    [Leverage.mk "u1" "BTCUSDT" None 10 false] [] [] [] [] [] [] [] 0.
Definition leveragedBook : State :=
  snd (createOrder (envAt (Some 100))
         (request binanceUsdm OrderType.LIMIT OrderSide.BUY 1 95 "add" false None)
         (snd (createOrder (envAt (Some 100))
                 (request binanceUsdm OrderType.MARKET OrderSide.BUY 1 0 "open" false None)
                 leveraged))).
Definition plunge : Tick.t := Tick.mk 89 (895 # 10) 1 1 1000500.

(** Two orders of Alice that share the [externalId] "x" on two symbols: a
    resting limit BUY on ETHUSDT (stored first, [_id] 0) and a filled market
    BUY on BTCUSDT ([_id] 1). *)
Definition namesakes : State :=
  snd (createOrder (envAt (Some 50000))
         (CreateOrderDto.mk "key1" "secret1" "BTCUSDT" (1 # 100) OrderType.MARKET
            binance OrderSide.BUY "x" 0 false None)
         (snd (createOrder (envAt (Some 50000))
                 (CreateOrderDto.mk "key1" "secret1" "ETHUSDT" (1 # 100) OrderType.LIMIT
                    binance OrderSide.BUY "x" 40000 false None)
                 spotStart))).

(** Two orders of Alice with the [externalId] "x" again, the filled one
    stored first: a market BUY of 0.01 on ETHUSDT ([_id] 0), then a limit
    BUY of 0.01 at 40000 on BTCUSDT that rests ([_id] 1) and reserves 400
    USDT. *)
Definition shadowed : State :=
  snd (createOrder (envAt (Some 50000))
         (CreateOrderDto.mk "key1" "secret1" "BTCUSDT" (1 # 100) OrderType.LIMIT
            binance OrderSide.BUY "x" 40000 false None)
         (snd (createOrder (envAt (Some 50000))
                 (CreateOrderDto.mk "key1" "secret1" "ETHUSDT" (1 # 100) OrderType.MARKET
                    binance OrderSide.BUY "x" 0 false None)
                 spotStart))).

(** A rendering of numbers for the scenarios: numerator, a slash, and
    denominator. *)
Definition render (q : Q) : string :=
  (NilZero.string_of_int (Z.to_int (Qnum q)) ++ "/" ++
   NilZero.string_of_uint (Pos.to_uint (Qden q)))%string.

(** The engine after a first tick on BTCUSDT at time 1000500: the resting
    limit BUY is watched, the signature and the price are recorded. *)
Definition firstTick : Ticker.t :=
  Ticker.mk 50010 50005 1 1 "BTCUSDT" 1000500 50007 None.
Definition spotTicked : State :=
  snd (redisCb render (mkEnv 1001000 (fun _ _ => btcusdt) (fun _ _ => Some None))
         (firstTick, binance) spotResting).

(** The clock 60 s after that tick, and 1.5 s after it. *)
Definition envLate : Env := mkEnv 1060500 (fun _ _ => btcusdt) (fun _ _ => Some None).
Definition envSoon : Env := mkEnv 1002000 (fun _ _ => btcusdt) (fun _ _ => Some None).

End Scenario.

(** ** [utils/mutex.ts]: [IdMutex]

    The lock map of an [IdMutex].  A caller of [lock] is identified by the
    [resolve] callback of the promise it awaits; [lock] reports whether it
    called [resolve] at once, [release] reports the callback it called, if
    any. *)

Module IdMutex.

Section Mutex.
Context {W : Type}.

Record entry : Type := mkEntry { queue : list W; locked : bool }.

Definition t : Type := JsMap.t entry.

(** [this.maxLength && queue.length === this.maxLength]. *)
Definition full (maxLength : option nat) (q : list W) : bool :=
  match maxLength with
  | Some n => negb (Nat.eqb n 0) && Nat.eqb (List.length q) n
  | None => false
  end.

Definition lock (maxLength : option nat) (id : string) (resolve : W) (lockMap : t)
    : bool * t :=
  match JsMap.get lockMap id with
  | Some e =>
      if locked e
      then
        let q := if full maxLength (queue e) then [] else queue e in
        (false, JsMap.set lockMap id (mkEntry (q ++ [resolve]) (locked e)))
      else (true, JsMap.set lockMap id (mkEntry (queue e) true))
  | None => (true, JsMap.set lockMap id (mkEntry [] true))
  end.

Definition release (id : string) (lockMap : t) : Result (option W) * t :=
  match JsMap.get lockMap id with
  | None =>
      (Throw (TypeError "Cannot read properties of undefined (reading 'queue')"), lockMap)
  | Some e =>
      match queue e with
      | resolve :: rest =>
          (Ok (Some resolve), JsMap.set lockMap id (mkEntry rest (locked e)))
      | [] => (Ok None, JsMap.delete lockMap id)
      end
  end.

(** The calls made on one mutex, and the run of a sequence of them from a
    lock map; a [release] that throws leaves the map as it is. *)
Inductive op : Type :=
| Lock (id : string) (resolve : W)
| Release (id : string).

Definition step (maxLength : option nat) (lockMap : t) (o : op) : t :=
  match o with
  | Lock id resolve => snd (lock maxLength id resolve lockMap)
  | Release id => snd (release id lockMap)
  end.

Definition run (maxLength : option nat) (ops : list op) (lockMap : t) : t :=
  fold_left (step maxLength) ops lockMap.

(** [n] successive calls of [release(id)]: the callbacks they called, in
    order, and the map they leave. *)
Fixpoint releases (n : nat) (id : string) (lockMap : t) : list W * t :=
  match n with
  | O => ([], lockMap)
  | S n' =>
      match release id lockMap with
      | (Ok (Some w), m) => let '(ws, m') := releases n' id m in (w :: ws, m')
      | (_, m) => releases n' id m
      end
  end.

End Mutex.

Arguments entry W : clear implicits.
Arguments t W : clear implicits.
Arguments op W : clear implicits.

End IdMutex.

(** ** [user.service.ts]: leverage, hedge mode and top-ups *)

(** [walletModel.findOneAndUpdate({user, asset}, {...updates}, {upsert: true})]:
    the first matching row takes the given [free] and [locked]; without a
    match the row is inserted. *)
Fixpoint setUserBalance (ws : list Wallet.t) (user : string) (updates : BalanceUpdate.t)
    : list Wallet.t :=
  match ws with
  | [] => [Wallet.mk user (BalanceUpdate.asset updates) (BalanceUpdate.free updates)
             (BalanceUpdate.locked updates)]
  | w :: r =>
      if String.eqb (Wallet.user w) user &&
         String.eqb (Wallet.asset w) (BalanceUpdate.asset updates)
      then Wallet.mk (Wallet.user w) (Wallet.asset w) (BalanceUpdate.free updates)
             (BalanceUpdate.locked updates) :: r
      else w :: setUserBalance r user updates
  end.

(** [leverageModel.updateOne({_id: current._id}, {$set: {leverage}})], where
    [current] is the first row of [(user, symbol, side)]. *)
Fixpoint setLeverageValue (ls : list Leverage.t) (user symbol : string)
    (side : option PositionSide.t) (leverage : Q) : list Leverage.t :=
  match ls with
  | [] => []
  | l :: r =>
      if String.eqb (Leverage.user l) user && String.eqb (Leverage.symbol l) symbol
         && sideEq (Leverage.side l) side
      then Leverage.mk (Leverage.user l) (Leverage.symbol l) (Leverage.side l)
             leverage (Leverage.locked l) :: r
      else l :: setLeverageValue r user symbol side leverage
  end.

Definition findLeverage (user symbol : string) (side : option PositionSide.t)
    (s : State) : option Leverage.t :=
  find (fun l => String.eqb (Leverage.user l) user && String.eqb (Leverage.symbol l) symbol &&
                 sideEq (Leverage.side l) side)
       (leverageModel s).

Definition changeLeverage (key secret symbol : string) (leverage : Q)
    (side : option PositionSide.t) : M Q :=
  user <- getUserByKeyAndSecretOrThrow key secret ;;
  fun s =>
    match findLeverage (User.id user) symbol side s with
    | None =>
        (Ok leverage,
         with_leverageModel s
           (leverageModel s ++ [Leverage.mk (User.id user) symbol side leverage false]))
    | Some current =>
        if Leverage.locked current && negb (Num.eqb (Leverage.leverage current) leverage)
        then (Throw (HttpException "Cannot change leverage with active position" 400), s)
        else if negb (Num.eqb (Leverage.leverage current) leverage)
        then (Ok leverage,
              with_leverageModel s
                (setLeverageValue (leverageModel s) (User.id user) symbol side leverage))
        else (Ok leverage, s)
    end.

Definition with_hedgeModel (s : State) (h : list Hedge.t) : State :=
  mkState (users s) (wallets s) (orderModel s) (positionModel s) (leverageModel s)
    h (watchSymbols s) (tickerTimeMap s) (symbolPriceMap s)
    (tickerSignatureMap s) (currentOrders s) (currentPositions s) (nextId s).

(** [hedgeModel.findOneAndUpdate({user}, {hedge, user}, {upsert: true})]. *)
Fixpoint setHedge (hs : list Hedge.t) (user : string) (hedge : bool) : list Hedge.t :=
  match hs with
  | [] => [Hedge.mk user hedge]
  | h :: r =>
      if String.eqb (Hedge.user h) user then Hedge.mk user hedge :: r
      else h :: setHedge r user hedge
  end.

Definition changeHedge (key secret : string) (hedge : bool) : M bool :=
  user <- getUserByKeyAndSecretOrThrow key secret ;;
  fun s =>
    let current :=
      filter (fun p => String.eqb (Position.user p) (User.id user) &&
                       PositionStatus.eqb (Position.status p) PositionStatus.new)
             (positionModel s) in
    if negb (Nat.eqb (List.length current) 0)
    then (Throw (HttpException "Cannot change hedge with active position" 400), s)
    else (Ok hedge, with_hedgeModel s (setHedge (hedgeModel s) (User.id user) hedge)).

Definition getHedge (key secret : string) : M bool :=
  user <- getUserByKeyAndSecretOrThrow key secret ;;
  gets (hedgeOf (User.id user)).

(** [topUpUserBalance]; the exchange of the request is not read. *)
Definition topUpUserBalance (key secret : string) (usdtBalance : Q)
    (coinToTopUp : string) : M bool :=
  user <- getUserByKeyAndSecretOrThrow key secret ;;
  if Num.ltb usdtBalance 0
  then throw (HttpException "Insufficient amount" 400)
  else
    modify (fun s => with_wallets s
                       (incWallet (wallets s) (User.id user)
                          (BalanceUpdate.mk coinToTopUp usdtBalance 0))) ;;;
    ret true.

Definition getUserBalanceByKeyAndSecret (key secret : string) : M (list Wallet.t) :=
  user <- getUserByKeyAndSecretOrThrow key secret ;;
  gets (fun s => getUserBalanceByUserIdOrThrow (User.id user) [] (wallets s)).

(** ** Looking an order or a position up in the projection *)

(** [Array.from(this.currentOrders.values(), (o) => Array.from(o.values())).flat()]. *)
Definition allCurrentOrders (s : State) : list Order.t :=
  flat_map (fun o => JsMap.values o) (JsMap.values (currentOrders s)).

Definition allCurrentPositions (s : State) : list Position.t :=
  flat_map (fun o => JsMap.values o) (JsMap.values (currentPositions s)).

Definition getOrderById (id : string) (s : State) : option Order.t :=
  find (fun o => String.eqb (Order.id o) id) (allCurrentOrders s).

Definition getPositionByUUID (uuid : string) (s : State) : option Position.t :=
  find (fun o => String.eqb (Position.uuid o) uuid) (allCurrentPositions s).

(** ** Start-up: the projection and the watch set rebuilt from storage *)

Definition checkOrdersInDb (orders : list Order.t) (s : State) : State :=
  fold_left
    (fun s p =>
       pushPosition p
         (watchAdd (symKey (Order.symbol p) (Order.exchange p)) (Order.externalId p) s))
    orders s.

Definition checkPositionsInDb (positions : list Position.t) (s : State) : State :=
  fold_left
    (fun s p =>
       pushFuturePosition p
         (watchAdd (symKey (Position.symbol p) (Position.exchange p)) (Position.id p) s))
    positions s.

(** The stored orders that are open limit orders, and the stored positions
    that are open. *)
Definition openLimitStored (o : Order.t) : bool :=
  (OrderStatus.eqb (Order.status o) OrderStatus.CREATED ||
   OrderStatus.eqb (Order.status o) OrderStatus.PARTIALLY_FILLED) &&
  OrderType.eqb (Order.type o) OrderType.LIMIT.

Definition getOpenOrdersAndPositions (s : State) : list Order.t * list Position.t :=
  (filter openLimitStored (orderModel s),
   filter (fun p => PositionStatus.eqb (Position.status p) PositionStatus.new)
          (positionModel s)).

(** ** Start-up: the reconciliation of the locked balances *)

(** [userBalances.set(asset, (userBalances.get(asset) ?? 0) + qty)] on the
    map of the user [id]. *)
Definition addLocked (lockedBalances : JsMap.t (JsMap.t Q)) (id asset : string) (qty : Q)
    : JsMap.t (JsMap.t Q) :=
  let userBalances := match JsMap.get lockedBalances id with
                      | Some m => m
                      | None => []
                      end in
  JsMap.set lockedBalances id
    (JsMap.set userBalances asset
       ((match JsMap.get userBalances asset with Some x => x | None => 0 end) + qty)).

Definition lockedByOrder (env : Env) (lockedBalances : JsMap.t (JsMap.t Q)) (o : Order.t)
    : JsMap.t (JsMap.t Q) :=
  if isFutures (Order.exchange o) then lockedBalances
  else
    let symbol := getExchangeInfo env (Order.symbol o) (Order.exchange o) in
    let asset := match Order.side o with
                 | OrderSide.BUY => QuoteAsset.name (ExchangeInfo.quoteAsset symbol)
                 | OrderSide.SELL => BaseAsset.name (ExchangeInfo.baseAsset symbol)
                 end in
    let qty := match Order.side o with
               | OrderSide.BUY => Order.quoteAmount o - Order.filledQuoteAmount o
               | OrderSide.SELL => Order.amount o - Order.filledAmount o
               end in
    addLocked lockedBalances (Order.user o) asset qty.

Definition lockedByPosition (env : Env) (lockedBalances : JsMap.t (JsMap.t Q))
    (p : Position.t) : JsMap.t (JsMap.t Q) :=
  let symbol := getExchangeInfo env (Position.symbol p) (Position.exchange p) in
  let asset := if isCoinm (Position.exchange p)
               then BaseAsset.name (ExchangeInfo.baseAsset symbol)
               else QuoteAsset.name (ExchangeInfo.quoteAsset symbol) in
  addLocked lockedBalances (Position.user p) asset (Position.margin p).

Definition lockedBalancesOf (env : Env) (orders : list Order.t)
    (positions : list Position.t) : JsMap.t (JsMap.t Q) :=
  fold_left (lockedByPosition env) positions (fold_left (lockedByOrder env) orders []).

(** The free balance a row gets when nothing should be locked in it:
    [b.free + (b.locked < 0 ? 0 : b.locked)]. *)
Definition unlockedFree (b : Wallet.t) : Q :=
  Wallet.free b + (if Num.ltb (Wallet.locked b) 0 then 0 else Wallet.locked b).

(** One turn of the loop over the rows [b] of user [u]; [v] is the user's
    map of computed reservations.  [setUserBalance] starts its write without
    waiting for it; the write is applied here at once. *)
Definition reconcileRow (u : string) (v : option (JsMap.t Q)) (s : State) (b : Wallet.t)
    : State :=
  let reset :=
    with_wallets s
      (setUserBalance (wallets s) u (BalanceUpdate.mk (Wallet.asset b) (unlockedFree b) 0)) in
  match v with
  | Some v =>
      match JsMap.get v (Wallet.asset b) with
      | Some fromOrders =>
          if Num.truthy fromOrders
          then
            if negb (Num.eqb fromOrders (Wallet.locked b))
            then
              let diff := Wallet.locked b - fromOrders in
              updateBalance u [BalanceUpdate.mk (Wallet.asset b) diff (- diff)] s
            else s
          else if negb (Num.eqb (Wallet.locked b) 0) then reset else s
      | None => if negb (Num.eqb (Wallet.locked b) 0) then reset else s
      end
  | None => if negb (Num.eqb (Wallet.locked b) 0) then reset else s
  end.

Definition reconcileUser (lockedBalances : JsMap.t (JsMap.t Q)) (s : State) (u : User.t)
    : State :=
  let v := JsMap.get lockedBalances (User.id u) in
  let ub := getUserBalanceByUserIdOrThrow (User.id u) [] (wallets s) in
  fold_left (reconcileRow (User.id u) v) ub s.

Definition updateBalances (env : Env) (orders : list Order.t)
    (positions : list Position.t) (s : State) : State :=
  fold_left (reconcileUser (lockedBalancesOf env orders positions)) (users s) s.

(** The reservation that the open spot limit orders and the open positions
    of [user] hold in [asset]: what [updateBalances] computes for the row,
    [0] when it computes nothing. *)
Definition computedLocked (env : Env) (orders : list Order.t)
    (positions : list Position.t) (user asset : string) : Q :=
  match JsMap.get (lockedBalancesOf env orders positions) user with
  | Some v => match JsMap.get v asset with Some x => x | None => 0 end
  | None => 0
  end.

(** ** Reading orders through the API *)

Module CommonOrder.
Record t : Type := mk {
  symbol : string;
  orderId : string;
  clientOrderId : string;
  transactTime : Z;
  updateTime : Z;
  price : string;
  origQty : string;
  executedQty : string;
  cummulativeQuoteQty : string;
  status : OrderStatus.t;
  type : OrderType.t;
  side : OrderSide.t
}.
End CommonOrder.

Section OrderQueries.

(** The rendering of a number inside a template literal. *)
Variable numberToString : Q -> string.

(** The answer built from an order; its [fills] are always empty. *)
Definition commonOrder (order : Order.t) : CommonOrder.t :=
  CommonOrder.mk (Order.symbol order) (Order.id order) (Order.externalId order)
    (Order.updatedAt order) (Order.updatedAt order)
    (numberToString (Order.price order)) (numberToString (Order.amount order))
    (numberToString (Order.filledAmount order))
    (numberToString (Order.filledAmount order * Order.avgFilledPrice order))
    (Order.status order) (Order.type order) (Order.side order).

Definition getOrderByKeySecretExternalIdAndSymbol (key secret externalId symbol : string)
    : M CommonOrder.t :=
  user <- getUserByKeyAndSecretOrThrow key secret ;;
  fun s =>
    match getOrderByExternalIdAndSymbol symbol externalId s with
    | Some orderInRam => (Ok (commonOrder orderInRam), s)
    | None =>
        match find (fun o => String.eqb (Order.user o) (User.id user) &&
                             String.eqb (Order.externalId o) externalId &&
                             String.eqb (Order.symbol o) symbol)
                   (orderModel s) with
        | Some order => (Ok (commonOrder order), s)
        | None => (Throw (HttpException "Unknown order" 400), s)
        end
    end.

Definition getOrderByKeySecretAndOrderId (key secret orderId : string) : M CommonOrder.t :=
  user <- getUserByKeyAndSecretOrThrow key secret ;;
  if String.eqb orderId ""
  then throw (HttpException "Empty order id" 400)
  else
    fun s =>
      match getOrderById orderId s with
      | Some orderInRam => (Ok (commonOrder orderInRam), s)
      | None =>
          match find (fun o => String.eqb (Order.user o) (User.id user) &&
                               String.eqb (Order.id o) orderId)
                     (orderModel s) with
          | Some order => (Ok (commonOrder order), s)
          | None => (Throw (HttpException "Order not found" 400), s)
          end
      end.

(** [find(request, undefined, {sort: {createdAt: -1}})]: the newest first;
    orders created at the same time are left in storage order. *)
Definition getAllOpenOrdersByKeySecretAndSymbol (key secret : string)
    (symbol : option string) : M (list CommonOrder.t) :=
  user <- getUserByKeyAndSecretOrThrow key secret ;;
  fun s =>
    let request (o : Order.t) :=
      String.eqb (Order.user o) (User.id user) &&
      OrderStatus.eqb (Order.status o) OrderStatus.CREATED &&
      match symbol with
      | Some symbol => if String.eqb symbol "" then true else String.eqb (Order.symbol o) symbol
      | None => true
      end in
    let orders :=
      Array_sort (fun a b => inject_Z (Order.createdAt b - Order.createdAt a))
        (filter request (orderModel s)) in
    (Ok (map commonOrder orders), s).

End OrderQueries.

(** ** Liquidation *)

Definition messageOf (e : Exception) : string :=
  match e with
  | HttpException message _ => message
  | TypeError message => message
  | MongoServerError message => message
  end.

Module Liquidation.

(** The market order that closes [position]. *)
Definition orderData (position : Position.t) (user : User.t) (uuid : string)
    : CreateOrderDto.t :=
  CreateOrderDto.mk (User.key user) (User.secret user) (Position.symbol position)
    (Position.positionAmt position) OrderType.MARKET (Position.exchange position)
    (if PositionSide.eqb (Position.positionSide position) PositionSide.long
     then OrderSide.SELL else OrderSide.BUY)
    ("liquidation_" ++ uuid)%string
    (Position.liquidationPrice position) true (Some (Position.positionSide position)).

(** The open reduce-only orders of the user on the symbol. *)
Definition reduceOrders (position : Position.t) (user : User.t) (s : State) : list Order.t :=
  filter (fun o => String.eqb (Order.symbol o) (Position.symbol position) &&
                   Order.reduceOnly o &&
                   String.eqb (Order.user o) (User.id user) &&
                   negb (OrderStatus.terminal (Order.status o)))
         (orderModel s).

(** The [catch] of [closeFuturePosition]: when the user is gone the position
    leaves the projection.  (The update of the stored position that follows
    is built and never run.) *)
Definition caught (position : Position.t) (e : Exception) (s : State) : State :=
  if String.eqb (messageOf e) "User not found" then removePosition position s else s.

(** [closeFuturePosition]; a cancellation that throws is logged and the loop
    goes on. *)
Definition closeFuturePosition (env : Env) (position : Position.t) (s : State) : State :=
  if negb (PositionStatus.eqb (Position.status position) PositionStatus.new) then s
  else
    match getUserByIdOrThrow (Position.user position) s with
    | (Throw e, s1) => caught position e s1
    | (Ok user, s1) =>
        let s2 :=
          fold_left
            (fun s o =>
               snd (cancelOrderByKeySecretExternalIdAndSymbol env (User.key user)
                      (User.secret user) (Order.externalId o) true s))
            (reduceOrders position user s1) s1 in
        let order := orderData position user (uuidOf (nextId s2)) in
        match createOrder env order (with_nextId s2 (S (nextId s2))) with
        | (Ok _, s3) => s3
        | (Throw e, s3) => caught position e s3
        end
    end.

End Liquidation.

(** ** [order.controller.ts] *)

Module OrderController.

(** [e?.message.includes('duplicate key error')]. *)
Fixpoint includes (needle hay : string) : bool :=
  match hay with
  | EmptyString => String.eqb needle ""
  | String _ rest => String.prefix needle hay || includes needle rest
  end.

Definition createOrder (env : Env) (body : CreateOrderDto.t) : M CreateOrderResponse.t :=
  fun s =>
    match createOrder env body s with
    | (Ok result, s') => (Ok result, s')
    | (Throw e, s') =>
        if includes "duplicate key error" (messageOf e)
        then (Throw (HttpException "Duplicated externalId + symbol" 400), s')
        else (Throw e, s')
    end.

End OrderController.

(** ** More scenarios

    Concrete orders, states and messages for the further properties. *)

Module Cases.

(** A filled market BUY of 1 BTCUSDT at 100 by Alice on a linear exchange,
    with no position side. *)
Definition longOpen : Order.t :=
  Order.mk 0%nat 1 1 100 100 100 100 (4 # 100) (4 # 10000) "BTCUSDT" "u1"
    binanceUsdm OrderStatus.FILLED OrderType.MARKET OrderSide.BUY "open"
    1000000 1000000 false None.

(** [Scenario.spotResting] with balances that drifted from the reservation
    of 5000 USDT of its resting order: 4000 USDT locked, and 2 BTC locked
    that no order accounts for. *)
Definition drifted : State :=
  with_wallets Scenario.spotResting
    [Wallet.mk "u1" "USDT" 5000 4000; Wallet.mk "u1" "BTC" 1 2].

(** Alice with an open LONG of 1 BTCUSDT entered at 100 with leverage 10 on
    a linear exchange (margin 10, liquidation price 89.964), stored and
    projected. *)
Definition longPosition : Position.t :=
  Position.mk 1%nat "BTCUSDT" 10 100 0 (89964 # 1000) PositionSide.long 1 "u1"
    binanceUsdm 1000000 1000000 PositionStatus.new (- (4 # 100)) (4 # 100) 10 "uuid-0".
Definition holding : State :=
  mkState [Scenario.alice] [Wallet.mk "u1" "USDT" (98996 # 100) 10] [] [longPosition]
    [Leverage.mk "u1" "BTCUSDT" None 10 true] []
    [("BTCUSDT@binanceUsdm"%string, ["1"%string])] [] [] []
    [] [("BTCUSDT"%string, [("uuid-0"%string, longPosition)])] 2.

(** Alice then places a reduce-only limit SELL of 1 at 120 (the current
    price being 100): the stored order, the order as projected, and the
    state after the call. *)
Definition guardRequest : CreateOrderDto.t :=
  Scenario.request binanceUsdm OrderType.LIMIT OrderSide.SELL 1 120 "guard" true None.
Definition guard : Order.t :=
  Order.mk 2%nat 1 0 0 120 120 0 0 (2 # 10000) "BTCUSDT" "u1" binanceUsdm
    OrderStatus.CREATED OrderType.LIMIT OrderSide.SELL "guard" 1000000 1000000 true None.
Definition guardView : Order.t :=
  Order.mk 2%nat 1 0 0 120 120 0 0 0 "BTCUSDT" "u1" binanceUsdm
    OrderStatus.CREATED OrderType.LIMIT OrderSide.SELL "guard" 1000000 1000000 true None.
(** The ticker that then arrives: best bid 89, best ask 89.5, price 89. *)
Definition plungeTicker : Ticker.t :=
  Ticker.mk (895 # 10) 89 1 1 "BTCUSDT" 1000500 89 None.
Definition guarded : State :=
  mkState [Scenario.alice] [Wallet.mk "u1" "USDT" (98996 # 100) 10] [guard] [longPosition]
    [Leverage.mk "u1" "BTCUSDT" None 10 true] []
    [("BTCUSDT@binanceUsdm"%string, ["1"%string; "guard"%string])]
    [("BTCUSDT@binanceUsdm"%string, 1000000%Z)]
    [("BTCUSDT@binanceUsdm"%string, Some 100)] []
    [("BTCUSDT"%string, [("guard"%string, guardView)])]
    [("BTCUSDT"%string, [("uuid-0"%string, longPosition)])] 3.

(** Storage as a restart finds it: Alice's filled market BUY, a resting
    limit BUY of 1 at 95 and the open LONG, with the process-local maps
    empty. *)
Definition restingBuy : Order.t :=
  Order.mk 2%nat 1 0 0 95 95 0 0 (2 # 10000) "BTCUSDT" "u1" binanceUsdm
    OrderStatus.CREATED OrderType.LIMIT OrderSide.BUY "add" 1000000 1000000 false None.
Definition stored : State :=
  mkState [Scenario.alice] [Wallet.mk "u1" "USDT" (98996 # 100) 10]
    [longOpen; restingBuy] [longPosition]
    [Leverage.mk "u1" "BTCUSDT" None 10 true] [] [] [] [] [] [] [] 3.

(** Alice with a resting spot limit BUY of 0.1 BTCUSDT at 50000 that
    reserves 5000 of her 10000 USDT: the state [Scenario.spotResting],
    written out. *)
Definition resting : State :=
  mkState [Scenario.alice] [Wallet.mk "u1" "USDT" 5000 5000] [Scenario.limit1] [] [] []
    [("BTCUSDT@binance"%string, ["limit1"%string])]
    [("BTCUSDT@binance"%string, 1000000%Z)]
    [("BTCUSDT@binance"%string, Some 50000)] []
    [("BTCUSDT"%string, [("limit1"%string, Scenario.limit1View)])] [] 1.

End Cases.

(** * Properties *)

(** ** Comparisons, maps and sets *)

Module NumFacts.

Lemma ltb_lt a b : Num.ltb a b = true <-> a < b.
Proof.
  unfold Num.ltb. rewrite negb_true_iff.
  split; intro H.
  - apply Qnot_le_lt. intro Hle. apply Qle_bool_iff in Hle. congruence.
  - destruct (Qle_bool b a) eqn:E; [|reflexivity].
    apply Qle_bool_iff in E. exfalso. exact (Qlt_not_le _ _ H E).
Qed.

Lemma ltb_ge a b : Num.ltb a b = false <-> b <= a.
Proof.
  unfold Num.ltb. rewrite negb_false_iff. apply Qle_bool_iff.
Qed.

Lemma leb_le a b : Num.leb a b = true <-> a <= b.
Proof. apply Qle_bool_iff. Qed.

Lemma leb_gt a b : Num.leb a b = false <-> b < a.
Proof.
  unfold Num.leb. split; intro H.
  - apply Qnot_le_lt. intro Hle. apply Qle_bool_iff in Hle. congruence.
  - destruct (Qle_bool a b) eqn:E; [|reflexivity].
    apply Qle_bool_iff in E. exfalso. exact (Qlt_not_le _ _ H E).
Qed.

Lemma eqb_eq a b : Num.eqb a b = true <-> a == b.
Proof. apply Qeq_bool_iff. Qed.

Lemma truthy_neq a : Num.truthy a = true <-> ~ a == 0.
Proof.
  unfold Num.truthy. rewrite negb_true_iff. split; intro H.
  - intro E. apply Qeq_bool_iff in E. congruence.
  - destruct (Qeq_bool a 0) eqn:E; [|reflexivity].
    apply Qeq_bool_iff in E. contradiction.
Qed.

Lemma truthy_false a : Num.truthy a = false <-> a == 0.
Proof.
  unfold Num.truthy. rewrite negb_false_iff. apply Qeq_bool_iff.
Qed.

Lemma max0_nonneg x : 0 <= Num.max0 x.
Proof.
  unfold Num.max0. destruct (Qle_bool 0 x) eqn:E.
  - now apply Qle_bool_iff.
  - apply Qle_refl.
Qed.

End NumFacts.

Module JsMapFacts.
Section Facts.
Context {V : Type}.
Implicit Types (m : JsMap.t V) (k : string) (v : V).

Lemma get_set_same m k v : JsMap.get (JsMap.set m k v) k = Some v.
Proof.
  induction m as [|[k' v'] r IH]; simpl.
  - now rewrite String.eqb_refl.
  - destruct (String.eqb k' k) eqn:E; simpl.
    + now rewrite String.eqb_refl.
    + now rewrite E.
Qed.

Lemma get_set_other m k k' v :
  k <> k' -> JsMap.get (JsMap.set m k v) k' = JsMap.get m k'.
Proof.
  intro Hne. induction m as [|[k0 v0] r IH]; simpl.
  - destruct (String.eqb_spec k k'); [contradiction|reflexivity].
  - destruct (String.eqb_spec k0 k) as [->|Hk]; simpl.
    + destruct (String.eqb_spec k k'); [contradiction|reflexivity].
    + destruct (String.eqb_spec k0 k'); [reflexivity|exact IH].
Qed.

Lemma get_delete_same m k : JsMap.get (JsMap.delete m k) k = None.
Proof.
  unfold JsMap.delete.
  induction m as [|[k' v'] r IH]; simpl; [reflexivity|].
  destruct (String.eqb k' k) eqn:E; simpl; [exact IH|].
  now rewrite E.
Qed.

Lemma get_delete_other m k k' :
  k <> k' -> JsMap.get (JsMap.delete m k) k' = JsMap.get m k'.
Proof.
  unfold JsMap.delete.
  intro Hne. induction m as [|[k0 v0] r IH]; simpl; [reflexivity|].
  destruct (String.eqb_spec k0 k) as [->|Hk]; simpl.
  - destruct (String.eqb_spec k k'); [contradiction|exact IH].
  - destruct (String.eqb_spec k0 k'); [reflexivity|exact IH].
Qed.

End Facts.

Lemma has_delete_same s x : JsSet.has (JsSet.delete s x) x = false.
Proof.
  unfold JsSet.has, JsSet.delete. induction s as [|y r IH]; simpl; [reflexivity|].
  destruct (String.eqb_spec y x) as [->|Hne]; simpl; [exact IH|].
  destruct (String.eqb_spec x y); [now subst|exact IH].
Qed.

End JsMapFacts.

Lemma ExchangeEnum_eqb_eq a b : ExchangeEnum_eqb a b = true <-> a = b.
Proof.
  unfold ExchangeEnum_eqb. split.
  - destruct a, b; simpl; intro H; try reflexivity; discriminate H.
  - intros ->. apply String.eqb_refl.
Qed.

Lemma PositionSide_eqb_eq a b : PositionSide.eqb a b = true <-> a = b.
Proof. destruct a, b; simpl; split; congruence. Qed.

(** ** The liquidation price *)

(** C4.  For a LONG or SHORT position and a leverage of at least 1,
    [liquidationPrice] is [entry * (1 + (1/leverage) * s) * (1 + feePerc * s)]
    with [s = -1] for LONG and [s = +1] for SHORT when the leverage exceeds 1;
    at leverage 1 it is [entry * feePerc] for LONG and [entry / feePerc] for
    SHORT. *)
Theorem liquidationPrice_formula (entry feePerc leverage : Q) (side : PositionSide.t) :
  side = PositionSide.long \/ side = PositionSide.short ->
  1 <= leverage ->
  (1 < leverage ->
   liquidationPrice entry side feePerc leverage ==
   entry * (1 + (1 / leverage) * (match side with PositionSide.long => -1 | _ => 1 end)) * (1 + feePerc * (match side with PositionSide.long => -1 | _ => 1 end))) /\
  (leverage == 1 ->
   liquidationPrice entry side feePerc leverage ==
   match side with
   | PositionSide.long => entry * feePerc
   | _ => entry / feePerc
   end).
Proof.
  intros Hside _. split.
  - intro Hlt. unfold liquidationPrice.
    apply NumFacts.ltb_lt in Hlt. rewrite Hlt.
    destruct Hside as [-> | ->]; simpl; ring.
  - intro Heq. unfold liquidationPrice.
    assert (Hge : Num.ltb 1 leverage = false).
    { apply NumFacts.ltb_ge. rewrite Heq. apply Qle_refl. }
    rewrite Hge.
    destruct Hside as [-> | ->]; simpl.
    + reflexivity.
    + unfold Qdiv. ring.
Qed.

Lemma liquidationPrice_formula_witness :
  liquidationPrice 50000 PositionSide.long (4 # 10000) 10 ==
  50000 * (1 + (1 / 10) * -1) * (1 + (4 # 10000) * -1) /\
  liquidationPrice 50000 PositionSide.short (4 # 10000) 1 == 50000 / (4 # 10000).
Proof.
  split.
  - apply (liquidationPrice_formula 50000 (4 # 10000) 10 PositionSide.long).
    + left; reflexivity.
    + discriminate.
    + reflexivity.
  - apply (liquidationPrice_formula 50000 (4 # 10000) 1 PositionSide.short).
    + right; reflexivity.
    + discriminate.
    + reflexivity.
Defined.

(** ** Reduce-only fills larger than the position *)

(** What the trimming case does: the position is closed and its margin
    released, the order is rewritten to the position's amount and stored
    (unless the store refuses the update, which then is the branch's last
    step), and the fee is lowered by [excess * feePerc] on a linear exchange
    and by [excess * quoteMinAmount / price] on an inverse one.  The watch
    set is left as it was. *)
Lemma settleExisting_trim env order leverage symbol current margin s :
  trimBranch order symbol current ->
  let r := settleExisting env order leverage symbol current margin s in
  let feePerc := if Num.truthy (Order.feePerc order) then Order.feePerc order
                 else getUserFee (feeKindOf (Order.type order)) (Order.exchange order) in
  let excess := Qabs (Position.positionAmt current - Order.amount order) in
  let fee := Order.fee order -
             (if isCoinm (Order.exchange order)
              then (excess * QuoteAsset.minAmount (ExchangeInfo.quoteAsset symbol)) /
                   Order.price order
              else excess * feePerc) in
  Position.status (st_current r) = PositionStatus.closed /\
  Position.margin (st_current r) = 0 /\
  Position.closePrice (st_current r) = Order.price order /\
  st_locked r = - Position.margin current /\
  match replaceOrderByExternalId (orderModel s)
          (trimOrder order fee (Position.positionAmt current)) with
  | Some orders => st_refused r = false /\ orderModel (st_state r) = orders
  | None => st_refused r = true /\ st_state r = s
  end /\
  watchSymbols (st_state r) = watchSymbols s.
Proof.
  intros (Hdir & Hred & Hle & Heps & Hthr) r feePerc excess fee.
  subst r. unfold settleExisting. cbv zeta.
  assert (Hsame :
    (OrderSide.eqb (Order.side order) OrderSide.BUY &&
     PositionSide.eqb (Position.positionSide current) PositionSide.long) ||
    (OrderSide.eqb (Order.side order) OrderSide.SELL &&
     PositionSide.eqb (Position.positionSide current) PositionSide.short) = false).
  { destruct Hdir as [[-> ->] | [-> ->]]; reflexivity. }
  rewrite Hsame.
  assert (H1 : Num.leb (Qabs (Position.positionAmt current - Order.amount order))
                 Num.EPSILON = false).
  { now apply NumFacts.leb_gt. }
  rewrite H1. rewrite orb_false_l.
  assert (H2 : (if isCoinm (Order.exchange order)
                then absLt (MathHelper.round
                              (Position.positionAmt current - Order.amount order) 10) 1
                else absLt (MathHelper.round
                              (Position.positionAmt current - Order.amount order) 10)
                       (BaseAsset.minAmount (ExchangeInfo.baseAsset symbol))) = false).
  { destruct (isCoinm (Order.exchange order)); exact Hthr. }
  rewrite H2.
  assert (H3 : Num.leb (Position.positionAmt current - Order.amount order) 0 = true).
  { now apply NumFacts.leb_le. }
  rewrite H3, Hred.
  fold feePerc. fold excess. fold fee.
  destruct (replaceOrderByExternalId (orderModel s)
              (trimOrder order fee (Position.positionAmt current))); cbn; repeat split.
Qed.

(** C1.  The fee of a trimmed reduce-only order is not lowered by the fee of
    the trimmed excess.  On a linear exchange, a reduce-only market SELL of 2
    at 100 (fee rate 0.0004, fee 0.08) against a LONG of 1 is rewritten to
    amount 1 and quote amount 100, and its stored fee is 0.0796: lowered by
    [excess * feePerc = 0.0004], not by [excess * price * feePerc = 0.04].
    On an inverse exchange (contracts of 100), a reduce-only SELL of 5 at 100
    (fee rate 0.0005, fee 0.0025) against a LONG of 2 is stored with the fee
    -2.9975: lowered by [excess * quoteMinAmount / price = 3], not by
    [(excess * quoteMinAmount / price) * feePerc = 0.0015]. *)
Theorem reduceOnly_trim_fee_refund_drops_a_factor :
  (exists o,
     find (fun o => String.eqb (Order.externalId o) "reduce")
          (orderModel (snd (createOrder (Scenario.envAt (Some 100))
                              Scenario.linearReduce Scenario.linearOpen))) = Some o /\
     Order.amount o == 1 /\ Order.quoteAmount o == 100 /\
     Order.filledAmount o == 1 /\ Order.filledQuoteAmount o == 100 /\
     Order.fee o == 2 * 100 * (4 # 10000) - 1 * (4 # 10000) /\
     ~ Order.fee o == 2 * 100 * (4 # 10000) - 1 * 100 * (4 # 10000)) /\
  (exists o,
     find (fun o => String.eqb (Order.externalId o) "reduce")
          (orderModel (snd (createOrder (Scenario.envAt (Some 100))
                              Scenario.inverseReduce Scenario.inverseOpen))) = Some o /\
     Order.amount o == 2 /\
     Order.fee o == (5 * 100 / 100) * (5 # 10000) - 3 * 100 / 100 /\
     ~ Order.fee o == (5 * 100 / 100) * (5 # 10000) - (3 * 100 / 100) * (5 # 10000)).
Proof.
  split.
  - eexists. split; [vm_compute; reflexivity|].
    repeat split; try (vm_compute; reflexivity).
    intro H. vm_compute in H. discriminate H.
  - eexists. split; [vm_compute; reflexivity|].
    repeat split; try (vm_compute; reflexivity).
    intro H. vm_compute in H. discriminate H.
Qed.

(** After the trimmed close the position has left the projection, and its
    id is still in the watch set of the symbol. *)
Lemma reduceOnly_trim_keeps_watch_entry :
  let s := snd (createOrder (Scenario.envAt (Some 100))
                  Scenario.linearReduce Scenario.linearOpen) in
  getPositionsBySymbols ["BTCUSDT"%string] (currentPositions s) = [] /\
  watchSet "BTCUSDT@binanceUsdm" s = ["2"%string].
Proof. vm_compute. split; reflexivity. Qed.

(** ** The steps of [createOrder] before admission *)

Lemma sameBooks_refl s : sameBooks s s.
Proof. unfold sameBooks. repeat split. Qed.

Lemma sameBooks_trans s1 s2 s3 : sameBooks s1 s2 -> sameBooks s2 s3 -> sameBooks s1 s3.
Proof.
  unfold sameBooks. intros H1 H2.
  decompose [and] H1. decompose [and] H2. repeat split; congruence.
Qed.

Lemma ensureLeverage_ok user order s :
  exists leverage s0, ensureLeverage user order s = (Ok leverage, s0) /\
    sameBooks s s0 /\ symbolPriceMap s0 = symbolPriceMap s /\
    tickerTimeMap s0 = tickerTimeMap s.
Proof.
  unfold ensureLeverage. destruct (find _ (leverageModel s)).
  - do 2 eexists. split; [reflexivity|]. split; [apply sameBooks_refl|]. split; reflexivity.
  - do 2 eexists. split; [reflexivity|]. unfold sameBooks. simpl. repeat split.
Qed.

(** The price lookup either throws -- the 400 of a missing price, or the
    [TypeError] of a price service that could not be reached -- or returns a
    truthy price that a second lookup on the state it leaves returns again,
    without a further change. *)
Lemma getLatestPriceInExchange_cases env symbol exchange s :
  (exists e s1,
     getLatestPriceInExchange env symbol exchange s = (Throw e, s1) /\
     sameBooks s s1 /\ leverageModel s1 = leverageModel s /\
     (e = HttpException "Failed to get latest price from exchange" 400 \/
      (latestPrice env exchange symbol = None /\
       e = TypeError "Cannot read properties of null (reading 'status')"))) \/
  (exists p s1,
     getLatestPriceInExchange env symbol exchange s = (Ok p, s1) /\
     sameBooks s s1 /\ leverageModel s1 = leverageModel s /\
     Num.truthy p = true /\
     getLatestPriceInExchange env symbol exchange s1 = (Ok p, s1)).
Proof.
  unfold getLatestPriceInExchange.
  destruct (noPrice (cachedPrice s (symKey symbol exchange)) ||
            (newDataLimit <? now env - cachedTickerTime s (symKey symbol exchange))%Z) eqn:Ec.
  - destruct (latestPrice env exchange symbol) as [[p|]|] eqn:El.
    + unfold priceOrThrow. destruct (Num.truthy p) eqn:Et.
      * right. do 2 eexists. split; [reflexivity|].
        split; [unfold sameBooks; simpl; repeat split|].
        split; [reflexivity|]. split; [exact Et|].
        unfold cachedPrice, cachedTickerTime. simpl.
        rewrite !JsMapFacts.get_set_same. simpl. rewrite Et. simpl.
        rewrite Z.sub_diag. simpl. reflexivity.
      * left. do 2 eexists. split; [reflexivity|].
        split; [unfold sameBooks; simpl; repeat split|]. split; [reflexivity|now left].
    + left. do 2 eexists. split; [reflexivity|].
      split; [unfold sameBooks; simpl; repeat split|]. split; [reflexivity|now left].
    + left. do 2 eexists. split; [reflexivity|].
      split; [apply sameBooks_refl|]. split; [reflexivity|]. right. now split.
  - apply orb_false_iff in Ec. destruct Ec as [Ec1 Ec2].
    destruct (cachedPrice s (symKey symbol exchange)) as [p|] eqn:Ecp; [|discriminate Ec1].
    simpl in Ec1. apply negb_false_iff in Ec1.
    right. exists p, s. unfold priceOrThrow. rewrite Ec1.
    split; [reflexivity|].
    split; [apply sameBooks_refl|]. split; [reflexivity|]. split; [reflexivity|].
    rewrite Ecp. simpl. rewrite Ec1, Ec2. simpl. reflexivity.
Qed.

Lemma getLatestPriceInExchange_caches env symbol exchange s s0 :
  symbolPriceMap s0 = symbolPriceMap s -> tickerTimeMap s0 = tickerTimeMap s ->
  fst (getLatestPriceInExchange env symbol exchange s0) =
  fst (getLatestPriceInExchange env symbol exchange s).
Proof.
  intros Hp Ht. unfold getLatestPriceInExchange, priceOrThrow, cachedPrice, cachedTickerTime.
  rewrite Hp, Ht.
  destruct (_ || _).
  - destruct (latestPrice env exchange symbol) as [[p|]|];
      [destruct (Num.truthy p)| |]; reflexivity.
  - destruct (match JsMap.get (symbolPriceMap s) (symKey symbol exchange) with
              | Some p => p | None => None end) as [p|];
      [destruct (Num.truthy p)|]; reflexivity.
Qed.

(** [createOrder] throws before admission, with the books unchanged -- a 400,
    or the [TypeError] of a price service that could not be reached -- or
    hands over to [admitOrder] with the user, the balances read at the start,
    a leverage and a truthy current price. *)
Lemma createOrder_prefix env order s :
  (exists e s',
     createOrder env order s = (Throw e, s') /\ sameBooks s s' /\
     ((exists message, e = HttpException message 400) \/
      (latestPrice env (CreateOrderDto.exchange order) (CreateOrderDto.symbol order) = None /\
       e = TypeError "Cannot read properties of null (reading 'status')"))) \/
  (exists user leverage currentPrice s1,
     find (fun u => String.eqb (User.key u) (CreateOrderDto.key order) &&
                    String.eqb (User.secret u) (CreateOrderDto.secret order))
          (users s) = Some user /\
     sameBooks s s1 /\
     Num.truthy currentPrice = true /\
     fst (getLatestPriceInExchange env (CreateOrderDto.symbol order)
            (CreateOrderDto.exchange order) s) = Ok currentPrice /\
     getLatestPriceInExchange env (CreateOrderDto.symbol order)
       (CreateOrderDto.exchange order) s1 = (Ok currentPrice, s1) /\
     createOrder env order s =
       admitOrder env order user
         (getUserBalanceByUserIdOrThrow (User.id user)
            [BaseAsset.name (ExchangeInfo.baseAsset
               (getExchangeInfo env (CreateOrderDto.symbol order) (CreateOrderDto.exchange order)));
             QuoteAsset.name (ExchangeInfo.quoteAsset
               (getExchangeInfo env (CreateOrderDto.symbol order) (CreateOrderDto.exchange order)))]
            (wallets s))
         leverage currentPrice s1).
Proof.
  unfold createOrder, bind, getUserByKeyAndSecretOrThrow.
  destruct (find _ (users s)) as [user|] eqn:Eu.
  2:{ left. do 2 eexists. split; [reflexivity|]. split; [apply sameBooks_refl|].
      left. eexists. reflexivity. }
  unfold gets.
  assert (Hlev : exists leverage s0,
            (if isFutures (CreateOrderDto.exchange order)
             then ensureLeverage user order else ret 1) s = (Ok leverage, s0) /\
            sameBooks s s0 /\ symbolPriceMap s0 = symbolPriceMap s /\
            tickerTimeMap s0 = tickerTimeMap s).
  { destruct (isFutures _).
    - apply ensureLeverage_ok.
    - do 2 eexists. split; [reflexivity|]. split; [apply sameBooks_refl|]. split; reflexivity. }
  destruct Hlev as (leverage & s0 & El & Hb0 & Hp0 & Ht0). rewrite El.
  pose proof (getLatestPriceInExchange_caches env (CreateOrderDto.symbol order)
                (CreateOrderDto.exchange order) s s0 Hp0 Ht0) as Hfst.
  destruct (getLatestPriceInExchange_cases env (CreateOrderDto.symbol order)
              (CreateOrderDto.exchange order) s0)
    as [(e & s1 & E1 & Hb1 & _ & He) | (p & s1 & E1 & Hb1 & _ & Htr & Hagain)].
  - left. rewrite E1. do 2 eexists. split; [reflexivity|].
    split; [exact (sameBooks_trans _ _ _ Hb0 Hb1)|].
    destruct He as [-> | He]; [left; eexists; reflexivity | right; exact He].
  - right. rewrite E1. exists user, leverage, p, s1.
    split; [reflexivity|]. split; [exact (sameBooks_trans _ _ _ Hb0 Hb1)|].
    split; [exact Htr|]. split; [now rewrite <- Hfst, E1|].
    split; [exact Hagain|]. reflexivity.
Qed.

(** ** The current price of [createOrder] *)

(** X23.  Every [createOrder] call needs a current price, whatever its
    type: when the cached price of the symbol is missing (or falsy) or older
    than 30 s, and the latest-price service answers without a price, the
    call throws an [HttpException] with status 400, and the stored orders,
    the balances, the positions and the projection are as before the call. *)
Lemma createOrder_requires_current_price env order s data :
  let key := symKey (CreateOrderDto.symbol order) (CreateOrderDto.exchange order) in
  noPrice (cachedPrice s key) = true \/
  (newDataLimit < now env - cachedTickerTime s key)%Z ->
  latestPrice env (CreateOrderDto.exchange order) (CreateOrderDto.symbol order) = Some data ->
  noPrice data = true ->
  exists message s',
    createOrder env order s = (Throw (HttpException message 400), s') /\
    orderModel s' = orderModel s /\ wallets s' = wallets s /\
    positionModel s' = positionModel s /\
    currentOrders s' = currentOrders s /\ currentPositions s' = currentPositions s.
Proof.
  intros key Hcache Hans Hext.
  destruct (createOrder_prefix env order s)
    as [(e & s' & E & Hb & [(message & ->) | (Hdown & _)]) |
        (user & l & p & s1 & _ & _ & Htr & Hfst & _)].
  - exists message, s'. split; [exact E|].
    unfold sameBooks in Hb. decompose [and] Hb. repeat split; assumption.
  - rewrite Hans in Hdown. discriminate Hdown.
  - exfalso. revert Hfst. unfold getLatestPriceInExchange. fold key.
    assert (Hc : noPrice (cachedPrice s key) ||
                 (newDataLimit <? now env - cachedTickerTime s key)%Z = true).
    { apply orb_true_iff. destruct Hcache as [H|H]; [now left|right; now apply Z.ltb_lt]. }
    rewrite Hc, Hans. unfold priceOrThrow.
    destruct data as [q|]; simpl in *.
    + apply negb_true_iff in Hext. rewrite Hext. discriminate.
    + discriminate.
Qed.

Lemma createOrder_requires_current_price_witness :
  exists message s',
    createOrder (Scenario.envAt None) Scenario.spotLimitBuy Scenario.spotStart =
      (Throw (HttpException message 400), s') /\
    orderModel s' = orderModel Scenario.spotStart /\
    wallets s' = wallets Scenario.spotStart /\
    positionModel s' = positionModel Scenario.spotStart /\
    currentOrders s' = currentOrders Scenario.spotStart /\
    currentPositions s' = currentPositions Scenario.spotStart.
Proof.
  apply (createOrder_requires_current_price (Scenario.envAt None)
           Scenario.spotLimitBuy Scenario.spotStart None).
  - left. reflexivity.
  - reflexivity.
  - reflexivity.
Defined.

(** With the price service out of reach, a call that has to ask it throws
    the [TypeError] of the unchecked answer; the books are as before. *)
Lemma createOrder_price_service_down env order s user :
  find (fun u => String.eqb (User.key u) (CreateOrderDto.key order) &&
                 String.eqb (User.secret u) (CreateOrderDto.secret order))
       (users s) = Some user ->
  let key := symKey (CreateOrderDto.symbol order) (CreateOrderDto.exchange order) in
  noPrice (cachedPrice s key) = true \/
  (newDataLimit < now env - cachedTickerTime s key)%Z ->
  latestPrice env (CreateOrderDto.exchange order) (CreateOrderDto.symbol order) = None ->
  exists s',
    createOrder env order s =
      (Throw (TypeError "Cannot read properties of null (reading 'status')"), s') /\
    sameBooks s s'.
Proof.
  intros Hu key Hcache Hdown.
  destruct (createOrder_prefix env order s)
    as [(e & s' & E & Hb & He) | (user' & l & p & s1 & _ & _ & _ & Hfst & _)].
  - destruct He as [(message & ->) | (_ & ->)].
    + exfalso. revert E.
      unfold createOrder, bind, getUserByKeyAndSecretOrThrow. rewrite Hu. unfold gets.
      destruct (ensureLeverage_ok user order s) as (l & s0 & El & _ & Hp0 & Ht0).
      assert (Hlev : exists l0 s0',
                (if isFutures (CreateOrderDto.exchange order)
                 then ensureLeverage user order else ret 1) s = (Ok l0, s0') /\
                symbolPriceMap s0' = symbolPriceMap s /\ tickerTimeMap s0' = tickerTimeMap s).
      { destruct (isFutures _); [now exists l, s0 | now exists 1, s]. }
      destruct Hlev as (l0 & s0' & El' & Hp' & Ht'). rewrite El'.
      pose proof (getLatestPriceInExchange_caches env (CreateOrderDto.symbol order)
                    (CreateOrderDto.exchange order) s s0' Hp' Ht') as Hc.
      assert (Hs : fst (getLatestPriceInExchange env (CreateOrderDto.symbol order)
                          (CreateOrderDto.exchange order) s) =
                   Throw (TypeError "Cannot read properties of null (reading 'status')")).
      { unfold getLatestPriceInExchange. fold key.
        assert (Hcb : noPrice (cachedPrice s key) ||
                      (newDataLimit <? now env - cachedTickerTime s key)%Z = true).
        { apply orb_true_iff. destruct Hcache as [H|H]; [now left|right; now apply Z.ltb_lt]. }
        rewrite Hcb, Hdown. reflexivity. }
      rewrite Hs in Hc.
      destruct (getLatestPriceInExchange env _ _ s0') as [[q|e0] s1]; cbn [fst] in Hc;
        [discriminate Hc|].
      inversion Hc; subst e0. discriminate.
    + exists s'. split; [exact E|exact Hb].
  - exfalso. revert Hfst. unfold getLatestPriceInExchange. fold key.
    assert (Hcb : noPrice (cachedPrice s key) ||
                  (newDataLimit <? now env - cachedTickerTime s key)%Z = true).
    { apply orb_true_iff. destruct Hcache as [H|H]; [now left|right; now apply Z.ltb_lt]. }
    rewrite Hcb, Hdown. discriminate.
Qed.

(** C10.  A [createOrder] call whose price lookup fails does not fail with a
    400.  Alice has no cached price for BTCUSDT and the latest-price service
    cannot be reached: her plain limit BUY throws a [TypeError] (the read of
    [status] on the [null] that the failed lookup resolved to), not the
    [HttpException] with status 400 of the missing-price check.  No order is
    created and no balance is changed. *)
Theorem unreachable_price_service_is_not_a_400 :
  noPrice (cachedPrice Scenario.spotStart "BTCUSDT@binance") = true /\
  latestPrice Scenario.envDown binance "BTCUSDT" = None /\
  createOrder Scenario.envDown Scenario.spotLimitBuy Scenario.spotStart =
    (Throw (TypeError "Cannot read properties of null (reading 'status')"),
     Scenario.spotStart) /\
  forall message,
    fst (createOrder Scenario.envDown Scenario.spotLimitBuy Scenario.spotStart) <>
    Throw (HttpException message 400).
Proof.
  split; [reflexivity|]. split; [reflexivity|].
  assert (E : createOrder Scenario.envDown Scenario.spotLimitBuy Scenario.spotStart =
              (Throw (TypeError "Cannot read properties of null (reading 'status')"),
               Scenario.spotStart)) by (vm_compute; reflexivity).
  split; [exact E|].
  intros message H. rewrite E in H. discriminate H.
Qed.

(** ** Hedge mode and the position side *)

(** A derivatives request of a hedge-mode user that names the side BOTH is
    refused with a 400 before any order or balance is written (the price
    service being in reach). *)
Lemma createOrder_hedge_rejects_both env order s :
  isFutures (CreateOrderDto.exchange order) = true ->
  CreateOrderDto.positionSide order = Some PositionSide.both ->
  latestPrice env (CreateOrderDto.exchange order) (CreateOrderDto.symbol order) <> None ->
  (forall user,
     find (fun u => String.eqb (User.key u) (CreateOrderDto.key order) &&
                    String.eqb (User.secret u) (CreateOrderDto.secret order))
          (users s) = Some user ->
     hedgeOf (User.id user) s = true) ->
  exists message s',
    createOrder env order s = (Throw (HttpException message 400), s') /\
    orderModel s' = orderModel s /\ wallets s' = wallets s /\
    positionModel s' = positionModel s.
Proof.
  intros Hfut Hside Hup Hhedge.
  destruct (createOrder_prefix env order s)
    as [(e & s' & E & Hb & [(message & ->) | (Hdown & _)]) |
        (user & l & p & s1 & Eu & Hb & _ & _ & _ & E)].
  - exists message, s'. split; [exact E|].
    unfold sameBooks in Hb. decompose [and] Hb. repeat split; assumption.
  - contradiction.
  - rewrite E. unfold admitOrder. cbv zeta. rewrite Hfut.
    unfold bind, gets.
    assert (Hh : hedgeOf (User.id user) s1 = true).
    { rewrite <- (Hhedge user Eu). unfold hedgeOf.
      destruct Hb as (_ & _ & _ & _ & Hhm & _). now rewrite Hhm. }
    rewrite Hh. unfold withType at 1. cbn [CreateOrderDto.positionSide].
    rewrite Hside. simpl.
    do 2 eexists. split; [reflexivity|].
    unfold sameBooks in Hb. decompose [and] Hb. repeat split; assumption.
Qed.

(** C9.  A derivatives request of a hedge-mode user that carries no position
    side is not refused: the test compares the side with BOTH only.  Alice,
    in hedge mode with 1000 USDT, sends a market BUY of 1 without a position
    side at price 100: the call returns FILLED, an order and a position are
    stored, and her free balance is charged the margin and the fee. *)
Theorem hedge_mode_admits_absent_positionSide :
  hedgeOf "u1" Scenario.hedgeStart = true /\
  CreateOrderDto.positionSide Scenario.unsidedRequest = None /\
  exists response s',
    createOrder (Scenario.envAt (Some 100)) Scenario.unsidedRequest Scenario.hedgeStart =
      (Ok response, s') /\
    CreateOrderResponse.status response = OrderStatus.FILLED /\
    List.length (orderModel s') = 1%nat /\
    List.length (positionModel s') = 1%nat /\
    freeOf (wallets s') "u1" "USDT" == 1000 - 100 - 100 * (4 # 10000) /\
    lockedOf (wallets s') "u1" "USDT" == 100.
Proof.
  split; [reflexivity|]. split; [reflexivity|].
  do 2 eexists. split; [vm_compute; reflexivity|].
  repeat split; vm_compute; reflexivity.
Qed.

(** ** Balance updates *)

Lemma findWallet_incWallet_same ws user u :
  exists w, findWallet (incWallet ws user u) user (BalanceUpdate.asset u) = Some w /\
    Wallet.free w == freeOf ws user (BalanceUpdate.asset u) + BalanceUpdate.free u /\
    Wallet.locked w == lockedOf ws user (BalanceUpdate.asset u) + BalanceUpdate.locked u.
Proof.
  unfold freeOf, lockedOf, findWallet.
  induction ws as [|w r IH]; simpl.
  - rewrite !String.eqb_refl. simpl. eexists. split; [reflexivity|]. simpl. split; ring.
  - destruct (String.eqb (Wallet.user w) user && String.eqb (Wallet.asset w) (BalanceUpdate.asset u)) eqn:E.
    + simpl. rewrite E. eexists. split; [reflexivity|]. simpl. split; reflexivity.
    + simpl. rewrite E. exact IH.
Qed.

Lemma findWallet_incWallet_other ws user u user' asset' :
  user' <> user \/ asset' <> BalanceUpdate.asset u ->
  findWallet (incWallet ws user u) user' asset' = findWallet ws user' asset'.
Proof.
  intro Hne. unfold findWallet.
  assert (Hk : forall a b, String.eqb a user && String.eqb b (BalanceUpdate.asset u) = true ->
                 String.eqb a user' && String.eqb b asset' = false).
  { intros a b H. apply andb_true_iff in H. destruct H as [Ha Hb].
    apply String.eqb_eq in Ha, Hb. subst.
    apply andb_false_iff.
    destruct Hne as [H|H]; [left|right]; apply String.eqb_neq; congruence. }
  induction ws as [|w r IH]; simpl.
  - now rewrite (Hk user (BalanceUpdate.asset u)) by now rewrite !String.eqb_refl.
  - destruct (String.eqb (Wallet.user w) user && String.eqb (Wallet.asset w) (BalanceUpdate.asset u)) eqn:E.
    + simpl. now rewrite (Hk _ _ E).
    + simpl. now rewrite IH.
Qed.

Lemma freeOf_incWallet_same ws user u :
  freeOf (incWallet ws user u) user (BalanceUpdate.asset u) ==
  freeOf ws user (BalanceUpdate.asset u) + BalanceUpdate.free u.
Proof.
  destruct (findWallet_incWallet_same ws user u) as (w & E & Hf & _).
  unfold freeOf at 1. now rewrite E.
Qed.

Lemma lockedOf_incWallet_same ws user u :
  lockedOf (incWallet ws user u) user (BalanceUpdate.asset u) ==
  lockedOf ws user (BalanceUpdate.asset u) + BalanceUpdate.locked u.
Proof.
  destruct (findWallet_incWallet_same ws user u) as (w & E & _ & Hl).
  unfold lockedOf at 1. now rewrite E.
Qed.

(** ** Cancellation *)

Lemma watchSet_watchDrop sym id s :
  JsSet.has (watchSet sym (watchDrop sym id s)) id = false.
Proof.
  unfold watchDrop.
  destruct (JsMap.get (watchSymbols s) sym) as [w|] eqn:E.
  - match goal with |- context [Nat.eqb ?n 0] => destruct (Nat.eqb n 0) eqn:Es end.
    + unfold watchSet. simpl. now rewrite JsMapFacts.get_delete_same.
    + unfold watchSet. simpl. rewrite JsMapFacts.get_set_same.
      apply JsMapFacts.has_delete_same.
  - match goal with |- context [Nat.eqb ?n 0] => destruct (Nat.eqb n 0) eqn:Es end.
    + unfold watchSet. simpl. now rewrite JsMapFacts.get_delete_same.
    + unfold watchSet. rewrite E. reflexivity.
Qed.

Lemma getOrder_removeOrderAt symbol externalId s :
  getOrderByExternalIdAndSymbol symbol externalId (removeOrderAt symbol externalId s) = None.
Proof.
  unfold removeOrderAt, getOrderByExternalIdAndSymbol.
  destruct (JsMap.get (currentOrders s) symbol) as [m|] eqn:E.
  - simpl. rewrite JsMapFacts.get_set_same. apply JsMapFacts.get_delete_same.
  - now rewrite E.
Qed.

(** X22.  Cancelling succeeds for the open (NEW or PARTIALLY_FILLED) LIMIT
    order that the lookup by [externalId] and user finds, the first stored
    one.  On a spot exchange it moves exactly the unfilled reservation from
    [locked] to [free] -- [quoteAmount - filledQuoteAmount] of the quote
    asset for a BUY, [amount - filledAmount] of the base asset for a SELL --
    and touches no other wallet row; on a derivatives exchange it leaves
    every balance as it was.  The order is then absent from the projection
    and its id from the watch set of its symbol. *)
Lemma processCancelOrder_releases_reservation env externalId user expired s order :
  find (fun o => String.eqb (Order.externalId o) externalId &&
                 String.eqb (Order.user o) (User.id user)) (orderModel s) = Some order ->
  Order.status order = OrderStatus.CREATED \/
  Order.status order = OrderStatus.PARTIALLY_FILLED ->
  Order.type order = OrderType.LIMIT ->
  let unfilled :=
    match Order.side order with
    | OrderSide.BUY => Order.quoteAmount order - Order.filledQuoteAmount order
    | OrderSide.SELL => Order.amount order - Order.filledAmount order
    end in
  let asset := cancelAsset env order in
  exists s',
    processCancelOrder env externalId user expired s = (Ok "canceled"%string, s') /\
    (isFutures (Order.exchange order) = false ->
     freeOf (wallets s') (User.id user) asset ==
       freeOf (wallets s) (User.id user) asset + unfilled /\
     lockedOf (wallets s') (User.id user) asset ==
       lockedOf (wallets s) (User.id user) asset - unfilled /\
     forall user' asset', user' <> User.id user \/ asset' <> asset ->
       findWallet (wallets s') user' asset' = findWallet (wallets s) user' asset') /\
    (isFutures (Order.exchange order) = true -> wallets s' = wallets s) /\
    getOrderByExternalIdAndSymbol (Order.symbol order) (Order.externalId order) s' = None /\
    JsSet.has (watchSet (symKey (Order.symbol order) (Order.exchange order)) s')
      (Order.externalId order) = false.
Proof.
  intros Hfind Hopen Htype unfilled asset.
  unfold processCancelOrder. rewrite Hfind.
  assert (Ht : OrderStatus.terminal (Order.status order) = false).
  { destruct Hopen as [-> | ->]; reflexivity. }
  rewrite Ht, Htype.
  eexists. split; [reflexivity|].
  split; [|split; [|split]].
  - intro Hspot.
    assert (Hamt : cancelAmount order = unfilled).
    { unfold cancelAmount. now rewrite Hspot. }
    rewrite Hamt.
    destruct (Num.truthy unfilled) eqn:Etr.
    + cbn [wallets removeOrderAt watchDrop].
      assert (Hw : forall st, wallets (removeOrderAt (Order.symbol order) (Order.externalId order)
                     (watchDrop (symKey (Order.symbol order) (Order.exchange order))
                                (Order.externalId order) st)) = wallets st).
      { intro st. unfold removeOrderAt, watchDrop.
        repeat match goal with
               | |- context [match ?x with _ => _ end] => destruct x; simpl
               end; reflexivity. }
      rewrite Hw. unfold updateBalance. simpl.
      split; [|split].
      * exact (freeOf_incWallet_same (wallets s) (User.id user)
                 (BalanceUpdate.mk asset unfilled (- unfilled))).
      * exact (lockedOf_incWallet_same (wallets s) (User.id user)
                 (BalanceUpdate.mk asset unfilled (- unfilled))).
      * intros user' asset' Hne.
        apply (findWallet_incWallet_other (wallets s) (User.id user)
                 (BalanceUpdate.mk asset unfilled (- unfilled))). exact Hne.
    + apply NumFacts.truthy_false in Etr.
      assert (Hw : forall st, wallets (removeOrderAt (Order.symbol order) (Order.externalId order)
                     (watchDrop (symKey (Order.symbol order) (Order.exchange order))
                                (Order.externalId order) st)) = wallets st).
      { intro st. unfold removeOrderAt, watchDrop.
        repeat match goal with
               | |- context [match ?x with _ => _ end] => destruct x; simpl
               end; reflexivity. }
      rewrite Hw. simpl.
      split; [|split].
      * rewrite Etr. ring.
      * rewrite Etr. ring.
      * reflexivity.
  - intro Hfut.
    assert (Hamt : cancelAmount order = 0).
    { unfold cancelAmount. now rewrite Hfut. }
    rewrite Hamt. simpl Num.truthy. cbv iota.
    unfold removeOrderAt, watchDrop.
    repeat match goal with
           | |- context [match ?x with _ => _ end] => destruct x; simpl
           end; reflexivity.
  - apply getOrder_removeOrderAt.
  - match goal with
    | |- JsSet.has (watchSet ?k (removeOrderAt ?a ?b ?st)) ?e = false =>
        assert (Hws : watchSet k (removeOrderAt a b st) = watchSet k st)
    end.
    { unfold watchSet, removeOrderAt.
      destruct (JsMap.get (currentOrders _) _); reflexivity. }
    rewrite Hws. apply watchSet_watchDrop.
Qed.

Lemma processCancelOrder_releases_reservation_witness :
  exists s',
    processCancelOrder (Scenario.envAt (Some 50000)) "limit1" Scenario.alice false
      Scenario.spotResting = (Ok "canceled"%string, s') /\
    freeOf (wallets s') "u1" "USDT" == 10000 /\
    lockedOf (wallets s') "u1" "USDT" == 0 /\
    getOrderByExternalIdAndSymbol "BTCUSDT" "limit1" s' = None /\
    JsSet.has (watchSet "BTCUSDT@binance" s') "limit1" = false.
Proof.
  edestruct (processCancelOrder_releases_reservation (Scenario.envAt (Some 50000))
               "limit1" Scenario.alice false Scenario.spotResting)
    as (s' & E & Hspot & _ & Hproj & Hwatch).
  - vm_compute. reflexivity.
  - left. reflexivity.
  - reflexivity.
  - exists s'. split; [exact E|].
    destruct (Hspot eq_refl) as (Hfree & Hlocked & _).
    split; [|split; [|split]].
    + rewrite Hfree. vm_compute. reflexivity.
    + rewrite Hlocked. vm_compute. reflexivity.
    + exact Hproj.
    + exact Hwatch.
Defined.

(** C5.  An open spot LIMIT order that was stored after an order of the same
    user with the same [externalId] on another symbol cannot be cancelled.
    Alice's market BUY "x" on ETHUSDT is filled and stored first; her limit
    BUY "x" on BTCUSDT then rests, open, projected, and holds 400 USDT in
    [locked].  Cancelling by [externalId], and cancelling by the [_id] of the
    resting order, both look the order up by [externalId] and user alone,
    find the filled ETHUSDT order and throw the 400 of an unknown order: the
    state is unchanged, the reservation stays in [locked] and the order in
    the projection and in the watch set. *)
Theorem open_order_behind_a_namesake_is_not_released :
  let s := Scenario.shadowed in
  let env := Scenario.envAt (Some 50000) in
  (exists o,
     find (fun o => String.eqb (Order.id o) "1") (orderModel s) = Some o /\
     Order.externalId o = "x"%string /\ Order.symbol o = "BTCUSDT"%string /\
     Order.user o = "u1"%string /\ isFutures (Order.exchange o) = false /\
     Order.status o = OrderStatus.CREATED /\ Order.type o = OrderType.LIMIT /\
     Order.side o = OrderSide.BUY /\
     Order.quoteAmount o - Order.filledQuoteAmount o == 400 /\
     getOrderByExternalIdAndSymbol "BTCUSDT" "x" s = Some (mapOrderDocumentToDataType o)) /\
  lockedOf (wallets s) "u1" "USDT" == 400 /\
  JsSet.has (watchSet "BTCUSDT@binance" s) "x" = true /\
  cancelOrderByKeySecretExternalIdAndSymbol env "key1" "secret1" "x" false s =
    (Throw (HttpException "Unknown order" 400), s) /\
  cancelOrderByKeySecretIdAndSymbol env "key1" "secret1" "1" false s =
    (Throw (HttpException "Unknown order" 400), s).
Proof.
  cbv zeta. split.
  - eexists. split; [vm_compute; reflexivity|].
    repeat split; vm_compute; reflexivity.
  - repeat split; vm_compute; reflexivity.
Qed.

(** ** Cancelling an order that is unknown or terminal *)

Lemma processCancelOrder_unknown env externalId user expired s :
  match find (fun o => String.eqb (Order.externalId o) externalId &&
                       String.eqb (Order.user o) (User.id user)) (orderModel s) with
  | None => True
  | Some order => OrderStatus.terminal (Order.status order) = true
  end ->
  processCancelOrder env externalId user expired s =
    (Throw (HttpException "Unknown order" 400), s).
Proof.
  unfold processCancelOrder.
  destruct (find _ (orderModel s)) as [order|]; [|reflexivity].
  intros ->. reflexivity.
Qed.

Lemma cancelOrderByExternalId_unknown env key secret externalId expired s :
  (forall o, In o (orderModel s) -> Order.externalId o = externalId ->
             OrderStatus.terminal (Order.status o) = true) ->
  exists message,
    cancelOrderByKeySecretExternalIdAndSymbol env key secret externalId expired s =
      (Throw (HttpException message 400), s).
Proof.
  intro Hterm.
  unfold cancelOrderByKeySecretExternalIdAndSymbol, bind, getUserByKeyAndSecretOrThrow.
  destruct (find _ (users s)) as [user|]; [|eexists; reflexivity].
  eexists. apply processCancelOrder_unknown.
  destruct (find _ (orderModel s)) as [order|] eqn:E; [|exact I].
  apply find_some in E. destruct E as [Hin Hm].
  apply andb_true_iff in Hm. destruct Hm as [He _].
  apply String.eqb_eq in He. now apply (Hterm order).
Qed.

Lemma cancelOrderById_missing env key secret orderId expired s user :
  find (fun u => String.eqb (User.key u) key && String.eqb (User.secret u) secret)
       (users s) = Some user ->
  find (fun o => String.eqb (Order.id o) orderId) (orderModel s) = None ->
  cancelOrderByKeySecretIdAndSymbol env key secret orderId expired s =
    (Throw (TypeError "Cannot read properties of null (reading 'externalId')"), s).
Proof.
  intros Hu Ho.
  unfold cancelOrderByKeySecretIdAndSymbol, bind, getUserByKeyAndSecretOrThrow, gets.
  now rewrite Hu, Ho.
Qed.

(** C8.  Cancelling by [_id] does not always fail with a 400 and an
    unchanged state when the order is missing or terminal.  For an [_id]
    that matches no order the lookup returns [null], and reading its
    [externalId] throws a [TypeError] (the state is unchanged); the same
    request by [externalId] throws the [HttpException] "Unknown order" with
    status 400.  For the [_id] of a FILLED order whose [externalId] is shared
    by an open order of the user on another symbol, the second lookup, by
    [externalId] alone, finds the open order: the call succeeds, that order
    becomes CANCELED and its reservation is released. *)
Theorem cancel_by_id_does_not_reject_with_400 :
  (find (fun o => String.eqb (Order.id o) "999") (orderModel Scenario.spotResting) = None /\
   cancelOrderByKeySecretIdAndSymbol (Scenario.envAt (Some 50000))
     "key1" "secret1" "999" false Scenario.spotResting =
     (Throw (TypeError "Cannot read properties of null (reading 'externalId')"),
      Scenario.spotResting) /\
   cancelOrderByKeySecretExternalIdAndSymbol (Scenario.envAt (Some 50000))
     "key1" "secret1" "999" false Scenario.spotResting =
     (Throw (HttpException "Unknown order" 400), Scenario.spotResting)) /\
  (exists filled s',
     find (fun o => String.eqb (Order.id o) "1") (orderModel Scenario.namesakes) =
       Some filled /\
     Order.status filled = OrderStatus.FILLED /\
     Order.symbol filled = "BTCUSDT"%string /\
     cancelOrderByKeySecretIdAndSymbol (Scenario.envAt (Some 50000))
       "key1" "secret1" "1" false Scenario.namesakes = (Ok "canceled"%string, s') /\
     option_map Order.status (findOrder "x" "ETHUSDT" Scenario.namesakes) =
       Some OrderStatus.CREATED /\
     option_map Order.status (findOrder "x" "ETHUSDT" s') = Some OrderStatus.CANCELED /\
     lockedOf (wallets Scenario.namesakes) "u1" "USDT" == 400 /\
     lockedOf (wallets s') "u1" "USDT" == 0).
Proof.
  split.
  - split; [reflexivity|]. split.
    + apply (cancelOrderById_missing _ _ _ _ _ _ Scenario.alice); reflexivity.
    + vm_compute. reflexivity.
  - do 2 eexists. split; [vm_compute; reflexivity|].
    split; [reflexivity|]. split; [reflexivity|].
    split; [vm_compute; reflexivity|].
    repeat split; vm_compute; reflexivity.
Qed.

(** ** Ticker intake: a repeated signature *)

Section DuplicateTicker.

Variable numberToString : Q -> string.

(** One turn of the intake loop on a ticker whose signature is the one
    recorded for its symbol: the batch is not extended, and only the time
    map changes, and the price cache when the ticker is stale. *)
Lemma intakeTicker_duplicate env exchange s tickerData t :
  JsMap.get (tickerSignatureMap s) (symKey (Ticker.symbol t) exchange) =
    Some (signatureOf numberToString t) ->
  let r := intakeTicker numberToString env exchange (s, tickerData) t in
  snd r = tickerData /\
  sameBooks s (fst r) /\ leverageModel (fst r) = leverageModel s /\
  ((tickerTimeOf t + newDataLimit < now env)%Z \/
   symbolPriceMap (fst r) = symbolPriceMap s) /\
  (~ (tickerTimeOf t + newDataLimit < now env)%Z ->
   symbolPriceMap (fst r) = symbolPriceMap s).
Proof.
  intros Hsig r. subst r. unfold intakeTicker.
  destruct (Nat.eqb _ 0).
  { simpl. split; [reflexivity|]. split; [apply sameBooks_refl|].
    split; [reflexivity|]. split; [now right|reflexivity]. }
  destruct (tickerTimeOf t <? _)%Z.
  { simpl. split; [reflexivity|]. split; [apply sameBooks_refl|].
    split; [reflexivity|]. split; [now right|reflexivity]. }
  destruct (tickerTimeOf t + newDataLimit <? now env)%Z eqn:Estale.
  { simpl. split; [reflexivity|].
    split; [unfold sameBooks; simpl; repeat split|].
    split; [reflexivity|].
    apply Z.ltb_lt in Estale. split; [now left|]. intro H. contradiction. }
  cbn [tickerSignatureMap with_tickerTimeMap].
  rewrite Hsig, String.eqb_refl.
  simpl. split; [reflexivity|].
  split; [unfold sameBooks; simpl; repeat split|].
  split; [reflexivity|]. split; [now right|reflexivity].
Qed.

(** C7 (as amended).  Delivering a ticker whose signature is the one
    recorded for its symbol starts no matching scan and leaves the
    projection, the stored orders and positions and the balances as they
    were; the symbol price map is unchanged too unless the ticker is older
    than 30 s. *)
Theorem redisCb_duplicate_signature env (t : Ticker.t) (exchange : ExchangeEnum) s :
  JsMap.get (tickerSignatureMap s) (symKey (Ticker.symbol t) exchange) =
    Some (signatureOf numberToString t) ->
  let r := redisCb numberToString env (t, exchange) s in
  fst r = [] /\
  currentOrders (snd r) = currentOrders s /\
  currentPositions (snd r) = currentPositions s /\
  orderModel (snd r) = orderModel s /\
  positionModel (snd r) = positionModel s /\
  wallets (snd r) = wallets s /\
  (~ (tickerTimeOf t + newDataLimit < now env)%Z ->
   symbolPriceMap (snd r) = symbolPriceMap s).
Proof.
  intros Hsig r. subst r. unfold redisCb, processTickers. cbn [fst snd].
  destruct (tickerTimeOf t <? _)%Z.
  { simpl. repeat split. }
  cbn [fold_left].
  match goal with
  | |- context [intakeTicker numberToString env exchange (?s1, []) t] =>
      pose proof (intakeTicker_duplicate env exchange s1 [] t) as H
  end.
  cbn [tickerSignatureMap with_tickerTimeMap] in H. specialize (H Hsig).
  cbv zeta in H.
  destruct (intakeTicker numberToString env exchange _ t) as [s2 tickerData].
  cbn [fst snd] in H. destruct H as (Hd & Hb & _ & _ & Hprice).
  subst tickerData. cbn [JsMap.size List.length Nat.eqb fst snd].
  unfold sameBooks in Hb. cbn in Hb. decompose [and] Hb.
  repeat split; assumption.
Qed.

End DuplicateTicker.

Lemma redisCb_duplicate_signature_witness :
  let r := redisCb Scenario.render Scenario.envSoon (Scenario.firstTick, binance)
             Scenario.spotTicked in
  fst r = [] /\
  currentOrders (snd r) = currentOrders Scenario.spotTicked /\
  wallets (snd r) = wallets Scenario.spotTicked /\
  symbolPriceMap (snd r) = symbolPriceMap Scenario.spotTicked.
Proof.
  assert (Hsig : JsMap.get (tickerSignatureMap Scenario.spotTicked)
                   (symKey (Ticker.symbol Scenario.firstTick) binance) =
                 Some (signatureOf Scenario.render Scenario.firstTick))
    by (vm_compute; reflexivity).
  destruct (redisCb_duplicate_signature Scenario.render Scenario.envSoon
              Scenario.firstTick binance Scenario.spotTicked Hsig)
    as (Hcalls & Hco & _ & _ & _ & Hw & Hprice).
  split; [exact Hcalls|]. split; [exact Hco|]. split; [exact Hw|].
  apply Hprice. intro H. vm_compute in H. discriminate H.
Defined.

(** The same ticker delivered again 60 s later has the recorded signature,
    and its delivery deletes the cached price of the symbol. *)
Lemma stale_duplicate_ticker_deletes_cached_price :
  JsMap.get (tickerSignatureMap Scenario.spotTicked)
    (symKey (Ticker.symbol Scenario.firstTick) binance) =
    Some (signatureOf Scenario.render Scenario.firstTick) /\
  JsMap.get (symbolPriceMap Scenario.spotTicked) "BTCUSDT@binance" = Some (Some 50007) /\
  JsMap.get (symbolPriceMap
               (snd (redisCb Scenario.render Scenario.envLate
                       (Scenario.firstTick, binance) Scenario.spotTicked)))
    "BTCUSDT@binance" = None.
Proof. vm_compute. repeat split. Qed.

(** ** The matching scan *)

Section ArraySortFacts.
Context {A : Type} (compareFn : A -> A -> Q).

(** The comparator is total: of two elements, one does not compare
    greater than the other. *)
Hypothesis total : forall a b, ~ compareFn a b <= 0 -> compareFn b a <= 0.

Lemma sortInsert_Permutation x l : Permutation (sortInsert compareFn x l) (x :: l).
Proof.
  induction l as [|y r IH]; simpl; [apply Permutation_refl|].
  destruct (Num.leb (compareFn x y) 0); [apply Permutation_refl|].
  eapply perm_trans; [apply perm_skip, IH | apply perm_swap].
Qed.

Lemma Array_sort_Permutation l : Permutation (Array_sort compareFn l) l.
Proof.
  induction l as [|x r IH]; simpl; [apply perm_nil|].
  eapply perm_trans; [apply sortInsert_Permutation | now apply perm_skip].
Qed.

Lemma Array_sort_In x l : In x (Array_sort compareFn l) <-> In x l.
Proof.
  split; apply Permutation_in;
    [apply Array_sort_Permutation | apply Permutation_sym, Array_sort_Permutation].
Qed.

Lemma sortInsert_Sorted x l :
  Sorted (fun a b => compareFn a b <= 0) l ->
  Sorted (fun a b => compareFn a b <= 0) (sortInsert compareFn x l).
Proof.
  induction l as [|y r IH]; simpl; intro Hs.
  - constructor; constructor.
  - destruct (Num.leb (compareFn x y) 0) eqn:E.
    + constructor; [exact Hs|]. constructor. now apply NumFacts.leb_le.
    + inversion Hs as [|? ? Hr Hhd]; subst.
      constructor; [now apply IH|].
      assert (Hyx : compareFn y x <= 0).
      { apply total. intro H. apply NumFacts.leb_le in H. congruence. }
      destruct r as [|z r']; simpl.
      * constructor. exact Hyx.
      * destruct (Num.leb (compareFn x z) 0); constructor.
        -- exact Hyx.
        -- now inversion Hhd.
Qed.

Lemma Array_sort_Sorted l :
  Sorted (fun a b => compareFn a b <= 0) (Array_sort compareFn l).
Proof.
  induction l as [|x r IH]; simpl; [constructor|].
  now apply sortInsert_Sorted.
Qed.

End ArraySortFacts.

Lemma Sorted_weaken {A} (R R' : A -> A -> Prop) l :
  (forall a b, R a b -> R' a b) -> Sorted R l -> Sorted R' l.
Proof.
  intros Himp Hs. induction Hs as [|a l Hs IH Hhd]; constructor.
  - exact IH.
  - destruct Hhd; constructor. now apply Himp.
Qed.

Lemma sort_ascending {A} (key : A -> Q) l :
  Sorted (fun a b => key a <= key b) (Array_sort (fun a b => key a - key b) l).
Proof.
  apply (Sorted_weaken (fun a b => key a - key b <= 0)).
  - intros a b H. lra.
  - apply (Array_sort_Sorted (fun a b => key a - key b)).
    cbv beta zeta. intros a b H. lra.
Qed.

Lemma sort_descending {A} (key : A -> Q) l :
  Sorted (fun a b => key b <= key a) (Array_sort (fun a b => key b - key a) l).
Proof.
  apply (Sorted_weaken (fun a b => key b - key a <= 0)).
  - intros a b H. lra.
  - apply (Array_sort_Sorted (fun a b => key b - key a)).
    cbv beta zeta. intros a b H. lra.
Qed.

Lemma openLimit_spec exchange o :
  openLimit exchange o = true <->
  Order.exchange o = exchange /\
  (Order.status o = OrderStatus.CREATED \/ Order.status o = OrderStatus.PARTIALLY_FILLED) /\
  Order.type o = OrderType.LIMIT.
Proof.
  unfold openLimit. rewrite !andb_true_iff, orb_true_iff, ExchangeEnum_eqb_eq.
  destruct (Order.status o), (Order.type o); simpl; intuition congruence.
Qed.

Lemma livePosition_spec exchange p :
  livePosition exchange p = true <->
  Position.exchange p = exchange /\ Position.status p = PositionStatus.new.
Proof.
  unfold livePosition. rewrite andb_true_iff, ExchangeEnum_eqb_eq.
  destruct (Position.status p); simpl; intuition congruence.
Qed.

Lemma In_values {V} (m : JsMap.t V) (x : V) :
  In x (JsMap.values m) <-> exists k, In (k, x) m.
Proof.
  unfold JsMap.values. rewrite in_map_iff. split.
  - intros ([k v] & E & H). simpl in E. subst v. now exists k.
  - intros (k & H). now exists (k, x).
Qed.

Lemma In_keys {V} (m : JsMap.t V) (k : string) :
  In k (JsMap.keys m) <-> exists v, In (k, v) m.
Proof.
  unfold JsMap.keys. rewrite in_map_iff. split.
  - intros ([k' v] & E & H). simpl in E. subst k'. now exists v.
  - intros (v & H). now exists (k, v).
Qed.

(** What [getOrdersBySymbols] and [getPositionsBySymbols] return for the
    symbols of a batch are the values the projection holds under them. *)
Lemma In_getOrdersBySymbols {T} (batch : JsMap.t T) cur o :
  In o (getOrdersBySymbols (JsMap.keys batch) cur) <-> projected cur batch o.
Proof.
  unfold getOrdersBySymbols, projected. rewrite in_flat_map. split.
  - intros (key & Hk & H). apply In_keys in Hk. destruct Hk as (tick & Hk).
    destruct (JsMap.get cur key) as [m|] eqn:E; [|contradiction].
    apply In_values in H. destruct H as (k & H). now exists key, tick, m, k.
  - intros (key & tick & m & k & Hk & E & H). exists key.
    split; [apply In_keys; now exists tick|].
    rewrite E. apply In_values. now exists k.
Qed.

Lemma In_getPositionsBySymbols {T} (batch : JsMap.t T) cur p :
  In p (getPositionsBySymbols (JsMap.keys batch) cur) <-> projected cur batch p.
Proof.
  unfold getPositionsBySymbols, projected. rewrite in_flat_map. split.
  - intros (key & Hk & H). apply In_keys in Hk. destruct Hk as (tick & Hk).
    destruct (JsMap.get cur key) as [m|] eqn:E; [|contradiction].
    apply In_values in H. destruct H as (k & H). now exists key, tick, m, k.
  - intros (key & tick & m & k & Hk & E & H). exists key.
    split; [apply In_keys; now exists tick|].
    rewrite E. apply In_values. now exists k.
Qed.

Lemma scanSymbol_scanned exchange batch s entry :
  scanned exchange s batch entry
    (scanSymbol exchange
       (filter (openLimit exchange) (getOrdersBySymbols (JsMap.keys batch) (currentOrders s)))
       (filter (livePosition exchange)
          (getPositionsBySymbols (JsMap.keys batch) (currentPositions s)))
       entry).
Proof.
  destruct entry as [symbol data]. unfold scanned, scanSymbol. cbn [fst snd].
  do 4 eexists. split; [reflexivity|].
  split; [apply (sort_ascending Position.liquidationPrice)|].
  split.
  { intro p. unfold longPositions. rewrite Array_sort_In, !filter_In.
    rewrite In_getPositionsBySymbols, livePosition_spec, String.eqb_eq, andb_true_iff, PositionSide_eqb_eq.
    unfold Num.leb. rewrite Qle_bool_iff. tauto. }
  split; [apply (sort_descending Position.liquidationPrice)|].
  split.
  { intro p. unfold shortPositions. rewrite Array_sort_In, !filter_In.
    rewrite In_getPositionsBySymbols, livePosition_spec, String.eqb_eq, andb_true_iff, PositionSide_eqb_eq.
    unfold Num.leb. rewrite Qle_bool_iff. tauto. }
  split; [apply (sort_ascending Order.price)|].
  split.
  { intro o. unfold sellPositions. rewrite Array_sort_In, !filter_In.
    rewrite In_getOrdersBySymbols, openLimit_spec, String.eqb_eq, !andb_true_iff, orb_true_iff.
    rewrite NumFacts.ltb_lt. unfold Num.leb. rewrite Qle_bool_iff.
    destruct (Order.side o); simpl; intuition congruence. }
  split; [apply (sort_descending Order.price)|].
  intro o. unfold buyPositions. rewrite Array_sort_In, !filter_In.
  rewrite In_getOrdersBySymbols, openLimit_spec, String.eqb_eq, !andb_true_iff, orb_true_iff.
  rewrite NumFacts.ltb_lt. unfold Num.leb. rewrite Qle_bool_iff.
  destruct (Order.side o); simpl; intuition congruence.
Qed.

(** C6 (as amended).  The handler calls that the scan of a batch starts,
    none of which it awaits, are the concatenation, entry by entry, of the
    calls scanned for each [(symbol, tick)]: first the liquidations -- the
    projected LONG positions with [liquidationPrice >= bestBid] by ascending
    liquidation price, then the SHORT positions with
    [liquidationPrice <= bestAsk] by descending liquidation price -- and then
    the fills of the projected open limit orders -- SELL orders with
    [price <= bestBid] (on a spot exchange also [bidQty > 0]) by ascending
    price, then BUY orders with [price >= bestAsk] (on a spot exchange also
    [askQty > 0]) by descending price.  A handler is started for no other
    position or order. *)
Theorem processTickerQueue_scan exchange tickerData s :
  exists groups : list (list Call),
    processTickerQueue exchange tickerData s = List.concat groups /\
    Forall2 (scanned exchange s tickerData) tickerData groups.
Proof.
  unfold processTickerQueue.
  set (positions := filter (openLimit exchange) _).
  set (futures := filter (livePosition exchange) _).
  exists (map (scanSymbol exchange positions futures) tickerData).
  split; [apply flat_map_concat_map|].
  assert (H : forall entries,
            Forall2 (scanned exchange s tickerData) entries
              (map (scanSymbol exchange positions futures) entries)).
  { induction entries as [|e r IH]; simpl; constructor; [|exact IH].
    apply scanSymbol_scanned. }
  apply H.
Qed.

(** The state [Cases.guarded] is the one that Alice's reduce-only limit SELL
    leaves. *)
Example guarded_arises :
  createOrder (Scenario.envAt (Some 100)) Cases.guardRequest Cases.holding =
    (Ok (CreateOrderResponse.mk "2" OrderStatus.CREATED), Cases.guarded).
Proof. vm_compute. reflexivity. Qed.

(** A batch touches orders that are none of its candidates.  Alice holds a
    LONG with liquidation price 89.964 and a resting reduce-only limit SELL
    at 120.  A ticker with best bid 89 and best ask 89.5 arrives: its batch
    is the one tick on BTCUSDT, and the scan starts one handler, the
    liquidation of the LONG; the SELL at 120 is no fill candidate.  The
    liquidation expires it, takes it out of the projection, and stores a new
    market order. *)
Lemma liquidation_touches_an_order_outside_the_candidates :
  let env := Scenario.envAt None in
  let delivered := redisCb Scenario.render env (Cases.plungeTicker, binanceUsdm)
                     Cases.guarded in
  let s1 := snd delivered in
  let s' := Liquidation.closeFuturePosition env Cases.longPosition s1 in
  fst delivered = [closeFuturePosition Cases.longPosition] /\
  processTickerQueue binanceUsdm [("BTCUSDT"%string, Scenario.plunge)] s1 =
    [closeFuturePosition Cases.longPosition] /\
  findOrder "guard" "BTCUSDT" s1 = Some Cases.guard /\
  Order.status Cases.guard = OrderStatus.CREATED /\
  getOrderByExternalIdAndSymbol "BTCUSDT" "guard" s1 = Some Cases.guardView /\
  (exists o, findOrder "guard" "BTCUSDT" s' = Some o /\
             Order.status o = OrderStatus.EXPIRED) /\
  getOrderByExternalIdAndSymbol "BTCUSDT" "guard" s' = None /\
  List.length (orderModel s1) = 1%nat /\
  List.length (orderModel s') = 2%nat.
Proof.
  cbv zeta. split; [vm_compute; reflexivity|].
  split; [vm_compute; reflexivity|].
  split; [vm_compute; reflexivity|]. split; [reflexivity|].
  split; [vm_compute; reflexivity|].
  split; [eexists; split; vm_compute; reflexivity|].
  repeat split; vm_compute; reflexivity.
Qed.

(** ** What settlement writes to the stored orders and to the balances *)

(** The writes that touch neither the stored orders nor the balances. *)
Ltac frame :=
  intros;
  unfold addPositionToWatchList, createPosition, lockLeverage, unLockLeverage,
    watchAdd, watchDrop, setPosition, removePosition, pushPosition, setOrder,
    removeOrder, removeOrderAt;
  repeat match goal with
         | |- context [match ?x with _ => _ end] => destruct x; simpl
         end;
  reflexivity.

Lemma orderModel_watchDrop sym id s : orderModel (watchDrop sym id s) = orderModel s.
Proof. frame. Qed.
Lemma wallets_watchDrop sym id s : wallets (watchDrop sym id s) = wallets s.
Proof. frame. Qed.
Lemma orderModel_removePosition p s : orderModel (removePosition p s) = orderModel s.
Proof. frame. Qed.
Lemma wallets_removePosition p s : wallets (removePosition p s) = wallets s.
Proof. frame. Qed.
Lemma orderModel_addPositionToWatchList p s :
  orderModel (addPositionToWatchList p s) = orderModel s.
Proof. frame. Qed.
Lemma wallets_addPositionToWatchList p s :
  wallets (addPositionToWatchList p s) = wallets s.
Proof. frame. Qed.
Lemma orderModel_updateBalance user data s :
  orderModel (updateBalance user data s) = orderModel s.
Proof. unfold updateBalance. destruct data; reflexivity. Qed.
Lemma wallets_updateBalance user data s :
  wallets (updateBalance user data s) = increaseUserBalance user data (wallets s).
Proof. unfold updateBalance. destruct data; reflexivity. Qed.

(** The branch taken on an existing position leaves the balances alone, and
    stores an order only when it trims a reduce-only order. *)
Lemma settleExisting_books env order leverage symbol current margin s :
  let r := settleExisting env order leverage symbol current margin s in
  wallets (st_state r) = wallets s /\
  (orderModel (st_state r) = orderModel s \/
   exists fee,
     replaceOrderByExternalId (orderModel s)
       (trimOrder order fee (Position.positionAmt current)) =
     Some (orderModel (st_state r))).
Proof.
  cbv zeta. unfold settleExisting. cbv zeta.
  repeat match goal with
         | |- context [st_state (if ?c then _ else _)] => destruct c
         end; cbn [st_state].
  - split; [reflexivity|now left].
  - rewrite wallets_watchDrop, orderModel_watchDrop. split; [reflexivity|now left].
  - match goal with
    | |- context [replaceOrderByExternalId ?os ?o] =>
        destruct (replaceOrderByExternalId os o) eqn:Er
    end; cbn [st_state].
    + split; [reflexivity|]. right. eexists. exact Er.
    + split; [reflexivity|now left].
  - unfold createPosition. cbv beta zeta iota. cbn [st_state].
    rewrite wallets_addPositionToWatchList, orderModel_addPositionToWatchList.
    split; [reflexivity|now left].
  - split; [reflexivity|now left].
Qed.

Lemma processFuturesPosition_orderModel env order leverage symbol s :
  orderModel (snd (processFuturesPosition env order leverage symbol s)) = orderModel s \/
  exists fee amount,
    replaceOrderByExternalId (orderModel s) (trimOrder order fee amount) =
    Some (orderModel (snd (processFuturesPosition env order leverage symbol s))).
Proof.
  unfold processFuturesPosition. cbv zeta.
  destruct (findPosition _ _ _ _ s) as [current|].
  - destruct (settleExisting_books env order leverage symbol current
                (if isCoinm (Order.exchange order)
                 then Order.amount order * QuoteAsset.minAmount (ExchangeInfo.quoteAsset symbol) /
                      Order.price order / leverage
                 else Order.amount order * Order.price order / leverage) s) as [_ H].
    cbv zeta in H.
    assert (E : forall st, orderModel
                  (if PositionStatus.eqb
                        (Position.status (st_current st)) PositionStatus.closed
                   then removePosition (st_current st) (st_state st)
                   else setPosition (st_current st) (st_state st)) = orderModel (st_state st)).
    { intro st. destruct (PositionStatus.eqb _ _); frame. }
    destruct (st_refused _); cbn [snd].
    + assert (E' : forall p st, orderModel (setPosition p st) = orderModel st) by frame.
      rewrite E'. destruct H as [H|[fee H]]; [now left|right; eauto].
    + rewrite orderModel_updateBalance. cbn [orderModel with_positionModel].
      rewrite E. destruct H as [H|[fee H]]; [now left|right; eauto].
  - left. unfold createPosition. cbv beta zeta iota. cbn [snd].
    rewrite orderModel_updateBalance. frame.
Qed.

(** ** The order stored by [createOrder] *)

Lemma find_app_none {A} (f : A -> bool) l x :
  existsb f l = false -> find f (l ++ [x]) = if f x then Some x else None.
Proof.
  induction l as [|y r IH]; simpl; [reflexivity|].
  intro H. apply orb_false_iff in H. destruct H as [Hy Hr].
  rewrite Hy. now apply IH.
Qed.

Lemma find_replaceOrderByExternalId os os' o' externalId symbol :
  Order.externalId o' = externalId -> Order.symbol o' = symbol ->
  (exists o, find (keyed externalId symbol) os = Some o) ->
  replaceOrderByExternalId os o' = Some os' ->
  find (keyed externalId symbol) os' = Some o'.
Proof.
  intros He Hs. revert os'.
  induction os as [|h r IH]; simpl; intros os' [o Ho]; [discriminate|].
  rewrite He. destruct (String.eqb (Order.externalId h) externalId) eqn:Eh.
  - destruct (Nat.eqb _ _); [|discriminate].
    intro H. inversion H; subst os'; clear H.
    simpl. unfold keyed at 1. now rewrite He, Hs, !String.eqb_refl.
  - destruct (replaceOrderByExternalId r o') as [r'|] eqn:Er; [|discriminate].
    intro H. inversion H; subst os'; clear H.
    simpl. unfold keyed at 1. rewrite Eh. simpl.
    unfold keyed at 1 in Ho. rewrite Eh in Ho. simpl in Ho.
    apply (IH r'); [now exists o|reflexivity].
Qed.

Lemma orderModel_create_stored env data s o s' :
  orderModel_create env data s = (Ok o, s') ->
  findOrder (Order.externalId data) (Order.symbol data) s' = Some o /\
  Order.externalId o = Order.externalId data /\ Order.symbol o = Order.symbol data /\
  Order.status o = Order.status data /\ Order.type o = Order.type data /\
  Order.price o = Order.price data /\ Order.avgFilledPrice o = Order.avgFilledPrice data /\
  wallets s' = wallets s /\ currentOrders s' = currentOrders s /\
  watchSymbols s' = watchSymbols s.
Proof.
  unfold orderModel_create, findOrder.
  destruct (existsb _ (orderModel s)) eqn:Ex; [discriminate|].
  intro H. inversion H; subst; clear H. cbn.
  rewrite (find_app_none _ _ _ Ex). unfold keyed. cbn.
  rewrite !String.eqb_refl. repeat split.
Qed.

Lemma processMarketOrder_stored env order user leverage currentPrice s response s' :
  getLatestPriceInExchange env (CreateOrderDto.symbol order)
    (CreateOrderDto.exchange order) s = (Ok currentPrice, s) ->
  processMarketOrder env order user leverage s = (Ok response, s') ->
  CreateOrderResponse.status response = OrderStatus.FILLED /\
  exists o,
    findOrder (CreateOrderDto.externalId order) (CreateOrderDto.symbol order) s' = Some o /\
    Order.status o = OrderStatus.FILLED /\ Order.type o = OrderType.MARKET /\
    Order.price o = currentPrice /\ Order.avgFilledPrice o = currentPrice.
Proof.
  intros Hp. unfold processMarketOrder, bind. rewrite Hp. cbv zeta.
  match goal with
  | |- context [orderModel_create env ?d s] =>
      destruct (orderModel_create env d s) as [[o|e] s1] eqn:Ec; [|discriminate];
      apply orderModel_create_stored in Ec; cbn in Ec;
      destruct Ec as (Hfind & He & Hs & Hst & Hty & Hpr & Havg & _)
  end.
  unfold modify, ret.
  destruct (isFutures (CreateOrderDto.exchange order)).
  - pose proof (processFuturesPosition_orderModel env o leverage
                  (getExchangeInfo env (CreateOrderDto.symbol order)
                     (CreateOrderDto.exchange order)) s1) as Hom.
    destruct (processFuturesPosition env o leverage _ s1) as [[[]|e] s2]; [|discriminate].
    cbn [snd] in Hom.
    intro H. inversion H; subst; clear H. simpl. split; [exact Hst|].
    unfold findOrder in *.
    destruct Hom as [E|(fee & amount & E)].
    + rewrite E. exists o. repeat split; assumption.
    + exists (trimOrder o fee amount).
      split; [apply (find_replaceOrderByExternalId (orderModel s1));
              [exact He|exact Hs|now exists o|exact E]|].
      cbn. repeat split; assumption.
  - intro H. inversion H; subst; clear H. simpl. split; [exact Hst|].
    exists o. unfold findOrder in *. rewrite orderModel_updateBalance.
    repeat split; assumption.
Qed.

Lemma createLimitOrder_stored env order user s response s' :
  createLimitOrder env order user s = (Ok response, s') ->
  CreateOrderResponse.status response = OrderStatus.CREATED /\
  exists o,
    findOrder (CreateOrderDto.externalId order) (CreateOrderDto.symbol order) s' = Some o /\
    Order.status o = OrderStatus.CREATED /\ Order.type o = CreateOrderDto.type order /\
    Order.price o = CreateOrderDto.price order /\
    getOrderByExternalIdAndSymbol (CreateOrderDto.symbol order)
      (CreateOrderDto.externalId order) s' = Some (mapOrderDocumentToDataType o).
Proof.
  unfold createLimitOrder, bind. cbv zeta.
  match goal with
  | |- context [orderModel_create env ?d s] =>
      destruct (orderModel_create env d s) as [[o|e] s1] eqn:Ec; [|discriminate];
      apply orderModel_create_stored in Ec; cbn in Ec;
      destruct Ec as (Hfind & He & Hs & Hst & Hty & Hpr & _)
  end.
  unfold modify, ret. intro H. inversion H; subst; clear H.
  split; [exact Hst|]. exists o.
  split.
  { unfold findOrder in *. unfold watchAdd, pushPosition, setOrder.
    cbn [orderModel with_watchSymbols with_currentOrders].
    now rewrite orderModel_updateBalance. }
  split; [exact Hst|]. split; [exact Hty|]. split; [exact Hpr|].
  unfold getOrderByExternalIdAndSymbol, watchAdd, pushPosition, setOrder.
  cbn [currentOrders with_watchSymbols with_currentOrders].
  cbn [mapOrderDocumentToDataType Order.symbol Order.externalId].
  rewrite Hs, He. rewrite JsMapFacts.get_set_same. apply JsMapFacts.get_set_same.
Qed.

Lemma marketable_limit order currentPrice :
  CreateOrderDto.type order = OrderType.LIMIT ->
  (marketable order currentPrice = true <-> crosses order currentPrice).
Proof.
  intro Hty. unfold marketable, crosses. rewrite Hty. simpl.
  rewrite orb_true_iff, !andb_true_iff, !NumFacts.ltb_lt.
  destruct (CreateOrderDto.side order); simpl; intuition congruence.
Qed.

(** C3.  A [createOrder] call for a LIMIT request that is accepted reads a
    current price.  When the limit price crosses it (a BUY above, a SELL
    below), the order is executed at once as a MARKET order: the call
    returns FILLED and the stored order is FILLED, of type MARKET, with
    [price] and [avgFilledPrice] equal to the current price.  When it does
    not cross, the call returns NEW and the order is stored with status NEW,
    type LIMIT and its own price, and the projection holds it, as
    [mapOrderDocumentToDataType] renders the stored order. *)
Theorem createOrder_limit_promotion env order s response s' :
  CreateOrderDto.type order = OrderType.LIMIT ->
  createOrder env order s = (Ok response, s') ->
  exists currentPrice,
    fst (getLatestPriceInExchange env (CreateOrderDto.symbol order)
           (CreateOrderDto.exchange order) s) = Ok currentPrice /\
    (crosses order currentPrice ->
     CreateOrderResponse.status response = OrderStatus.FILLED /\
     exists o,
       findOrder (CreateOrderDto.externalId order) (CreateOrderDto.symbol order) s' = Some o /\
       Order.status o = OrderStatus.FILLED /\ Order.type o = OrderType.MARKET /\
       Order.price o = currentPrice /\ Order.avgFilledPrice o = currentPrice) /\
    (~ crosses order currentPrice ->
     CreateOrderResponse.status response = OrderStatus.CREATED /\
     exists o,
       findOrder (CreateOrderDto.externalId order) (CreateOrderDto.symbol order) s' = Some o /\
       Order.status o = OrderStatus.CREATED /\ Order.type o = OrderType.LIMIT /\
       Order.price o = CreateOrderDto.price order /\
       getOrderByExternalIdAndSymbol (CreateOrderDto.symbol order)
         (CreateOrderDto.externalId order) s' = Some (mapOrderDocumentToDataType o)).
Proof.
  intros Hty Hrun.
  destruct (createOrder_prefix env order s)
    as [(e & s0 & E & _) | (user & l & p & s1 & _ & _ & _ & Hfst & Hagain & E)].
  { rewrite E in Hrun. discriminate. }
  exists p. split; [exact Hfst|].
  rewrite E in Hrun. clear E.
  pose proof (marketable_limit order p Hty) as Hm.
  unfold admitOrder in Hrun. cbv zeta in Hrun.
  destruct (marketable order p) eqn:Em.
  - (* the limit price crosses: the market path *)
    assert (Hpath : processMarketOrder env (withType order OrderType.MARKET) user l s1 =
                    (Ok response, s')).
    { destruct (isFutures (CreateOrderDto.exchange order)).
      - unfold bind, gets, throw in Hrun.
        repeat match type of Hrun with
               | (if ?c then _ else _) _ = _ => destruct c; [discriminate Hrun|]
               | (if ?c then _ else _) = _ => destruct c; [discriminate Hrun|]
               end.
        exact Hrun.
      - cbn [marketable withType CreateOrderDto.type OrderType.eqb orb] in Hrun.
        unfold throw in Hrun.
        repeat match type of Hrun with
               | (if ?c then _ else _) _ = _ => destruct c; [discriminate Hrun|]
               end.
        exact Hrun. }
    split.
    + intros _. exact (processMarketOrder_stored env _ user l p s1 response s' Hagain Hpath).
    + intro Hn. exfalso. apply Hn. now apply Hm.
  - (* it does not: the limit path *)
    assert (Hpath : createLimitOrder env (withType order OrderType.LIMIT) user s1 =
                    (Ok response, s')).
    { destruct (isFutures (CreateOrderDto.exchange order)).
      - unfold bind, gets, throw in Hrun.
        repeat match type of Hrun with
               | (if ?c then _ else _) _ = _ => destruct c; [discriminate Hrun|]
               | (if ?c then _ else _) = _ => destruct c; [discriminate Hrun|]
               end.
        exact Hrun.
      - assert (Em' : marketable (withType order OrderType.LIMIT) p = false).
        { rewrite <- Em. unfold marketable, withType. cbn. now rewrite Hty. }
        rewrite Em' in Hrun. unfold throw in Hrun.
        repeat match type of Hrun with
               | (if ?c then _ else _) _ = _ => destruct c; [discriminate Hrun|]
               end.
        exact Hrun. }
    split.
    + intro Hc. apply Hm in Hc. discriminate Hc.
    + intros _. exact (createLimitOrder_stored env _ user s1 response s' Hpath).
Qed.

Lemma createOrder_limit_promotion_witness :
  (exists o,
     findOrder "limit1" "BTCUSDT"
       (snd (createOrder (Scenario.envAt (Some 49000)) Scenario.spotLimitBuy
               Scenario.spotStart)) = Some o /\
     Order.status o = OrderStatus.FILLED /\ Order.type o = OrderType.MARKET /\
     Order.price o = 49000 /\ Order.avgFilledPrice o = 49000) /\
  (exists o,
     findOrder "limit1" "BTCUSDT"
       (snd (createOrder (Scenario.envAt (Some 50000)) Scenario.spotLimitBuy
               Scenario.spotStart)) = Some o /\
     Order.status o = OrderStatus.CREATED /\ Order.type o = OrderType.LIMIT /\
     Order.price o = 50000).
Proof.
  split.
  - assert (E : createOrder (Scenario.envAt (Some 49000)) Scenario.spotLimitBuy
                  Scenario.spotStart =
                (Ok (CreateOrderResponse.mk "0" OrderStatus.FILLED),
                 snd (createOrder (Scenario.envAt (Some 49000)) Scenario.spotLimitBuy
                        Scenario.spotStart)))
      by (vm_compute; reflexivity).
    destruct (createOrder_limit_promotion (Scenario.envAt (Some 49000))
                Scenario.spotLimitBuy Scenario.spotStart _ _ eq_refl E)
      as (p & Hp & Hcross & _).
    vm_compute in Hp. injection Hp as <-.
    destruct Hcross as (_ & o & Ho & Hst & Hty & Hpr & Havg).
    { left. split; [reflexivity|]. vm_compute. reflexivity. }
    exists o. repeat split; assumption.
  - assert (E : createOrder (Scenario.envAt (Some 50000)) Scenario.spotLimitBuy
                  Scenario.spotStart =
                (Ok (CreateOrderResponse.mk "0" OrderStatus.CREATED),
                 snd (createOrder (Scenario.envAt (Some 50000)) Scenario.spotLimitBuy
                        Scenario.spotStart)))
      by (vm_compute; reflexivity).
    destruct (createOrder_limit_promotion (Scenario.envAt (Some 50000))
                Scenario.spotLimitBuy Scenario.spotStart _ _ eq_refl E)
      as (p & Hp & _ & Hrest).
    vm_compute in Hp. injection Hp as <-.
    destruct Hrest as (_ & o & Ho & Hst & Hty & Hpr & _).
    { intros [[_ H] | [H _]]; vm_compute in H; discriminate H. }
    exists o. repeat split; assumption.
Defined.

(** ** The sign of the balances on a spot exchange *)

(** Strips, from [wallets] of a state, the writes of the projection and of
    the watch set. *)
Ltac frame_wallets :=
  unfold removeOrder, removeOrderAt, watchDrop, pushPosition, setOrder;
  repeat match goal with
         | |- context [match JsMap.get ?m ?k with _ => _ end] =>
             destruct (JsMap.get m k)
         | |- context [if Nat.eqb ?a ?b then _ else _] => destruct (Nat.eqb a b)
         end;
  cbn [wallets with_watchSymbols with_currentOrders with_orderModel];
  rewrite ?wallets_updateBalance;
  cbn [wallets with_watchSymbols with_currentOrders with_orderModel].

Lemma findWallet_nonneg ws user asset w :
  walletsNonneg ws -> findWallet ws user asset = Some w ->
  0 <= Wallet.free w /\ 0 <= Wallet.locked w.
Proof.
  intros Hn Hf. apply find_some in Hf. destruct Hf as [Hin _].
  unfold walletsNonneg in Hn. rewrite Forall_forall in Hn. now apply Hn.
Qed.

Lemma freeOf_nonneg ws user asset : walletsNonneg ws -> 0 <= freeOf ws user asset.
Proof.
  intro Hn. unfold freeOf. destruct (findWallet ws user asset) eqn:E.
  - now apply (findWallet_nonneg ws user asset).
  - apply Qle_refl.
Qed.

Lemma lockedOf_nonneg ws user asset : walletsNonneg ws -> 0 <= lockedOf ws user asset.
Proof.
  intro Hn. unfold lockedOf. destruct (findWallet ws user asset) eqn:E.
  - now apply (findWallet_nonneg ws user asset).
  - apply Qle_refl.
Qed.

(** An increment keeps the rows non-negative when it leaves the row it
    touches non-negative. *)
Lemma incWallet_nonneg ws user u :
  walletsNonneg ws ->
  0 <= freeOf ws user (BalanceUpdate.asset u) + BalanceUpdate.free u ->
  0 <= lockedOf ws user (BalanceUpdate.asset u) + BalanceUpdate.locked u ->
  walletsNonneg (incWallet ws user u).
Proof.
  unfold walletsNonneg, freeOf, lockedOf, findWallet.
  induction ws as [|w r IH]; simpl; intros Hn Hf Hl.
  - constructor; [|constructor]. simpl. split; lra.
  - inversion Hn as [|? ? Hw Hr]; subst.
    destruct (String.eqb (Wallet.user w) user &&
              String.eqb (Wallet.asset w) (BalanceUpdate.asset u)) eqn:E.
    + constructor; [|exact Hr]. simpl. split; assumption.
    + constructor; [exact Hw|]. now apply IH.
Qed.

(** The balance that [createOrder] reads for the base or the quote asset is
    the user's wallet row of that asset. *)
Lemma find_balance user assets ws asset :
  existsb (String.eqb asset) assets = true ->
  find (fun b => String.eqb (Wallet.asset b) asset)
       (getUserBalanceByUserIdOrThrow user assets ws) = findWallet ws user asset.
Proof.
  intro Hin. unfold getUserBalanceByUserIdOrThrow, findWallet.
  assert (Hne : assets <> []) by (destruct assets; [discriminate|congruence]).
  induction ws as [|w r IH]; simpl; [reflexivity|].
  destruct (String.eqb_spec (Wallet.user w) user) as [Hu|Hu]; simpl.
  - destruct (String.eqb_spec (Wallet.asset w) asset) as [Ha|Ha].
    + assert (Hm : match assets with
                   | [] => true
                   | _ :: _ => existsb (String.eqb (Wallet.asset w)) assets
                   end = true).
      { destruct assets; [reflexivity|]. now rewrite Ha. }
      rewrite Hm. simpl. destruct (String.eqb_spec (Wallet.asset w) asset); [reflexivity|contradiction].
    + destruct (match assets with
                | [] => true
                | _ :: _ => existsb (String.eqb (Wallet.asset w)) assets
                end); simpl.
      * destruct (String.eqb_spec (Wallet.asset w) asset); [contradiction|exact IH].
      * exact IH.
  - exact IH.
Qed.

(** A balance that does not lack [x] is a row whose [free] is at least
    [x]. *)
Lemma lacks_false ws user asset x :
  lacks (findWallet ws user asset) x = false -> x <= freeOf ws user asset.
Proof.
  unfold lacks, freeOf. destruct (findWallet ws user asset); [|discriminate].
  apply NumFacts.ltb_ge.
Qed.

(** Two increments in a row: the second sees the first when both name the
    same asset. *)
Lemma freeOf_after ws user u asset :
  freeOf (incWallet ws user u) user asset ==
  freeOf ws user asset +
  (if String.eqb asset (BalanceUpdate.asset u) then BalanceUpdate.free u else 0).
Proof.
  destruct (String.eqb_spec asset (BalanceUpdate.asset u)) as [->|Hne].
  - apply freeOf_incWallet_same.
  - unfold freeOf. rewrite findWallet_incWallet_other by now right. ring.
Qed.

Lemma lockedOf_after ws user u asset :
  lockedOf (incWallet ws user u) user asset ==
  lockedOf ws user asset +
  (if String.eqb asset (BalanceUpdate.asset u) then BalanceUpdate.locked u else 0).
Proof.
  destruct (String.eqb_spec asset (BalanceUpdate.asset u)) as [->|Hne].
  - apply lockedOf_incWallet_same.
  - unfold lockedOf. rewrite findWallet_incWallet_other by now right. ring.
Qed.

(** Two increments such that the first is a credit of [free] and the second
    is covered by what the row held before. *)
Lemma credit_then_debit_nonneg ws user a1 c a2 d :
  walletsNonneg ws -> 0 <= c -> d <= freeOf ws user a2 ->
  walletsNonneg
    (increaseUserBalance user
       [BalanceUpdate.mk a1 c 0; BalanceUpdate.mk a2 (- d) 0] ws).
Proof.
  intros Hn Hc Hd. unfold increaseUserBalance. simpl.
  assert (H1 : walletsNonneg (incWallet ws user (BalanceUpdate.mk a1 c 0))).
  { apply incWallet_nonneg; [exact Hn| |]; simpl.
    - pose proof (freeOf_nonneg ws user a1 Hn). lra.
    - pose proof (lockedOf_nonneg ws user a1 Hn). lra. }
  apply incWallet_nonneg; [exact H1| |]; simpl.
  - rewrite (freeOf_after ws user (BalanceUpdate.mk a1 c 0) a2). simpl.
    destruct (String.eqb a2 a1); lra.
  - pose proof (lockedOf_nonneg _ user a2 H1). lra.
Qed.

Lemma isCoinm_isFutures exchange : isFutures exchange = false -> isCoinm exchange = false.
Proof. destruct exchange; simpl; congruence. Qed.

Lemma orderModel_create_wallets env data s :
  wallets (snd (orderModel_create env data s)) = wallets s.
Proof.
  unfold orderModel_create. destruct (existsb _ (orderModel s)); reflexivity.
Qed.

Lemma processMarketOrder_spot_nonneg env order user leverage p s :
  isFutures (CreateOrderDto.exchange order) = false ->
  getLatestPriceInExchange env (CreateOrderDto.symbol order)
    (CreateOrderDto.exchange order) s = (Ok p, s) ->
  walletsNonneg (wallets s) ->
  0 <= CreateOrderDto.amount order -> 0 <= p ->
  let symbol := getExchangeInfo env (CreateOrderDto.symbol order)
                  (CreateOrderDto.exchange order) in
  (CreateOrderDto.side order = OrderSide.BUY ->
   CreateOrderDto.amount order * p <=
   freeOf (wallets s) (User.id user) (QuoteAsset.name (ExchangeInfo.quoteAsset symbol))) ->
  (CreateOrderDto.side order = OrderSide.SELL ->
   CreateOrderDto.amount order <=
   freeOf (wallets s) (User.id user) (BaseAsset.name (ExchangeInfo.baseAsset symbol))) ->
  walletsNonneg (wallets (snd (processMarketOrder env order user leverage s))).
Proof.
  intros Hspot Hp Hn Ha Hp0 symbol Hbuy Hsell.
  unfold processMarketOrder, bind, getUserFee. rewrite Hp. cbv zeta.
  rewrite Hspot, (isCoinm_isFutures _ Hspot).
  match goal with
  | |- context [orderModel_create env ?d s] =>
      pose proof (orderModel_create_wallets env d s) as Hw;
      destruct (orderModel_create env d s) as [[o|e] s1]
  end; cbn [snd] in *; [|now rewrite Hw].
  unfold modify, ret. cbn [snd]. rewrite wallets_updateBalance, Hw.
  assert (Hq : 0 <= CreateOrderDto.amount order * p) by now apply Qmult_le_0_compat.
  destruct (CreateOrderDto.side order) eqn:Es.
  - apply credit_then_debit_nonneg; [exact Hn| |now apply Hbuy].
    unfold spotMakerFee. lra.
  - apply credit_then_debit_nonneg; [exact Hn| |now apply Hsell].
    unfold spotMakerFee. lra.
Qed.

Lemma createLimitOrder_spot_nonneg env order user s :
  isFutures (CreateOrderDto.exchange order) = false ->
  walletsNonneg (wallets s) ->
  0 <= CreateOrderDto.amount order -> 0 <= CreateOrderDto.price order ->
  let symbol := getExchangeInfo env (CreateOrderDto.symbol order)
                  (CreateOrderDto.exchange order) in
  (CreateOrderDto.side order = OrderSide.BUY ->
   CreateOrderDto.amount order * CreateOrderDto.price order <=
   freeOf (wallets s) (User.id user) (QuoteAsset.name (ExchangeInfo.quoteAsset symbol))) ->
  (CreateOrderDto.side order = OrderSide.SELL ->
   CreateOrderDto.amount order <=
   freeOf (wallets s) (User.id user) (BaseAsset.name (ExchangeInfo.baseAsset symbol))) ->
  walletsNonneg (wallets (snd (createLimitOrder env order user s))).
Proof.
  intros Hspot Hn Ha Hp0 symbol Hbuy Hsell.
  unfold createLimitOrder, bind. cbv zeta. rewrite Hspot. cbn [negb].
  match goal with
  | |- context [orderModel_create env ?d s] =>
      pose proof (orderModel_create_wallets env d s) as Hw;
      destruct (orderModel_create env d s) as [[o|e] s1]
  end; cbn [snd] in *; [|now rewrite Hw].
  unfold modify, ret. cbn [snd].
  unfold watchAdd, pushPosition, setOrder. cbn [wallets with_watchSymbols with_currentOrders].
  rewrite wallets_updateBalance, Hw.
  assert (Hq : 0 <= CreateOrderDto.amount order * CreateOrderDto.price order)
    by now apply Qmult_le_0_compat.
  subst symbol.
  destruct (CreateOrderDto.side order) eqn:Es; unfold increaseUserBalance;
    cbn [fold_left].
  - specialize (Hbuy eq_refl).
    apply incWallet_nonneg; [exact Hn| |];
      cbn [BalanceUpdate.asset BalanceUpdate.free BalanceUpdate.locked].
    + lra.
    + pose proof (lockedOf_nonneg (wallets s) (User.id user)
                    (QuoteAsset.name (ExchangeInfo.quoteAsset
                       (getExchangeInfo env (CreateOrderDto.symbol order)
                          (CreateOrderDto.exchange order)))) Hn). lra.
  - specialize (Hsell eq_refl).
    apply incWallet_nonneg; [exact Hn| |];
      cbn [BalanceUpdate.asset BalanceUpdate.free BalanceUpdate.locked].
    + lra.
    + pose proof (lockedOf_nonneg (wallets s) (User.id user)
                    (BaseAsset.name (ExchangeInfo.baseAsset
                       (getExchangeInfo env (CreateOrderDto.symbol order)
                          (CreateOrderDto.exchange order)))) Hn). lra.
Qed.

Lemma createOrder_spot_nonneg env order s :
  isFutures (CreateOrderDto.exchange order) = false ->
  walletsNonneg (wallets s) ->
  0 <= CreateOrderDto.amount order -> 0 <= CreateOrderDto.price order ->
  (forall p, fst (getLatestPriceInExchange env (CreateOrderDto.symbol order)
                    (CreateOrderDto.exchange order) s) = Ok p -> 0 <= p) ->
  walletsNonneg (wallets (snd (createOrder env order s))).
Proof.
  intros Hspot Hn Ha Hpr Hcur.
  destruct (createOrder_prefix env order s)
    as [(e & s0 & E & Hb & _) | (user & l & p & s1 & _ & Hb & _ & Hfst & Hagain & E)].
  { rewrite E. cbn [snd]. destruct Hb as (_ & Hw & _). now rewrite Hw. }
  rewrite E. clear E. specialize (Hcur p Hfst).
  destruct Hb as (_ & Hw & _).
  assert (Hn1 : walletsNonneg (wallets s1)) by now rewrite Hw.
  unfold admitOrder. cbv zeta. rewrite Hspot.
  rewrite !find_balance by (simpl; rewrite String.eqb_refl; now rewrite ?orb_true_r).
  unfold throw.
  destruct (marketable _ p) eqn:Em.
  - destruct (marketable order p) eqn:Em0.
    2:{ exfalso. revert Em. unfold marketable, withType. cbn.
        unfold marketable in Em0. apply orb_false_iff in Em0. destruct Em0 as [Em0 E3].
        apply orb_false_iff in Em0. destruct Em0 as [E1 E2].
        rewrite E2, E3. discriminate. }
    cbn [withType CreateOrderDto.side CreateOrderDto.amount].
    destruct (OrderSide.eqb (CreateOrderDto.side order) OrderSide.BUY &&
              lacks (findWallet (wallets s) (User.id user) _) _) eqn:Eb;
      [exact Hn1|].
    destruct (OrderSide.eqb (CreateOrderDto.side order) OrderSide.SELL &&
              lacks (findWallet (wallets s) (User.id user) _) _) eqn:Es;
      [exact Hn1|].
    apply processMarketOrder_spot_nonneg with (p := p); try assumption.
    + intro Hside. cbn in Hside. rewrite Hside in Eb. simpl in Eb.
      rewrite Hw. now apply lacks_false.
    + intro Hside. cbn in Hside. rewrite Hside in Es. simpl in Es.
      rewrite Hw. now apply lacks_false.
  - destruct (marketable order p) eqn:Em0.
    { exfalso. revert Em. cbn [withType]. unfold marketable. cbn. discriminate. }
    cbn [withType CreateOrderDto.side CreateOrderDto.amount CreateOrderDto.price].
    destruct (OrderSide.eqb (CreateOrderDto.side order) OrderSide.BUY &&
              lacks (findWallet (wallets s) (User.id user) _) _) eqn:Eb;
      [exact Hn1|].
    destruct (OrderSide.eqb (CreateOrderDto.side order) OrderSide.SELL &&
              lacks (findWallet (wallets s) (User.id user) _) _) eqn:Es;
      [exact Hn1|].
    apply createLimitOrder_spot_nonneg; try assumption.
    + intro Hside. cbn in Hside. rewrite Hside in Eb. simpl in Eb.
      rewrite Hw. now apply lacks_false.
    + intro Hside. cbn in Hside. rewrite Hside in Es. simpl in Es.
      rewrite Hw. now apply lacks_false.
Qed.

Lemma credit_then_unlock_nonneg ws user a1 c a2 d :
  walletsNonneg ws -> 0 <= c -> d <= lockedOf ws user a2 ->
  walletsNonneg
    (increaseUserBalance user
       [BalanceUpdate.mk a1 c 0; BalanceUpdate.mk a2 0 (- d)] ws).
Proof.
  intros Hn Hc Hd. unfold increaseUserBalance. cbn [fold_left].
  assert (H1 : walletsNonneg (incWallet ws user (BalanceUpdate.mk a1 c 0))).
  { apply incWallet_nonneg; [exact Hn| |];
      cbn [BalanceUpdate.asset BalanceUpdate.free BalanceUpdate.locked].
    - pose proof (freeOf_nonneg ws user a1 Hn). lra.
    - pose proof (lockedOf_nonneg ws user a1 Hn). lra. }
  apply incWallet_nonneg; [exact H1| |];
    cbn [BalanceUpdate.asset BalanceUpdate.free BalanceUpdate.locked].
  - pose proof (freeOf_nonneg _ user a2 H1). lra.
  - rewrite (lockedOf_after ws user (BalanceUpdate.mk a1 c 0) a2).
    cbn [BalanceUpdate.asset BalanceUpdate.locked].
    destruct (String.eqb a2 a1); lra.
Qed.

Lemma fillSize_spot strictlyBetter remaining qty :
  0 <= remaining -> 0 < qty ->
  0 <= fst (fillSize false strictlyBetter remaining qty) <= remaining.
Proof.
  intros Hr Hq. unfold fillSize. cbn [orb].
  destruct strictlyBetter; cbn [fst]; [lra|].
  destruct (Num.leb remaining qty) eqn:E; cbn [fst]; [lra|].
  apply NumFacts.leb_gt in E. lra.
Qed.

Lemma net_of_fee_nonneg q f : 0 <= q -> f <= 1 -> 0 <= q - q * f.
Proof.
  intros Hq Hf. setoid_replace (q - q * f) with (q * (1 - f)) by ring.
  apply Qmult_le_0_compat; lra.
Qed.

Lemma processLimitOrder_spot_nonneg env order data s :
  isFutures (Order.exchange order) = false ->
  walletsNonneg (wallets s) ->
  0 <= Order.price order ->
  Order.filledAmount order <= Order.amount order ->
  0 <= Order.feePerc order <= 1 ->
  let symbol := getExchangeInfo env (Order.symbol order) (Order.exchange order) in
  (Order.side order = OrderSide.BUY ->
   (Order.amount order - Order.filledAmount order) * Order.price order <=
   lockedOf (wallets s) (Order.user order) (QuoteAsset.name (ExchangeInfo.quoteAsset symbol))) ->
  (Order.side order = OrderSide.SELL ->
   Order.amount order - Order.filledAmount order <=
   lockedOf (wallets s) (Order.user order) (BaseAsset.name (ExchangeInfo.baseAsset symbol))) ->
  walletsNonneg (wallets (processLimitOrder env order data s)).
Proof.
  intros Hspot Hn Hpr Hfilled Hfee symbol Hbuy Hsell. subst symbol.
  unfold processLimitOrder.
  destruct (OrderStatus.terminal (Order.status order)); [exact Hn|].
  destruct (getOrderByExternalIdAndSymbol _ _ s) as [inCurrent|]; [|exact Hn].
  destruct (OrderStatus.terminal (Order.status inCurrent)); [exact Hn|].
  cbv zeta. rewrite Hspot, (isCoinm_isFutures _ Hspot). cbn [orb negb].
  set (feePerc := if Num.truthy (Order.feePerc order) then Order.feePerc order
                  else getUserFee maker (Order.exchange order)).
  assert (Hf1 : feePerc <= 1).
  { unfold feePerc, getUserFee. rewrite Hspot.
    destruct (Num.truthy _); [tauto|unfold spotMakerFee; lra]. }
  assert (Hrem : 0 <= Order.amount order - Order.filledAmount order) by lra.
  destruct (OrderSide.eqb (Order.side order) OrderSide.SELL &&
            Num.leb (Order.price order) (Tick.bestBid data) &&
            Num.ltb 0 (Tick.bidQty data)) eqn:Esell.
  - apply andb_true_iff in Esell. destruct Esell as [Esell Hqty].
    apply andb_true_iff in Esell. destruct Esell as [Eside _].
    apply NumFacts.ltb_lt in Hqty.
    assert (Hside : Order.side order = OrderSide.SELL)
      by (destruct (Order.side order); [discriminate|reflexivity]).
    pose proof (fillSize_spot (Num.ltb (Order.price order) (Tick.bestBid data))
                  _ _ Hrem Hqty) as Hb.
    destruct (fillSize false _ _ _) as [baseAssetAmount isFilled].
    cbn [fst] in Hb. cbv beta iota zeta.
    assert (Hw : walletsNonneg
                   (increaseUserBalance (Order.user order)
                      [BalanceUpdate.mk
                         (QuoteAsset.name (ExchangeInfo.quoteAsset
                            (getExchangeInfo env (Order.symbol order) (Order.exchange order))))
                         (baseAssetAmount * Order.price order -
                          baseAssetAmount * Order.price order * feePerc) 0;
                       BalanceUpdate.mk
                         (BaseAsset.name (ExchangeInfo.baseAsset
                            (getExchangeInfo env (Order.symbol order) (Order.exchange order))))
                         0 (- baseAssetAmount)] (wallets s))).
    { apply credit_then_unlock_nonneg; [exact Hn| |].
      - apply net_of_fee_nonneg; [|exact Hf1]. apply Qmult_le_0_compat; lra.
      - specialize (Hsell Hside). lra. }
    destruct isFilled.
    + frame_wallets; exact Hw.
    + frame_wallets; exact Hw.
  - destruct (OrderSide.eqb (Order.side order) OrderSide.BUY &&
              Num.leb (Tick.bestAsk data) (Order.price order) &&
              Num.ltb 0 (Tick.askQty data)) eqn:Ebuy; [|exact Hn].
    apply andb_true_iff in Ebuy. destruct Ebuy as [Ebuy Hqty].
    apply andb_true_iff in Ebuy. destruct Ebuy as [Eside _].
    apply NumFacts.ltb_lt in Hqty.
    assert (Hside : Order.side order = OrderSide.BUY)
      by (destruct (Order.side order); [reflexivity|discriminate]).
    pose proof (fillSize_spot (Num.ltb (Tick.bestAsk data) (Order.price order))
                  _ _ Hrem Hqty) as Hb.
    destruct (fillSize false _ _ _) as [baseAssetAmount isFilled].
    cbn [fst] in Hb. cbv beta iota zeta.
    assert (Hw : walletsNonneg
                   (increaseUserBalance (Order.user order)
                      [BalanceUpdate.mk
                         (BaseAsset.name (ExchangeInfo.baseAsset
                            (getExchangeInfo env (Order.symbol order) (Order.exchange order))))
                         (baseAssetAmount - baseAssetAmount * feePerc) 0;
                       BalanceUpdate.mk
                         (QuoteAsset.name (ExchangeInfo.quoteAsset
                            (getExchangeInfo env (Order.symbol order) (Order.exchange order))))
                         0 (- (baseAssetAmount * Order.price order))] (wallets s))).
    { apply credit_then_unlock_nonneg; [exact Hn| |].
      - apply net_of_fee_nonneg; [lra|exact Hf1].
      - specialize (Hbuy Hside).
        apply Qle_trans with ((Order.amount order - Order.filledAmount order) * Order.price order);
          [|exact Hbuy].
        apply Qmult_le_compat_r; lra. }
    destruct isFilled.
    + frame_wallets; exact Hw.
    + frame_wallets; exact Hw.
Qed.

(** X21.  From balances that are all non-negative, on a spot exchange: a
    [createOrder] call (market execution or limit registration) with a
    non-negative amount, limit price and current price leaves every wallet
    row with [free >= 0] and [locked >= 0], whether it succeeds or throws;
    and so does the fill of a limit order whose price is non-negative, whose
    filled amount does not exceed its amount, whose fee rate lies in [0, 1],
    and whose unfilled reservation is held in [locked]. *)
Theorem spot_transitions_keep_balances_nonnegative env s :
  walletsNonneg (wallets s) ->
  (forall order,
     isFutures (CreateOrderDto.exchange order) = false ->
     0 <= CreateOrderDto.amount order -> 0 <= CreateOrderDto.price order ->
     (forall p, fst (getLatestPriceInExchange env (CreateOrderDto.symbol order)
                       (CreateOrderDto.exchange order) s) = Ok p -> 0 <= p) ->
     walletsNonneg (wallets (snd (createOrder env order s)))) /\
  (forall order data,
     isFutures (Order.exchange order) = false ->
     0 <= Order.price order ->
     Order.filledAmount order <= Order.amount order ->
     0 <= Order.feePerc order <= 1 ->
     (Order.side order = OrderSide.BUY ->
      (Order.amount order - Order.filledAmount order) * Order.price order <=
      lockedOf (wallets s) (Order.user order)
        (QuoteAsset.name (ExchangeInfo.quoteAsset
           (getExchangeInfo env (Order.symbol order) (Order.exchange order))))) ->
     (Order.side order = OrderSide.SELL ->
      Order.amount order - Order.filledAmount order <=
      lockedOf (wallets s) (Order.user order)
        (BaseAsset.name (ExchangeInfo.baseAsset
           (getExchangeInfo env (Order.symbol order) (Order.exchange order))))) ->
     walletsNonneg (wallets (processLimitOrder env order data s))).
Proof.
  intro Hn. split.
  - intros order Hspot Ha Hp Hcur. now apply createOrder_spot_nonneg.
  - intros order data Hspot Hp Hfilled Hfee Hbuy Hsell.
    now apply processLimitOrder_spot_nonneg.
Qed.

(** Decides a closed comparison of rationals. *)
Ltac qcompute := vm_compute; try reflexivity; try (intro; discriminate).

Lemma spot_transitions_keep_balances_nonnegative_witness :
  walletsNonneg
    (wallets (snd (createOrder (Scenario.envAt (Some 50000)) Scenario.spotLimitBuy
                     Scenario.spotStart))) /\
  walletsNonneg
    (wallets (processLimitOrder (Scenario.envAt (Some 50000)) Scenario.limit1View
                Scenario.touch Scenario.spotResting)) /\
  freeOf (wallets (processLimitOrder (Scenario.envAt (Some 50000)) Scenario.limit1View
                     Scenario.touch Scenario.spotResting)) "u1" "BTC" == 999 # 10000.
Proof.
  split; [|split].
  - apply (spot_transitions_keep_balances_nonnegative (Scenario.envAt (Some 50000))
             Scenario.spotStart).
    + repeat constructor; qcompute.
    + reflexivity.
    + qcompute.
    + qcompute.
    + intros p Hp. vm_compute in Hp. injection Hp as <-. qcompute.
  - apply (spot_transitions_keep_balances_nonnegative (Scenario.envAt (Some 50000))
             Scenario.spotResting).
    + repeat constructor; qcompute.
    + reflexivity.
    + qcompute.
    + qcompute.
    + split; qcompute.
    + intros _. qcompute.
    + intro H. discriminate H.
  - vm_compute. reflexivity.
Defined.

(** C2.  A [createOrder] call can take [free] below zero.  On a derivatives
    exchange the admission check covers the margin and the settlement debits
    the margin and the fee: with exactly 100 USDT, a market BUY of 1 at 100
    (leverage 1, fee 0.04) is accepted and leaves [free = -0.04]. *)
Theorem derivatives_open_takes_free_below_zero :
  walletsNonneg (wallets Scenario.thinStart) /\
  exists response s',
    createOrder (Scenario.envAt (Some 100)) Scenario.thinOpen Scenario.thinStart =
      (Ok response, s') /\
    freeOf (wallets s') "u1" "USDT" == - (4 # 100) /\
    ~ walletsNonneg (wallets s').
Proof.
  split; [repeat constructor; qcompute|].
  do 2 eexists. split; [vm_compute; reflexivity|].
  split; [vm_compute; reflexivity|].
  intro H. inversion H as [|w r [Hfree _] _]; subst.
  vm_compute in Hfree. apply Hfree. reflexivity.
Qed.

(** ** Acceptance on a spot exchange *)

(** With a known user and a current price, [createOrder] reaches
    [admitOrder]. *)
Lemma createOrder_reaches_admission env order s user p :
  find (fun u => String.eqb (User.key u) (CreateOrderDto.key order) &&
                 String.eqb (User.secret u) (CreateOrderDto.secret order))
       (users s) = Some user ->
  fst (getLatestPriceInExchange env (CreateOrderDto.symbol order)
         (CreateOrderDto.exchange order) s) = Ok p ->
  exists leverage s1,
    sameBooks s s1 /\
    getLatestPriceInExchange env (CreateOrderDto.symbol order)
      (CreateOrderDto.exchange order) s1 = (Ok p, s1) /\
    createOrder env order s =
      admitOrder env order user
        (getUserBalanceByUserIdOrThrow (User.id user)
           [BaseAsset.name (ExchangeInfo.baseAsset
              (getExchangeInfo env (CreateOrderDto.symbol order) (CreateOrderDto.exchange order)));
            QuoteAsset.name (ExchangeInfo.quoteAsset
              (getExchangeInfo env (CreateOrderDto.symbol order) (CreateOrderDto.exchange order)))]
           (wallets s))
        leverage p s1.
Proof.
  intros Hu Hp.
  unfold createOrder, bind, getUserByKeyAndSecretOrThrow. rewrite Hu. unfold gets.
  assert (Hlev : exists leverage s0,
            (if isFutures (CreateOrderDto.exchange order)
             then ensureLeverage user order else ret 1) s = (Ok leverage, s0) /\
            sameBooks s s0 /\ symbolPriceMap s0 = symbolPriceMap s /\
            tickerTimeMap s0 = tickerTimeMap s).
  { destruct (isFutures _).
    - apply ensureLeverage_ok.
    - do 2 eexists. split; [reflexivity|]. split; [apply sameBooks_refl|]. split; reflexivity. }
  destruct Hlev as (leverage & s0 & El & Hb0 & Hp0 & Ht0). rewrite El.
  pose proof (getLatestPriceInExchange_caches env (CreateOrderDto.symbol order)
                (CreateOrderDto.exchange order) s s0 Hp0 Ht0) as Hfst.
  rewrite Hp in Hfst.
  destruct (getLatestPriceInExchange_cases env (CreateOrderDto.symbol order)
              (CreateOrderDto.exchange order) s0)
    as [(e & s1 & E1 & _) | (q & s1 & E1 & Hb1 & _ & _ & Hagain)];
    rewrite E1 in Hfst; cbn [fst] in Hfst; [discriminate Hfst|].
  inversion Hfst; subst q. rewrite E1.
  exists leverage, s1. split; [exact (sameBooks_trans _ _ _ Hb0 Hb1)|].
  split; [exact Hagain|reflexivity].
Qed.

(** On a spot exchange a request of a known user is accepted when a current
    price is available, the pair of its [externalId] and symbol is new, and
    the wallet row it draws on holds the amount reserved or paid. *)
Lemma createOrder_spot_accepted env order s user p :
  isFutures (CreateOrderDto.exchange order) = false ->
  find (fun u => String.eqb (User.key u) (CreateOrderDto.key order) &&
                 String.eqb (User.secret u) (CreateOrderDto.secret order))
       (users s) = Some user ->
  fst (getLatestPriceInExchange env (CreateOrderDto.symbol order)
         (CreateOrderDto.exchange order) s) = Ok p ->
  findOrder (CreateOrderDto.externalId order) (CreateOrderDto.symbol order) s = None ->
  let symbol := getExchangeInfo env (CreateOrderDto.symbol order)
                  (CreateOrderDto.exchange order) in
  let usedPrice := if marketable order p then p else CreateOrderDto.price order in
  (CreateOrderDto.side order = OrderSide.BUY ->
   exists w, findWallet (wallets s) (User.id user)
               (QuoteAsset.name (ExchangeInfo.quoteAsset symbol)) = Some w /\
             CreateOrderDto.amount order * usedPrice <= Wallet.free w) ->
  (CreateOrderDto.side order = OrderSide.SELL ->
   exists w, findWallet (wallets s) (User.id user)
               (BaseAsset.name (ExchangeInfo.baseAsset symbol)) = Some w /\
             CreateOrderDto.amount order <= Wallet.free w) ->
  exists response s', createOrder env order s = (Ok response, s').
Proof.
  intros Hspot Hu Hp Hnew symbol usedPrice Hbuy Hsell. subst symbol usedPrice.
  destruct (createOrder_reaches_admission env order s user p Hu Hp)
    as (l & s1 & Hb & Hagain & E).
  rewrite E. clear E. destruct Hb as (_ & _ & Ho & _).
  assert (Hfresh : forall data,
            Order.externalId data = CreateOrderDto.externalId order ->
            Order.symbol data = CreateOrderDto.symbol order ->
            exists o s2, orderModel_create env data s1 = (Ok o, s2)).
  { intros data He Hs. unfold orderModel_create.
    assert (Hex : existsb (fun o => String.eqb (Order.externalId o) (Order.externalId data) &&
                                    String.eqb (Order.symbol o) (Order.symbol data))
                    (orderModel s1) = false).
    { rewrite Ho, He, Hs. unfold findOrder, keyed in Hnew.
      destruct (existsb _ (orderModel s)) eqn:Ex; [|reflexivity].
      apply existsb_exists in Ex. destruct Ex as (o & Hin & Hm).
      exfalso. eapply find_none in Hnew; [|exact Hin]. cbv beta in Hnew. congruence. }
    rewrite Hex. do 2 eexists. reflexivity. }
  unfold admitOrder. cbv zeta. rewrite Hspot.
  rewrite !find_balance by (simpl; rewrite String.eqb_refl; now rewrite ?orb_true_r).
  assert (Hlb : forall x,
            CreateOrderDto.side order = OrderSide.BUY ->
            (exists w, findWallet (wallets s) (User.id user)
                         (QuoteAsset.name (ExchangeInfo.quoteAsset
                            (getExchangeInfo env (CreateOrderDto.symbol order)
                               (CreateOrderDto.exchange order)))) = Some w /\
                       x <= Wallet.free w) ->
            lacks (findWallet (wallets s) (User.id user)
                     (QuoteAsset.name (ExchangeInfo.quoteAsset
                        (getExchangeInfo env (CreateOrderDto.symbol order)
                           (CreateOrderDto.exchange order))))) x = false).
  { intros x _ (w & Ew & Hle). rewrite Ew. simpl. now apply NumFacts.ltb_ge. }
  assert (Hls : forall x,
            (exists w, findWallet (wallets s) (User.id user)
                         (BaseAsset.name (ExchangeInfo.baseAsset
                            (getExchangeInfo env (CreateOrderDto.symbol order)
                               (CreateOrderDto.exchange order)))) = Some w /\
                       x <= Wallet.free w) ->
            lacks (findWallet (wallets s) (User.id user)
                     (BaseAsset.name (ExchangeInfo.baseAsset
                        (getExchangeInfo env (CreateOrderDto.symbol order)
                           (CreateOrderDto.exchange order))))) x = false).
  { intros x (w & Ew & Hle). rewrite Ew. simpl. now apply NumFacts.ltb_ge. }
  destruct (marketable order p) eqn:Em.
  - assert (Em' : marketable (withType order OrderType.MARKET) p = true) by reflexivity.
    rewrite Em'. cbn [withType CreateOrderDto.side CreateOrderDto.amount].
    destruct (CreateOrderDto.side order) eqn:Es; cbn [OrderSide.eqb andb].
    + rewrite (Hlb _ eq_refl (Hbuy eq_refl)).
      unfold processMarketOrder, bind. cbn [withType CreateOrderDto.symbol CreateOrderDto.exchange].
      rewrite Hagain. cbv zeta.
      match goal with
      | |- context [orderModel_create env ?d s1] =>
          destruct (Hfresh d eq_refl eq_refl) as (o & s2 & Ec); rewrite Ec
      end.
      rewrite Hspot. unfold modify, ret. do 2 eexists. reflexivity.
    + rewrite (Hls _ (Hsell eq_refl)).
      unfold processMarketOrder, bind. cbn [withType CreateOrderDto.symbol CreateOrderDto.exchange].
      rewrite Hagain. cbv zeta.
      match goal with
      | |- context [orderModel_create env ?d s1] =>
          destruct (Hfresh d eq_refl eq_refl) as (o & s2 & Ec); rewrite Ec
      end.
      rewrite Hspot. unfold modify, ret. do 2 eexists. reflexivity.
  - assert (Em' : marketable (withType order OrderType.LIMIT) p = false).
    { unfold marketable in *. cbn.
      apply orb_false_iff in Em. destruct Em as [Em E3].
      apply orb_false_iff in Em. destruct Em as [_ E2]. now rewrite E2, E3. }
    rewrite Em'. cbn [withType CreateOrderDto.side CreateOrderDto.amount CreateOrderDto.price].
    destruct (CreateOrderDto.side order) eqn:Es; cbn [OrderSide.eqb andb].
    + rewrite (Hlb _ eq_refl (Hbuy eq_refl)).
      unfold createLimitOrder, bind. cbv zeta.
      cbn [withType CreateOrderDto.symbol CreateOrderDto.exchange CreateOrderDto.externalId].
      match goal with
      | |- context [orderModel_create env ?d s1] =>
          destruct (Hfresh d eq_refl eq_refl) as (o & s2 & Ec); rewrite Ec
      end.
      unfold modify, ret. do 2 eexists. reflexivity.
    + rewrite (Hls _ (Hsell eq_refl)).
      unfold createLimitOrder, bind. cbv zeta.
      cbn [withType CreateOrderDto.symbol CreateOrderDto.exchange CreateOrderDto.externalId].
      match goal with
      | |- context [orderModel_create env ?d s1] =>
          destruct (Hfresh d eq_refl eq_refl) as (o & s2 & Ec); rewrite Ec
      end.
      unfold modify, ret. do 2 eexists. reflexivity.
Qed.

(** ** A scan that liquidates and fills *)

(** With a LONG whose liquidation price 89.964 is above the best bid 89 and a
    limit BUY at 95 above the best ask 89.5, the scan calls the liquidation
    first and the fill second. *)
Example processTickerQueue_liquidation_then_fill :
  exists position order,
    processTickerQueue binanceUsdm [("BTCUSDT"%string, Scenario.plunge)]
      Scenario.leveragedBook =
      [closeFuturePosition position; processLimitOrderCall order Scenario.plunge] /\
    Position.positionSide position = PositionSide.long /\
    Position.liquidationPrice position == 89964 # 1000 /\
    Order.externalId order = "add"%string /\ Order.price order == 95.
Proof.
  do 2 eexists. split; [vm_compute; reflexivity|].
  repeat split; vm_compute; reflexivity.
Qed.

(** * Further properties of the code *)

(** ** [MathHelper]: the tolerant comparison and the rounding *)

(** X1.  [MathHelper.lte(a, b)] holds exactly when [a] exceeds [b] by no
    more than the tolerance [1e-10]: it is [a <= b] relaxed by [eps], not an
    exact comparison. *)
Theorem lte_within_tolerance a b :
  MathHelper.lte a b = true <-> a <= b + MathHelper.eps.
Proof.
  unfold MathHelper.lte, MathHelper.isZero.
  assert (He : 0 < MathHelper.eps) by reflexivity.
  destruct (Num.leb (Qabs (a - b)) MathHelper.eps) eqn:Hz.
  - rewrite orb_true_r. apply NumFacts.leb_le in Hz.
    apply Qabs_Qle_condition in Hz. split; [intros _; lra | reflexivity].
  - rewrite orb_false_r. cbn [negb andb]. apply NumFacts.leb_gt in Hz.
    rewrite NumFacts.leb_le. split; [intro; lra|].
    intro H. destruct (Qlt_le_dec b a) as [Hl|Hl]; [|exact Hl].
    exfalso. rewrite Qabs_pos in Hz by lra. lra.
Qed.




(** With the precision of the close test, [round] raises no [RangeError]. *)
Lemma round_10_returns x : MathHelper.round x 10 <> MathHelper.RangeError.
Proof.
  unfold MathHelper.round. change (10 + 2 <? 0)%Z with false.
  rewrite andb_false_r.
  destruct (Num.leb _ _); [discriminate|].
  destruct (_ <? 0)%Z; discriminate.
Qed.



(** [round(4.9999e-11, 10)] is [1e-10]: the first rounding, to 12 decimals,
    gives [0.00000000005], and the second rounds that half upwards. *)
Example round_rounds_twice :
  exists r, MathHelper.round (49999 # (10 ^ 15)) 10 = MathHelper.Rounded r /\
            r == 1 # (10 ^ 10).
Proof. eexists. split; [vm_compute; reflexivity|]. vm_compute. reflexivity. Qed.

(** A negative precision gives no number. *)
Example round_negative_precision :
  MathHelper.round (12345 # 1000) (- 1) = MathHelper.NaN.
Proof. vm_compute. reflexivity. Qed.

(** ** The liquidation price of a new position *)

Lemma getUserFee_range kind exchange :
  0 < getUserFee kind exchange /\ getUserFee kind exchange < 1.
Proof. destruct kind, exchange; split; reflexivity. Qed.

Lemma scale_below entry w :
  0 < entry -> 0 < w -> w < 1 -> 0 < entry * w /\ entry * w < entry.
Proof.
  intros He H0 H1. split.
  - apply Qmult_lt_0_compat; assumption.
  - setoid_replace entry with (entry * 1) at 2 by ring.
    apply Qmult_lt_l; assumption.
Qed.

Lemma scale_above entry w : 0 < entry -> 1 < w -> entry < entry * w.
Proof.
  intros He H1. setoid_replace entry with (entry * 1) at 1 by ring.
  apply Qmult_lt_l; assumption.
Qed.

Lemma liquidationPrice_long entry fee leverage :
  0 < entry -> 0 < fee -> fee < 1 ->
  0 < liquidationPrice entry PositionSide.long fee leverage /\
  liquidationPrice entry PositionSide.long fee leverage < entry.
Proof.
  intros He Hf Hf1. unfold liquidationPrice. cbn [PositionSide.eqb].
  destruct (Num.ltb 1 leverage) eqn:Hl.
  - apply NumFacts.ltb_lt in Hl.
    assert (Hil : 0 < / leverage) by (apply Qinv_lt_0_compat; lra).
    assert (Hil1 : / leverage < 1).
    { apply Qlt_shift_inv_r; lra. }
    unfold Qdiv. set (a := / leverage) in *.
    destruct (scale_below (1 - a) (1 - fee)) as [P0 P1]; try lra.
    apply scale_below; [assumption | |].
    + setoid_replace ((1 + 1 * a * -1) * (1 + fee * -1)) with ((1 - a) * (1 - fee)) by ring.
      exact P0.
    + setoid_replace ((1 + 1 * a * -1) * (1 + fee * -1)) with ((1 - a) * (1 - fee)) by ring.
      lra.
  - apply scale_below; assumption.
Qed.

Lemma liquidationPrice_other entry side fee leverage :
  side <> PositionSide.long ->
  0 < entry -> 0 < fee -> fee < 1 ->
  entry < liquidationPrice entry side fee leverage.
Proof.
  intros Hs He Hf Hf1. unfold liquidationPrice.
  assert (Hside : PositionSide.eqb side PositionSide.long = false)
    by (destruct side; try reflexivity; congruence).
  rewrite Hside. apply scale_above; [assumption|].
  destruct (Num.ltb 1 leverage) eqn:Hl.
  - apply NumFacts.ltb_lt in Hl.
    assert (Hil : 0 < / leverage) by (apply Qinv_lt_0_compat; lra).
    unfold Qdiv. set (a := / leverage) in *.
    assert (0 < a * fee) by (apply Qmult_lt_0_compat; assumption).
    setoid_replace ((1 + 1 * a * 1) * (1 + fee * 1)) with (1 + a + fee + a * fee) by ring.
    lra.
  - unfold Qdiv. rewrite Qmult_1_l. apply Qlt_shift_inv_l; lra.
Qed.

(** X3.  A position created from an order at a positive price, on any
    exchange and at any leverage, is LONG for a BUY with a liquidation price
    strictly between 0 and its entry price, and SHORT for a SELL with a
    liquidation price strictly above its entry price. *)
Theorem new_position_liquidation_side env uuid order leverage m f a :
  0 < Order.price order ->
  let p := createPositionFromOrder env uuid order leverage m f a in
  Position.entryPrice p == Order.price order /\
  match Order.side order with
  | OrderSide.BUY =>
      Position.positionSide p = PositionSide.long /\
      0 < Position.liquidationPrice p /\
      Position.liquidationPrice p < Position.entryPrice p
  | OrderSide.SELL =>
      Position.positionSide p = PositionSide.short /\
      Position.entryPrice p < Position.liquidationPrice p
  end.
Proof.
  intros Hp p. subst p. unfold createPositionFromOrder.
  cbn [Position.entryPrice Position.positionSide Position.liquidationPrice].
  split; [reflexivity|].
  destruct (getUserFee_range (feeKindOf (Order.type order)) (Order.exchange order)) as [F0 F1].
  destruct (Order.side order).
  - split; [reflexivity|]. apply liquidationPrice_long; assumption.
  - split; [reflexivity|]. apply liquidationPrice_other; try assumption. discriminate.
Qed.

Lemma new_position_liquidation_side_witness :
  let p := createPositionFromOrder (Scenario.envAt None) "uuid-0" Scenario.limit1 10
             None None None in
  Position.positionSide p = PositionSide.long /\
  0 < Position.liquidationPrice p /\
  Position.liquidationPrice p < Position.entryPrice p.
Proof.
  apply (new_position_liquidation_side (Scenario.envAt None) "uuid-0" Scenario.limit1 10
           None None None).
  reflexivity.
Defined.

(** ** [IdMutex]: who holds an id, and who is resumed

    The mutex that serialises the methods of the engine per id. *)

Section IdMutexFacts.
Context {W : Type}.
Implicit Types (m : IdMutex.t W) (e : IdMutex.entry W).

Lemma lock_keeps_locked maxLength id w m :
  (forall i e, JsMap.get m i = Some e -> IdMutex.locked e = true) ->
  forall i e, JsMap.get (snd (IdMutex.lock maxLength id w m)) i = Some e ->
              IdMutex.locked e = true.
Proof.
  intros Inv i e. unfold IdMutex.lock.
  destruct (JsMap.get m id) as [e0|] eqn:G.
  - destruct (IdMutex.locked e0) eqn:L; cbn [snd].
    + destruct (String.eqb id i) eqn:E.
      * apply String.eqb_eq in E. subst i. rewrite JsMapFacts.get_set_same.
        intro H. injection H as <-. reflexivity.
      * rewrite JsMapFacts.get_set_other by (intro; subst; rewrite String.eqb_refl in E; discriminate).
        apply Inv.
    + destruct (String.eqb id i) eqn:E.
      * apply String.eqb_eq in E. subst i. rewrite JsMapFacts.get_set_same.
        intro H. injection H as <-. reflexivity.
      * rewrite JsMapFacts.get_set_other by (intro; subst; rewrite String.eqb_refl in E; discriminate).
        apply Inv.
  - cbn [snd]. destruct (String.eqb id i) eqn:E.
    + apply String.eqb_eq in E. subst i. rewrite JsMapFacts.get_set_same.
      intro H. injection H as <-. reflexivity.
    + rewrite JsMapFacts.get_set_other by (intro; subst; rewrite String.eqb_refl in E; discriminate).
      apply Inv.
Qed.

Lemma release_keeps_locked id m :
  (forall i e, JsMap.get m i = Some e -> IdMutex.locked e = true) ->
  forall i e, JsMap.get (snd (IdMutex.release id m)) i = Some e ->
              IdMutex.locked e = true.
Proof.
  intros Inv i e. unfold IdMutex.release.
  destruct (JsMap.get m id) as [e0|] eqn:G; [|apply Inv].
  destruct (IdMutex.queue e0) as [|r rest]; cbn [snd].
  - destruct (String.eqb id i) eqn:E.
    + apply String.eqb_eq in E. subst i. rewrite JsMapFacts.get_delete_same. discriminate.
    + rewrite JsMapFacts.get_delete_other by (intro; subst; rewrite String.eqb_refl in E; discriminate).
      apply Inv.
  - destruct (String.eqb id i) eqn:E.
    + apply String.eqb_eq in E. subst i. rewrite JsMapFacts.get_set_same.
      intro H. injection H as <-. exact (Inv _ _ G).
    + rewrite JsMapFacts.get_set_other by (intro; subst; rewrite String.eqb_refl in E; discriminate).
      apply Inv.
Qed.

Lemma run_keeps_locked maxLength ops m :
  (forall i e, JsMap.get m i = Some e -> IdMutex.locked e = true) ->
  forall i e, JsMap.get (IdMutex.run maxLength ops m) i = Some e ->
              IdMutex.locked e = true.
Proof.
  revert m. induction ops as [|o ops IH]; intros m Inv; [exact Inv|].
  unfold IdMutex.run. cbn [fold_left]. apply IH.
  destruct o as [id w|id]; cbn [IdMutex.step].
  - apply lock_keeps_locked, Inv.
  - apply release_keeps_locked, Inv.
Qed.

(** X4.  On a lock map reached from the empty one by any sequence of [lock]
    and [release] calls, [lock(id)] resolves at once exactly when nobody
    holds [id] (the map has no entry for it); either way the map then holds
    a locked entry for [id], so a second caller has to wait. *)
Theorem lock_granted_iff_free maxLength ops id w :
  let m := IdMutex.run maxLength ops ([] : IdMutex.t W) in
  (fst (IdMutex.lock maxLength id w m) = true <-> JsMap.get m id = None) /\
  (forall e, JsMap.get (snd (IdMutex.lock maxLength id w m)) id = Some e ->
             IdMutex.locked e = true) /\
  JsMap.get (snd (IdMutex.lock maxLength id w m)) id <> None.
Proof.
  intro m.
  assert (Inv : forall i e, JsMap.get m i = Some e -> IdMutex.locked e = true).
  { apply run_keeps_locked. intros i e H. discriminate. }
  split; [|split].
  - unfold IdMutex.lock. destruct (JsMap.get m id) as [e|] eqn:G.
    + rewrite (Inv _ _ G). cbn [fst]. split; discriminate.
    + cbn [fst]. split; reflexivity.
  - apply lock_keeps_locked, Inv.
  - unfold IdMutex.lock. destruct (JsMap.get m id) as [e|] eqn:G.
    + destruct (IdMutex.locked e); cbn [snd]; rewrite JsMapFacts.get_set_same; discriminate.
    + cbn [snd]. rewrite JsMapFacts.get_set_same. discriminate.
Qed.

Lemma releases_drain q : forall id m b,
  JsMap.get m id = Some (IdMutex.mkEntry q b) ->
  exists m',
    IdMutex.releases (List.length q) id m = (q, m') /\
    JsMap.get m' id = Some (IdMutex.mkEntry [] b).
Proof.
  induction q as [|w q IH]; intros id m b G.
  - exists m. split; [reflexivity | exact G].
  - cbn [List.length IdMutex.releases]. unfold IdMutex.release. rewrite G.
    cbn [IdMutex.queue IdMutex.locked].
    destruct (IH id (JsMap.set m id (IdMutex.mkEntry q b)) b) as (m' & E & G').
    { apply JsMapFacts.get_set_same. }
    exists m'. rewrite E. split; [reflexivity | exact G'].
Qed.

Lemma releases_app n k id m :
  IdMutex.releases (n + k) id m =
  let '(ws, m1) := IdMutex.releases n id m in
  let '(ws', m2) := IdMutex.releases k id m1 in
  (ws ++ ws', m2).
Proof.
  revert m. induction n as [|n IH]; intro m.
  - cbn [Nat.add IdMutex.releases]. destruct (IdMutex.releases k id m). reflexivity.
  - cbn [Nat.add IdMutex.releases].
    destruct (IdMutex.release id m) as [[[w|]|e] m1].
    + rewrite IH. destruct (IdMutex.releases n id m1) as [ws m2].
      destruct (IdMutex.releases k id m2). reflexivity.
    + apply IH.
    + apply IH.
Qed.

Lemma releases_free k id m :
  JsMap.get m id = None -> IdMutex.releases k id m = ([], m).
Proof.
  intro G. induction k as [|k IH]; [reflexivity|].
  cbn [IdMutex.releases]. unfold IdMutex.release. rewrite G. exact IH.
Qed.

(** X5.  A caller that finds [id] held, with room in the queue, is not
    resumed by its own [lock]; the following [release] calls resume the
    callers queued before it in their order of arrival, then the caller
    itself, and nobody else; the [release] after that frees the id. *)
Theorem waiters_resume_in_arrival_order maxLength id w m e :
  JsMap.get m id = Some e ->
  IdMutex.locked e = true ->
  IdMutex.full maxLength (IdMutex.queue e) = false ->
  let m1 := snd (IdMutex.lock maxLength id w m) in
  fst (IdMutex.lock maxLength id w m) = false /\
  (forall k,
     fst (IdMutex.releases (S (List.length (IdMutex.queue e)) + k) id m1) =
     IdMutex.queue e ++ [w]) /\
  JsMap.get (snd (IdMutex.releases (S (S (List.length (IdMutex.queue e)))) id m1)) id = None.
Proof.
  intros G L F m1. subst m1. unfold IdMutex.lock. rewrite G, L, F. cbn [fst snd].
  split; [reflexivity|].
  set (m1 := JsMap.set m id _).
  destruct (releases_drain (IdMutex.queue e ++ [w]) id m1 true) as (m2 & E & G2).
  { apply JsMapFacts.get_set_same. }
  rewrite length_app in E. cbn [List.length] in E.
  replace (List.length (IdMutex.queue e) + 1)%nat with (S (List.length (IdMutex.queue e))) in E by lia.
  assert (R : IdMutex.release id m2 = (Ok None, JsMap.delete m2 id)).
  { unfold IdMutex.release. rewrite G2. reflexivity. }
  split.
  - intro k. rewrite releases_app, E.
    destruct k as [|k].
    + cbn [IdMutex.releases fst]. apply app_nil_r.
    + cbn [IdMutex.releases]. rewrite R.
      rewrite releases_free by apply JsMapFacts.get_delete_same.
      cbn [fst]. apply app_nil_r.
  - replace (S (S (List.length (IdMutex.queue e)))) with (S (List.length (IdMutex.queue e)) + 1)%nat by lia.
    rewrite releases_app, E. cbn [IdMutex.releases]. rewrite R. cbn [snd].
    apply JsMapFacts.get_delete_same.
Qed.

(** X6.  With a queue limit [n], a caller that finds [n] callers waiting
    empties the queue before joining it: the [n] earlier waiters are never
    resumed, whatever number of [release] calls follows. *)
Theorem full_queue_is_discarded n id w m e :
  JsMap.get m id = Some e ->
  IdMutex.locked e = true ->
  n <> 0%nat ->
  List.length (IdMutex.queue e) = n ->
  let m1 := snd (IdMutex.lock (Some n) id w m) in
  JsMap.get m1 id = Some (IdMutex.mkEntry [w] true) /\
  forall k, fst (IdMutex.releases (S k) id m1) = [w].
Proof.
  intros G L Hn Hl m1. subst m1. unfold IdMutex.lock. rewrite G, L.
  assert (F : IdMutex.full (Some n) (IdMutex.queue e) = true).
  { unfold IdMutex.full. rewrite Hl, Nat.eqb_refl.
    destruct (Nat.eqb_spec n 0); [contradiction | reflexivity]. }
  rewrite F. cbn [snd app].
  set (m1 := JsMap.set m id _).
  assert (G1 : JsMap.get m1 id = Some (IdMutex.mkEntry [w] true))
    by apply JsMapFacts.get_set_same.
  split; [exact G1|].
  intro k. cbn [IdMutex.releases]. unfold IdMutex.release at 1. rewrite G1.
  cbn [IdMutex.queue IdMutex.locked].
  destruct k as [|k]; [reflexivity|].
  cbn [IdMutex.releases]. unfold IdMutex.release at 1.
  rewrite JsMapFacts.get_set_same. cbn [IdMutex.queue].
  rewrite releases_free by apply JsMapFacts.get_delete_same. reflexivity.
Qed.

End IdMutexFacts.

Lemma waiters_resume_in_arrival_order_witness :
  fst (IdMutex.releases 3 "k"
         (snd (IdMutex.lock None "k" "c"%string
                 [("k"%string, IdMutex.mkEntry ["b"%string] true)]))) =
  ["b"%string; "c"%string].
Proof.
  apply (proj1 (proj2 (waiters_resume_in_arrival_order None "k" "c"%string
           [("k"%string, IdMutex.mkEntry ["b"%string] true)]
           (IdMutex.mkEntry ["b"%string] true) eq_refl eq_refl eq_refl)) 1%nat).
Defined.

Lemma full_queue_is_discarded_witness :
  fst (IdMutex.releases 2 "k"
         (snd (IdMutex.lock (Some 1%nat) "k" "c"%string
                 [("k"%string, IdMutex.mkEntry ["b"%string] true)]))) =
  ["c"%string].
Proof.
  apply (proj2 (full_queue_is_discarded 1 "k" "c"%string
           [("k"%string, IdMutex.mkEntry ["b"%string] true)]
           (IdMutex.mkEntry ["b"%string] true) eq_refl eq_refl
           (Nat.neq_succ_0 0) eq_refl) 1%nat).
Defined.

(** ** [UserService]: leverage, hedge mode and top-ups *)

Lemma find_setLeverageLocked ls user symbol side b :
  find (fun l => String.eqb (Leverage.user l) user && String.eqb (Leverage.symbol l) symbol &&
                 sideEq (Leverage.side l) side)
       (setLeverageLocked ls user symbol side b) =
  option_map (fun l => Leverage.mk (Leverage.user l) (Leverage.symbol l) (Leverage.side l)
                         (Leverage.leverage l) b)
    (find (fun l => String.eqb (Leverage.user l) user && String.eqb (Leverage.symbol l) symbol &&
                    sideEq (Leverage.side l) side) ls).
Proof.
  induction ls as [|l r IH]; [reflexivity|].
  cbn [setLeverageLocked find].
  destruct (String.eqb (Leverage.user l) user && String.eqb (Leverage.symbol l) symbol &&
            sideEq (Leverage.side l) side) eqn:E.
  - cbn [find Leverage.user Leverage.symbol Leverage.side]. rewrite E. reflexivity.
  - cbn [find]. rewrite E. exact IH.
Qed.

Lemma users_updateBalance user data s : users (updateBalance user data s) = users s.
Proof. unfold updateBalance. destruct data; reflexivity. Qed.

Lemma leverageModel_updateBalance user data s :
  leverageModel (updateBalance user data s) = leverageModel s.
Proof. unfold updateBalance. destruct data; reflexivity. Qed.

(** X7.  A fill for a user without a position on the symbol opens one and
    succeeds.  If the user has a leverage row for the order's symbol and
    position side, [changeLeverage] to any other value for that symbol and
    side is then refused with 400 "Cannot change leverage with active
    position", and nothing is written. *)
Theorem opened_position_freezes_leverage env order leverage symbol s key secret u l requested :
  getUserByKeyAndSecretOrThrow key secret s = (Ok u, s) ->
  User.id u = Order.user order ->
  findPosition (Order.symbol order) (Order.user order) (hedgeOf (Order.user order) s)
    (Order.positionSide order) s = None ->
  findLeverage (Order.user order) (Order.symbol order) (Order.positionSide order) s = Some l ->
  ~ Leverage.leverage l == requested ->
  exists s',
    processFuturesPosition env order leverage symbol s = (Ok tt, s') /\
    changeLeverage key secret (Order.symbol order) requested (Order.positionSide order) s' =
      (Throw (HttpException "Cannot change leverage with active position" 400), s').
Proof.
  intros Hu Hid Hp Hl Hne.
  assert (Hrun : exists s', processFuturesPosition env order leverage symbol s = (Ok tt, s')).
  { unfold processFuturesPosition. rewrite Hp.
    unfold createPosition. cbv beta zeta iota. eexists. reflexivity. }
  destruct Hrun as (s' & Hrun). exists s'. split; [exact Hrun|].
  assert (Es : s' = snd (processFuturesPosition env order leverage symbol s))
    by now rewrite Hrun.
  assert (Us : users s' = users s).
  { subst s'. unfold processFuturesPosition. rewrite Hp.
    unfold createPosition. cbv beta zeta iota. cbn [snd].
    rewrite users_updateBalance. reflexivity. }
  assert (Ls : leverageModel s' =
               setLeverageLocked (leverageModel s) (Order.user order) (Order.symbol order)
                 (Order.positionSide order) true).
  { subst s'. unfold processFuturesPosition. rewrite Hp.
    unfold createPosition. cbv beta zeta iota. cbn [snd].
    rewrite leverageModel_updateBalance. reflexivity. }
  clear Es Hrun.
  unfold changeLeverage, bind.
  assert (Hu' : getUserByKeyAndSecretOrThrow key secret s' = (Ok u, s')).
  { unfold getUserByKeyAndSecretOrThrow in *. rewrite Us.
    destruct (find _ (users s)); inversion Hu; subst; reflexivity. }
  rewrite Hu'. unfold findLeverage in *. rewrite Ls, Hid, find_setLeverageLocked, Hl.
  cbn [option_map Leverage.locked Leverage.leverage andb].
  destruct (Num.eqb (Leverage.leverage l) requested) eqn:E.
  - apply NumFacts.eqb_eq in E. contradiction.
  - reflexivity.
Qed.

Lemma find_setLeverageValue ls user symbol side v :
  find (fun l => String.eqb (Leverage.user l) user && String.eqb (Leverage.symbol l) symbol &&
                 sideEq (Leverage.side l) side)
       (setLeverageValue ls user symbol side v) =
  option_map (fun l => Leverage.mk (Leverage.user l) (Leverage.symbol l) (Leverage.side l)
                         v (Leverage.locked l))
    (find (fun l => String.eqb (Leverage.user l) user && String.eqb (Leverage.symbol l) symbol &&
                    sideEq (Leverage.side l) side) ls).
Proof.
  induction ls as [|l r IH]; [reflexivity|].
  cbn [setLeverageValue find].
  destruct (String.eqb (Leverage.user l) user && String.eqb (Leverage.symbol l) symbol &&
            sideEq (Leverage.side l) side) eqn:E.
  - cbn [find Leverage.user Leverage.symbol Leverage.side]. rewrite E. reflexivity.
  - cbn [find]. rewrite E. exact IH.
Qed.

Lemma find_none_existsb {A} (f : A -> bool) l : find f l = None -> existsb f l = false.
Proof.
  induction l as [|x r IH]; [reflexivity|]. cbn [find existsb].
  destruct (f x); [discriminate | exact IH].
Qed.

Lemma sideEq_refl side : sideEq side side = true.
Proof. destruct side as [[]|]; reflexivity. Qed.

(** X8.  Whenever [changeLeverage] succeeds it returns the requested value,
    and the leverage that [createOrder] then reads for a request on the same
    symbol and position side is that value; no further row is inserted. *)
Theorem changeLeverage_sets_what_createOrder_reads
    key secret symbol requested side s r s' u (order : CreateOrderDto.t) :
  getUserByKeyAndSecretOrThrow key secret s = (Ok u, s) ->
  changeLeverage key secret symbol requested side s = (Ok r, s') ->
  CreateOrderDto.symbol order = symbol ->
  CreateOrderDto.positionSide order = side ->
  r = requested /\
  exists leverage,
    ensureLeverage u order s' = (Ok leverage, s') /\ leverage == requested.
Proof.
  intros Hu Hc Hsym Hside. unfold changeLeverage, bind in Hc. rewrite Hu in Hc.
  unfold ensureLeverage. rewrite Hsym, Hside. unfold findLeverage in Hc.
  destruct (find _ (leverageModel s)) as [current|] eqn:F.
  - destruct (Leverage.locked current && negb (Num.eqb (Leverage.leverage current) requested)) eqn:G;
      [discriminate|].
    destruct (Num.eqb (Leverage.leverage current) requested) eqn:E; cbn [negb] in Hc.
    + inversion Hc; subst. split; [reflexivity|]. rewrite F.
      eexists. split; [reflexivity|]. apply NumFacts.eqb_eq. exact E.
    + inversion Hc; subst. split; [reflexivity|].
      cbn [leverageModel with_leverageModel]. rewrite find_setLeverageValue, F.
      cbn [option_map Leverage.leverage]. eexists. split; [reflexivity | reflexivity].
  - inversion Hc; subst. split; [reflexivity|].
    cbn [leverageModel with_leverageModel].
    rewrite find_app_none by (apply find_none_existsb; exact F).
    cbn [Leverage.user Leverage.symbol Leverage.side].
    rewrite !String.eqb_refl, sideEq_refl. cbn [andb Leverage.leverage].
    eexists. split; [reflexivity | reflexivity].
Qed.

Lemma hedgeOf_setHedge hs user hedge s :
  hedgeModel s = setHedge hs user hedge -> hedgeOf user s = hedge.
Proof.
  intro E. unfold hedgeOf. rewrite E. clear E.
  induction hs as [|h r IH]; cbn [setHedge find].
  - cbn [Hedge.user]. rewrite String.eqb_refl. reflexivity.
  - destruct (String.eqb (Hedge.user h) user) eqn:E.
    + cbn [find Hedge.user]. rewrite String.eqb_refl. reflexivity.
    + cbn [find]. rewrite E. exact IH.
Qed.

Lemma hedgeOf_setHedge_other hs user hedge s s0 user' :
  user' <> user ->
  hedgeModel s0 = hs ->
  hedgeModel s = setHedge hs user hedge -> hedgeOf user' s = hedgeOf user' s0.
Proof.
  intros Hne E0 E. unfold hedgeOf. rewrite E, E0. clear E E0.
  induction hs as [|h r IH]; cbn [setHedge find].
  - cbn [Hedge.user]. destruct (String.eqb_spec user user'); [congruence | reflexivity].
  - destruct (String.eqb (Hedge.user h) user) eqn:E.
    + apply String.eqb_eq in E. cbn [find Hedge.user]. rewrite E.
      destruct (String.eqb_spec user user'); [congruence | reflexivity].
    + cbn [find]. destruct (String.eqb (Hedge.user h) user'); [reflexivity | exact IH].
Qed.

(** X9.  [changeHedge] is refused with 400, leaving the state untouched,
    while the user has a stored position that is still open.  Without one it
    stores the setting: [getHedge] then returns it, the setting of every
    other user is kept, and balances, positions and leverage rows are not
    touched. *)
Theorem changeHedge_needs_no_open_position key secret hedge s u :
  getUserByKeyAndSecretOrThrow key secret s = (Ok u, s) ->
  ((exists p, In p (positionModel s) /\ Position.user p = User.id u /\
              Position.status p = PositionStatus.new) ->
   changeHedge key secret hedge s =
     (Throw (HttpException "Cannot change hedge with active position" 400), s)) /\
  ((forall p, In p (positionModel s) -> Position.user p = User.id u ->
              Position.status p = PositionStatus.closed) ->
   exists s',
     changeHedge key secret hedge s = (Ok hedge, s') /\
     getHedge key secret s' = (Ok hedge, s') /\
     (forall user', user' <> User.id u -> hedgeOf user' s' = hedgeOf user' s) /\
     wallets s' = wallets s /\ positionModel s' = positionModel s /\
     leverageModel s' = leverageModel s).
Proof.
  intro Hu. unfold changeHedge, bind. rewrite Hu. split.
  - intros (p & Hin & Hpu & Hst).
    destruct (filter _ (positionModel s)) as [|x r] eqn:F.
    + exfalso. assert (In p []) as [].
      rewrite <- F. apply filter_In. split; [exact Hin|].
      rewrite Hpu, String.eqb_refl, Hst. reflexivity.
    + reflexivity.
  - intro Hall.
    destruct (filter _ (positionModel s)) as [|x r] eqn:F.
    + cbn [List.length Nat.eqb negb]. eexists. split; [reflexivity|].
      split; [|split; [|repeat split]].
      * unfold getHedge, bind.
        assert (Hu' : forall h, getUserByKeyAndSecretOrThrow key secret (with_hedgeModel s h) =
                                (Ok u, with_hedgeModel s h)).
        { intro h. unfold getUserByKeyAndSecretOrThrow in *. cbn [users with_hedgeModel].
          destruct (find _ (users s)); inversion Hu; subst; reflexivity. }
        rewrite Hu'. unfold gets. f_equal. f_equal.
        eapply hedgeOf_setHedge. reflexivity.
      * intros user' Hne. eapply hedgeOf_setHedge_other; [exact Hne | reflexivity | reflexivity].
    + exfalso. assert (Hx : In x (x :: r)) by (left; reflexivity).
      rewrite <- F in Hx. apply filter_In in Hx. destruct Hx as [Hin Hx].
      apply andb_true_iff in Hx. destruct Hx as [Hx1 Hx2].
      apply String.eqb_eq in Hx1. specialize (Hall x Hin Hx1). rewrite Hall in Hx2. discriminate.
Qed.

(** X10.  [topUpUserBalance] refuses a negative amount with 400 and no
    change.  Otherwise it adds the amount to [free] of the user's row for
    the coin (creating the row if needed), leaves [locked] as it was, and
    changes no other wallet row, order or position. *)
Theorem topUp_credits_free_only key secret amount coin s u :
  getUserByKeyAndSecretOrThrow key secret s = (Ok u, s) ->
  (amount < 0 ->
   topUpUserBalance key secret amount coin s =
     (Throw (HttpException "Insufficient amount" 400), s)) /\
  (0 <= amount ->
   exists s',
     topUpUserBalance key secret amount coin s = (Ok true, s') /\
     freeOf (wallets s') (User.id u) coin == freeOf (wallets s) (User.id u) coin + amount /\
     lockedOf (wallets s') (User.id u) coin == lockedOf (wallets s) (User.id u) coin /\
     (forall user' asset', user' <> User.id u \/ asset' <> coin ->
        findWallet (wallets s') user' asset' = findWallet (wallets s) user' asset') /\
     orderModel s' = orderModel s /\ positionModel s' = positionModel s).
Proof.
  intro Hu. unfold topUpUserBalance, bind. rewrite Hu. split.
  - intro Hneg. apply NumFacts.ltb_lt in Hneg. rewrite Hneg. reflexivity.
  - intro Hpos. apply NumFacts.ltb_ge in Hpos. rewrite Hpos.
    unfold modify, ret. eexists. split; [reflexivity|].
    cbn [wallets orderModel positionModel with_wallets].
    split; [|split; [|split; [|split; reflexivity]]].
    + exact (freeOf_incWallet_same (wallets s) (User.id u) (BalanceUpdate.mk coin amount 0)).
    + pose proof (lockedOf_incWallet_same (wallets s) (User.id u) (BalanceUpdate.mk coin amount 0)) as H.
      cbn [BalanceUpdate.asset BalanceUpdate.locked] in H. rewrite H. ring.
    + intros user' asset' Hne.
      apply (findWallet_incWallet_other (wallets s) (User.id u) (BalanceUpdate.mk coin amount 0)).
      exact Hne.
Qed.

(** X11.  An order put into the projection is found again under its symbol
    and [externalId] and is gone after [removeOrder]; neither [setOrder] nor
    [removeOrder] changes what is found under any other symbol or
    [externalId]. *)
Theorem projection_set_get_remove order s :
  getOrderByExternalIdAndSymbol (Order.symbol order) (Order.externalId order)
    (setOrder order s) = Some order /\
  getOrderByExternalIdAndSymbol (Order.symbol order) (Order.externalId order)
    (removeOrder order (setOrder order s)) = None /\
  forall symbol externalId,
    symbol <> Order.symbol order \/ externalId <> Order.externalId order ->
    getOrderByExternalIdAndSymbol symbol externalId (setOrder order s) =
      getOrderByExternalIdAndSymbol symbol externalId s /\
    getOrderByExternalIdAndSymbol symbol externalId (removeOrder order s) =
      getOrderByExternalIdAndSymbol symbol externalId s.
Proof.
  split; [|split].
  - unfold getOrderByExternalIdAndSymbol, setOrder. cbn [currentOrders with_currentOrders].
    rewrite JsMapFacts.get_set_same. apply JsMapFacts.get_set_same.
  - apply getOrder_removeOrderAt.
  - intros symbol externalId Hne.
    unfold getOrderByExternalIdAndSymbol, setOrder, removeOrder, removeOrderAt.
    cbn [currentOrders with_currentOrders].
    destruct (String.eqb_spec (Order.symbol order) symbol) as [Es|Es].
    + subst symbol. destruct Hne as [Hne|Hne]; [congruence|].
      rewrite JsMapFacts.get_set_same.
      destruct (JsMap.get (currentOrders s) (Order.symbol order)) as [m|] eqn:G.
      * cbn [currentOrders with_currentOrders]. rewrite JsMapFacts.get_set_same.
        split; [apply JsMapFacts.get_set_other | apply JsMapFacts.get_delete_other]; congruence.
      * rewrite G. split; [|reflexivity].
        rewrite JsMapFacts.get_set_other by congruence. reflexivity.
    + rewrite JsMapFacts.get_set_other by exact Es.
      split; [reflexivity|].
      destruct (JsMap.get (currentOrders s) (Order.symbol order)) as [m|] eqn:G.
      * cbn [currentOrders with_currentOrders]. rewrite JsMapFacts.get_set_other by exact Es.
        reflexivity.
      * reflexivity.
Qed.

Lemma opened_position_freezes_leverage_witness :
  exists s',
    processFuturesPosition (Scenario.envAt (Some 100)) Cases.longOpen 10
      Scenario.btcusdt Scenario.leveraged = (Ok tt, s') /\
    changeLeverage "key1" "secret1" "BTCUSDT" 20 None s' =
      (Throw (HttpException "Cannot change leverage with active position" 400), s').
Proof.
  apply (opened_position_freezes_leverage (Scenario.envAt (Some 100)) Cases.longOpen 10
           Scenario.btcusdt Scenario.leveraged "key1" "secret1" Scenario.alice
           (Leverage.mk "u1" "BTCUSDT" None 10 false) 20);
    try reflexivity.
  vm_compute. discriminate.
Defined.

Lemma changeLeverage_sets_what_createOrder_reads_witness :
  exists leverage,
    ensureLeverage Scenario.alice Scenario.thinOpen
      (snd (changeLeverage "key1" "secret1" "BTCUSDT" 20 None Scenario.leveraged)) =
      (Ok leverage, snd (changeLeverage "key1" "secret1" "BTCUSDT" 20 None Scenario.leveraged)) /\
    leverage == 20.
Proof.
  apply (changeLeverage_sets_what_createOrder_reads "key1" "secret1" "BTCUSDT" 20 None
           Scenario.leveraged 20
           (snd (changeLeverage "key1" "secret1" "BTCUSDT" 20 None Scenario.leveraged))
           Scenario.alice Scenario.thinOpen); reflexivity.
Defined.

Lemma changeHedge_needs_no_open_position_witness :
  changeHedge "key1" "secret1" true Cases.holding =
    (Throw (HttpException "Cannot change hedge with active position" 400), Cases.holding) /\
  exists s',
    changeHedge "key1" "secret1" true Scenario.spotStart = (Ok true, s') /\
    getHedge "key1" "secret1" s' = (Ok true, s').
Proof.
  split.
  - apply (proj1 (changeHedge_needs_no_open_position "key1" "secret1" true
                    Cases.holding Scenario.alice eq_refl)).
    exists Cases.longPosition. split; [left; reflexivity|]. split; reflexivity.
  - destruct (proj2 (changeHedge_needs_no_open_position "key1" "secret1" true
                       Scenario.spotStart Scenario.alice eq_refl)) as (s' & H1 & H2 & _).
    + intros p [].
    + exists s'. split; assumption.
Defined.

Lemma topUp_credits_free_only_witness :
  topUpUserBalance "key1" "secret1" (-1) "USDT" Scenario.spotStart =
    (Throw (HttpException "Insufficient amount" 400), Scenario.spotStart) /\
  exists s',
    topUpUserBalance "key1" "secret1" 5 "USDT" Scenario.spotStart = (Ok true, s') /\
    freeOf (wallets s') "u1" "USDT" == 10005.
Proof.
  split.
  - apply (proj1 (topUp_credits_free_only "key1" "secret1" (-1) "USDT"
                    Scenario.spotStart Scenario.alice eq_refl)).
    reflexivity.
  - destruct (proj2 (topUp_credits_free_only "key1" "secret1" 5 "USDT"
                       Scenario.spotStart Scenario.alice eq_refl)) as (s' & H1 & H2 & _).
    + discriminate.
    + exists s'. split; [exact H1|]. rewrite H2. reflexivity.
Defined.

Lemma projection_set_get_remove_witness :
  getOrderByExternalIdAndSymbol "ETHUSDT" "limit1" (setOrder Scenario.limit1 Scenario.spotStart) =
    getOrderByExternalIdAndSymbol "ETHUSDT" "limit1" Scenario.spotStart.
Proof.
  apply (proj2 (proj2 (projection_set_get_remove Scenario.limit1 Scenario.spotStart))
           "ETHUSDT"%string "limit1"%string).
  left. discriminate.
Defined.

(** ** Start-up: the projection and the watch set *)

Lemma getOrder_setOrder_same order s :
  getOrderByExternalIdAndSymbol (Order.symbol order) (Order.externalId order)
    (setOrder order s) = Some order.
Proof.
  unfold getOrderByExternalIdAndSymbol, setOrder. cbn [currentOrders with_currentOrders].
  rewrite JsMapFacts.get_set_same. apply JsMapFacts.get_set_same.
Qed.

Lemma getOrder_setOrder_other order s symbol externalId :
  symbol <> Order.symbol order \/ externalId <> Order.externalId order ->
  getOrderByExternalIdAndSymbol symbol externalId (setOrder order s) =
  getOrderByExternalIdAndSymbol symbol externalId s.
Proof.
  intro Hne. unfold getOrderByExternalIdAndSymbol, setOrder.
  cbn [currentOrders with_currentOrders].
  destruct (String.eqb_spec (Order.symbol order) symbol) as [Es|Es].
  - subst symbol. destruct Hne as [Hne|Hne]; [congruence|].
    rewrite JsMapFacts.get_set_same.
    destruct (JsMap.get (currentOrders s) (Order.symbol order)) as [m|] eqn:G.
    + apply JsMapFacts.get_set_other. congruence.
    + rewrite JsMapFacts.get_set_other by congruence. reflexivity.
  - rewrite JsMapFacts.get_set_other by exact Es. reflexivity.
Qed.


Lemma getPosition_setPosition_same p s :
  match JsMap.get (currentPositions (setPosition p s)) (Position.symbol p) with
  | Some m => JsMap.get m (Position.uuid p)
  | None => None
  end = Some p.
Proof.
  unfold setPosition. cbn [currentPositions with_currentPositions].
  rewrite JsMapFacts.get_set_same. apply JsMapFacts.get_set_same.
Qed.

Lemma getPosition_setPosition_other p s symbol uuid :
  symbol <> Position.symbol p \/ uuid <> Position.uuid p ->
  match JsMap.get (currentPositions (setPosition p s)) symbol with
  | Some m => JsMap.get m uuid
  | None => None
  end =
  match JsMap.get (currentPositions s) symbol with
  | Some m => JsMap.get m uuid
  | None => None
  end.
Proof.
  intro Hne. unfold setPosition. cbn [currentPositions with_currentPositions].
  destruct (String.eqb_spec (Position.symbol p) symbol) as [Es|Es].
  - subst symbol. destruct Hne as [Hne|Hne]; [congruence|].
    rewrite JsMapFacts.get_set_same.
    destruct (JsMap.get (currentPositions s) (Position.symbol p)) as [m|] eqn:G.
    + apply JsMapFacts.get_set_other. congruence.
    + rewrite JsMapFacts.get_set_other by congruence. reflexivity.
  - rewrite JsMapFacts.get_set_other by exact Es. reflexivity.
Qed.

Lemma get_In_values {V} (m : JsMap.t V) k v : JsMap.get m k = Some v -> In v (JsMap.values m).
Proof.
  induction m as [|[k' v'] r IH]; [discriminate|]. cbn [JsMap.get JsMap.values map snd].
  destruct (String.eqb k' k).
  - intro H. injection H as ->. left. reflexivity.
  - intro H. right. apply IH. exact H.
Qed.

Lemma has_add_same w x : JsSet.has (JsSet.add w x) x = true.
Proof.
  unfold JsSet.add. destruct (JsSet.has w x) eqn:E; [exact E|].
  unfold JsSet.has. rewrite existsb_app. cbn [existsb]. rewrite String.eqb_refl.
  rewrite orb_true_r. reflexivity.
Qed.

Lemma has_add_mono w x y : JsSet.has w y = true -> JsSet.has (JsSet.add w x) y = true.
Proof.
  intro H. unfold JsSet.add. destruct (JsSet.has w x); [exact H|].
  unfold JsSet.has in *. rewrite existsb_app, H. reflexivity.
Qed.

Lemma watchSet_watchAdd_same sym id s : JsSet.has (watchSet sym (watchAdd sym id s)) id = true.
Proof.
  unfold watchAdd. unfold watchSet at 1. cbn [watchSymbols with_watchSymbols].
  rewrite JsMapFacts.get_set_same. apply has_add_same.
Qed.

Lemma watchSet_watchAdd_mono sym id s sym' id' :
  JsSet.has (watchSet sym' s) id' = true ->
  JsSet.has (watchSet sym' (watchAdd sym id s)) id' = true.
Proof.
  intro H. unfold watchAdd. unfold watchSet at 1. cbn [watchSymbols with_watchSymbols].
  destruct (String.eqb_spec sym sym') as [->|Hne].
  - rewrite JsMapFacts.get_set_same. apply has_add_mono. exact H.
  - rewrite JsMapFacts.get_set_other by exact Hne. exact H.
Qed.

Lemma checkOrdersInDb_app l x s :
  checkOrdersInDb (l ++ [x]) s =
  pushPosition x
    (watchAdd (symKey (Order.symbol x) (Order.exchange x)) (Order.externalId x)
       (checkOrdersInDb l s)).
Proof. unfold checkOrdersInDb. rewrite fold_left_app. reflexivity. Qed.

Lemma checkPositionsInDb_app l x s :
  checkPositionsInDb (l ++ [x]) s =
  pushFuturePosition x
    (watchAdd (symKey (Position.symbol x) (Position.exchange x)) (Position.id x)
       (checkPositionsInDb l s)).
Proof. unfold checkPositionsInDb. rewrite fold_left_app. reflexivity. Qed.

Lemma checkOrdersInDb_spec orders : forall s o,
  (forall a b, In a orders -> In b orders ->
     Order.symbol a = Order.symbol b -> Order.externalId a = Order.externalId b -> a = b) ->
  In o orders ->
  getOrderByExternalIdAndSymbol (Order.symbol o) (Order.externalId o)
    (checkOrdersInDb orders s) = Some (mapOrderDocumentToDataType o) /\
  JsSet.has (watchSet (symKey (Order.symbol o) (Order.exchange o)) (checkOrdersInDb orders s))
    (Order.externalId o) = true.
Proof.
  induction orders as [|x l IH] using rev_ind; intros s o Huniq Hin; [destruct Hin|].
  rewrite checkOrdersInDb_app. unfold pushPosition.
  destruct (String.eqb_spec (Order.symbol o) (Order.symbol x)) as [Es|Es];
  [destruct (String.eqb_spec (Order.externalId o) (Order.externalId x)) as [Ee|Ee]|].
  - assert (o = x) by (apply Huniq; auto using in_or_app, in_eq; apply in_or_app; right; left; reflexivity).
    subst x. split.
    + apply (getOrder_setOrder_same (mapOrderDocumentToDataType o)).
    + unfold watchSet, setOrder. cbn [watchSymbols with_currentOrders].
      apply watchSet_watchAdd_same.
  - apply in_app_or in Hin. destruct Hin as [Hin|[->|[]]]; [|congruence].
    destruct (IH s o) as [G Wt]; [intros; apply Huniq; auto using in_or_app | exact Hin |].
    split.
    + rewrite getOrder_setOrder_other by (right; exact Ee).
      unfold getOrderByExternalIdAndSymbol, watchAdd. cbn [currentOrders with_watchSymbols].
      exact G.
    + unfold watchSet, setOrder. cbn [watchSymbols with_currentOrders].
      apply watchSet_watchAdd_mono. exact Wt.
  - apply in_app_or in Hin. destruct Hin as [Hin|[->|[]]]; [|congruence].
    destruct (IH s o) as [G Wt]; [intros; apply Huniq; auto using in_or_app | exact Hin |].
    split.
    + rewrite getOrder_setOrder_other by (left; exact Es).
      unfold getOrderByExternalIdAndSymbol, watchAdd. cbn [currentOrders with_watchSymbols].
      exact G.
    + unfold watchSet, setOrder. cbn [watchSymbols with_currentOrders].
      apply watchSet_watchAdd_mono. exact Wt.
Qed.

Lemma checkPositionsInDb_spec positions : forall s p,
  (forall a b, In a positions -> In b positions ->
     Position.symbol a = Position.symbol b -> Position.uuid a = Position.uuid b -> a = b) ->
  In p positions ->
  match JsMap.get (currentPositions (checkPositionsInDb positions s)) (Position.symbol p) with
  | Some m => JsMap.get m (Position.uuid p)
  | None => None
  end = Some p /\
  JsSet.has (watchSet (symKey (Position.symbol p) (Position.exchange p))
               (checkPositionsInDb positions s))
    (Position.id p) = true.
Proof.
  induction positions as [|x l IH] using rev_ind; intros s p Huniq Hin; [destruct Hin|].
  rewrite checkPositionsInDb_app. unfold pushFuturePosition, mapPositionToDataType.
  destruct (String.eqb_spec (Position.symbol p) (Position.symbol x)) as [Es|Es];
  [destruct (String.eqb_spec (Position.uuid p) (Position.uuid x)) as [Ee|Ee]|].
  - assert (p = x) by (apply Huniq; auto using in_or_app, in_eq; apply in_or_app; right; left; reflexivity).
    subst x. split.
    + apply getPosition_setPosition_same.
    + unfold watchSet, setPosition. cbn [watchSymbols with_currentPositions].
      apply watchSet_watchAdd_same.
  - apply in_app_or in Hin. destruct Hin as [Hin|[->|[]]]; [|congruence].
    destruct (IH s p) as [G Wt]; [intros; apply Huniq; auto using in_or_app | exact Hin |].
    split.
    + rewrite getPosition_setPosition_other by (right; exact Ee).
      unfold watchAdd. cbn [currentPositions with_watchSymbols]. exact G.
    + unfold watchSet, setPosition. cbn [watchSymbols with_currentPositions].
      apply watchSet_watchAdd_mono. exact Wt.
  - apply in_app_or in Hin. destruct Hin as [Hin|[->|[]]]; [|congruence].
    destruct (IH s p) as [G Wt]; [intros; apply Huniq; auto using in_or_app | exact Hin |].
    split.
    + rewrite getPosition_setPosition_other by (left; exact Es).
      unfold watchAdd. cbn [currentPositions with_watchSymbols]. exact G.
    + unfold watchSet, setPosition. cbn [watchSymbols with_currentPositions].
      apply watchSet_watchAdd_mono. exact Wt.
Qed.

Lemma checkPositionsInDb_orders positions : forall s,
  currentOrders (checkPositionsInDb positions s) = currentOrders s.
Proof.
  induction positions as [|x l IH] using rev_ind; intro s; [reflexivity|].
  rewrite checkPositionsInDb_app. unfold pushFuturePosition, setPosition, watchAdd.
  cbn [currentOrders with_currentPositions with_watchSymbols]. apply IH.
Qed.

Lemma checkPositionsInDb_watch positions : forall s sym id,
  JsSet.has (watchSet sym s) id = true ->
  JsSet.has (watchSet sym (checkPositionsInDb positions s)) id = true.
Proof.
  induction positions as [|x l IH] using rev_ind; intros s sym id H; [exact H|].
  rewrite checkPositionsInDb_app. unfold pushFuturePosition.
  unfold watchSet, setPosition. cbn [watchSymbols with_currentPositions].
  apply watchSet_watchAdd_mono. apply IH. exact H.
Qed.

(** X12.  After the start-up rebuild, every stored LIMIT order with status
    NEW or PARTIALLY_FILLED is in the projection under its symbol and
    [externalId] (as mapped, that is without its [feePerc]) and its
    [externalId] is in the watch set of its [symbol@exchange]; every stored
    open position is among the projected positions of its symbol and its id
    is in the watch set.  The keys are those the unique indexes of the
    collections guarantee. *)
Theorem startup_rebuilds_projection_and_watch_set s :
  (forall a b, In a (orderModel s) -> In b (orderModel s) ->
     Order.symbol a = Order.symbol b -> Order.externalId a = Order.externalId b -> a = b) ->
  (forall a b, In a (positionModel s) -> In b (positionModel s) ->
     Position.symbol a = Position.symbol b -> Position.uuid a = Position.uuid b -> a = b) ->
  let s' := checkPositionsInDb (snd (getOpenOrdersAndPositions s))
              (checkOrdersInDb (fst (getOpenOrdersAndPositions s)) s) in
  (forall o, In o (orderModel s) ->
     Order.type o = OrderType.LIMIT ->
     Order.status o = OrderStatus.CREATED \/ Order.status o = OrderStatus.PARTIALLY_FILLED ->
     getOrderByExternalIdAndSymbol (Order.symbol o) (Order.externalId o) s' =
       Some (mapOrderDocumentToDataType o) /\
     JsSet.has (watchSet (symKey (Order.symbol o) (Order.exchange o)) s')
       (Order.externalId o) = true) /\
  (forall p, In p (positionModel s) ->
     Position.status p = PositionStatus.new ->
     In p (getPositionsBySymbols [Position.symbol p] (currentPositions s')) /\
     JsSet.has (watchSet (symKey (Position.symbol p) (Position.exchange p)) s')
       (Position.id p) = true).
Proof.
  intros Uo Up s'. subst s'. cbn [getOpenOrdersAndPositions fst snd]. split.
  - intros o Hin Ht Hs.
    assert (Hf : In o (filter openLimitStored (orderModel s))).
    { apply filter_In. split; [exact Hin|]. unfold openLimitStored. rewrite Ht.
      destruct Hs as [-> | ->]; reflexivity. }
    destruct (checkOrdersInDb_spec (filter openLimitStored (orderModel s)) s o) as [G Wt];
      [|exact Hf|].
    { intros a b Ha Hb. apply filter_In in Ha, Hb. apply Uo; tauto. }
    split.
    + unfold getOrderByExternalIdAndSymbol. rewrite checkPositionsInDb_orders. exact G.
    + apply checkPositionsInDb_watch. exact Wt.
  - intros p Hin Hs.
    set (positions := filter _ (positionModel s)).
    assert (Hf : In p positions).
    { apply filter_In. split; [exact Hin|]. rewrite Hs. reflexivity. }
    destruct (checkPositionsInDb_spec positions
                (checkOrdersInDb (filter openLimitStored (orderModel s)) s) p) as [G Wt];
      [|exact Hf|].
    { intros a b Ha Hb. apply filter_In in Ha, Hb. apply Up; tauto. }
    split; [|exact Wt].
    unfold getPositionsBySymbols. cbn [flat_map]. rewrite app_nil_r.
    destruct (JsMap.get _ (Position.symbol p)) as [m|]; [|discriminate].
    eapply get_In_values. exact G.
Qed.

Lemma startup_rebuilds_projection_and_watch_set_witness :
  let s' := checkPositionsInDb (snd (getOpenOrdersAndPositions Cases.stored))
              (checkOrdersInDb (fst (getOpenOrdersAndPositions Cases.stored)) Cases.stored) in
  getOrderByExternalIdAndSymbol "BTCUSDT" "add" s' =
    Some (mapOrderDocumentToDataType Cases.restingBuy) /\
  In Cases.longPosition (getPositionsBySymbols ["BTCUSDT"%string] (currentPositions s')).
Proof.
  intro s'.
  assert (Uo : forall a b, In a (orderModel Cases.stored) -> In b (orderModel Cases.stored) ->
     Order.symbol a = Order.symbol b -> Order.externalId a = Order.externalId b -> a = b).
  { intros a b Ha Hb _.
    destruct Ha as [<-|[<-|[]]]; destruct Hb as [<-|[<-|[]]];
      intro E; try reflexivity; discriminate E. }
  assert (Up : forall a b, In a (positionModel Cases.stored) ->
     In b (positionModel Cases.stored) ->
     Position.symbol a = Position.symbol b -> Position.uuid a = Position.uuid b -> a = b).
  { intros a b Ha Hb _ _. destruct Ha as [<-|[]]; destruct Hb as [<-|[]]. reflexivity. }
  destruct (startup_rebuilds_projection_and_watch_set Cases.stored Uo Up) as [Ho Hp].
  split.
  - apply (Ho Cases.restingBuy); [right; left; reflexivity | reflexivity | left; reflexivity].
  - apply (Hp Cases.longPosition); [left; reflexivity | reflexivity].
Defined.

(** ** Start-up: the reconciliation of the locked balances *)

Lemma fold_left_fixed {A B} (f : A -> B -> A) l a :
  (forall b, In b l -> f a b = a) -> fold_left f l a = a.
Proof.
  induction l as [|x r IH]; intro H; [reflexivity|].
  cbn [fold_left]. rewrite (H x) by (left; reflexivity).
  apply IH. intros b Hb. apply H. right. exact Hb.
Qed.

(** X13.  When [locked] of every wallet row already equals the reservation
    computed from the given open orders and positions ([0] where nothing is
    computed), the start-up reconciliation writes nothing: the state is
    unchanged. *)
Theorem reconciliation_keeps_consistent_balances env orders positions s :
  (forall w, In w (wallets s) ->
     Wallet.locked w ==
     computedLocked env orders positions (Wallet.user w) (Wallet.asset w)) ->
  updateBalances env orders positions s = s.
Proof.
  intro Hall. unfold updateBalances. apply fold_left_fixed. intros u _.
  unfold reconcileUser. apply fold_left_fixed. intros b Hb.
  unfold getUserBalanceByUserIdOrThrow in Hb. apply filter_In in Hb.
  destruct Hb as [Hin Hu]. rewrite andb_true_r in Hu. apply String.eqb_eq in Hu.
  specialize (Hall b Hin). unfold computedLocked in Hall. rewrite Hu in Hall.
  unfold reconcileRow.
  destruct (JsMap.get (lockedBalancesOf env orders positions) (User.id u)) as [v|].
  - destruct (JsMap.get v (Wallet.asset b)) as [f|].
    + destruct (Num.truthy f) eqn:T.
      * assert (E : Num.eqb f (Wallet.locked b) = true)
          by (apply NumFacts.eqb_eq; symmetry; exact Hall).
        rewrite E. reflexivity.
      * apply NumFacts.truthy_false in T.
        assert (E : Num.eqb (Wallet.locked b) 0 = true)
          by (apply NumFacts.eqb_eq; rewrite Hall; exact T).
        rewrite E. reflexivity.
    + assert (E : Num.eqb (Wallet.locked b) 0 = true) by (apply NumFacts.eqb_eq; exact Hall).
      rewrite E. reflexivity.
  - assert (E : Num.eqb (Wallet.locked b) 0 = true) by (apply NumFacts.eqb_eq; exact Hall).
    rewrite E. reflexivity.
Qed.



Lemma rows_incWallet_other ws u u' upd :
  u <> u' ->
  getUserBalanceByUserIdOrThrow u [] (incWallet ws u' upd) =
  getUserBalanceByUserIdOrThrow u [] ws.
Proof.
  intro Hne. unfold getUserBalanceByUserIdOrThrow.
  induction ws as [|w r IH]; cbn [incWallet filter].
  - cbn [Wallet.user]. destruct (String.eqb_spec u' u); [congruence | reflexivity].
  - destruct (String.eqb (Wallet.user w) u' && String.eqb (Wallet.asset w) (BalanceUpdate.asset upd)) eqn:E.
    + apply andb_true_iff in E. destruct E as [E _]. apply String.eqb_eq in E.
      cbn [filter Wallet.user]. rewrite E.
      destruct (String.eqb_spec u' u); [congruence | reflexivity].
    + cbn [filter]. rewrite IH. reflexivity.
Qed.

Lemma rows_setUserBalance_other ws u u' upd :
  u <> u' ->
  getUserBalanceByUserIdOrThrow u [] (setUserBalance ws u' upd) =
  getUserBalanceByUserIdOrThrow u [] ws.
Proof.
  intro Hne. unfold getUserBalanceByUserIdOrThrow.
  induction ws as [|w r IH]; cbn [setUserBalance filter].
  - cbn [Wallet.user]. destruct (String.eqb_spec u' u); [congruence | reflexivity].
  - destruct (String.eqb (Wallet.user w) u' && String.eqb (Wallet.asset w) (BalanceUpdate.asset upd)) eqn:E.
    + apply andb_true_iff in E. destruct E as [E _]. apply String.eqb_eq in E.
      cbn [filter Wallet.user]. rewrite E.
      destruct (String.eqb_spec u' u); [congruence | reflexivity].
    + cbn [filter]. rewrite IH. reflexivity.
Qed.

Lemma findWallet_setUserBalance_same ws user upd :
  findWallet (setUserBalance ws user upd) user (BalanceUpdate.asset upd) =
  Some (Wallet.mk user (BalanceUpdate.asset upd) (BalanceUpdate.free upd) (BalanceUpdate.locked upd)).
Proof.
  unfold findWallet. induction ws as [|w r IH]; cbn [setUserBalance find].
  - cbn [Wallet.user Wallet.asset]. rewrite !String.eqb_refl. reflexivity.
  - destruct (String.eqb (Wallet.user w) user && String.eqb (Wallet.asset w) (BalanceUpdate.asset upd)) eqn:E.
    + cbn [find Wallet.user Wallet.asset]. rewrite E.
      apply andb_true_iff in E. destruct E as [E1 E2].
      apply String.eqb_eq in E1, E2. rewrite E1, E2. reflexivity.
    + cbn [find]. rewrite E. exact IH.
Qed.

Lemma findWallet_setUserBalance_other ws user upd user' asset' :
  user' <> user \/ asset' <> BalanceUpdate.asset upd ->
  findWallet (setUserBalance ws user upd) user' asset' = findWallet ws user' asset'.
Proof.
  intro Hne. unfold findWallet.
  assert (Hk : forall a b, String.eqb a user && String.eqb b (BalanceUpdate.asset upd) = true ->
                 String.eqb a user' && String.eqb b asset' = false).
  { intros a b H. apply andb_true_iff in H. destruct H as [Ha Hb].
    apply String.eqb_eq in Ha, Hb. subst.
    destruct (String.eqb_spec user user'); destruct (String.eqb_spec (BalanceUpdate.asset upd) asset');
      try reflexivity. subst. destruct Hne; congruence. }
  induction ws as [|w r IH]; cbn [setUserBalance find].
  - cbn [Wallet.user Wallet.asset]. rewrite (Hk user (BalanceUpdate.asset upd)); [reflexivity|].
    rewrite !String.eqb_refl. reflexivity.
  - destruct (String.eqb (Wallet.user w) user && String.eqb (Wallet.asset w) (BalanceUpdate.asset upd)) eqn:E.
    + cbn [find Wallet.user Wallet.asset]. rewrite (Hk _ _ E). reflexivity.
    + cbn [find]. destruct (String.eqb (Wallet.user w) user' && String.eqb (Wallet.asset w) asset');
        [reflexivity | exact IH].
Qed.


Lemma reconcileRow_wallets u v s b :
  wallets (reconcileRow u v s b) = wallets s \/
  (exists d, wallets (reconcileRow u v s b) =
             incWallet (wallets s) u (BalanceUpdate.mk (Wallet.asset b) d (- d))) \/
  wallets (reconcileRow u v s b) =
    setUserBalance (wallets s) u (BalanceUpdate.mk (Wallet.asset b) (unlockedFree b) 0).
Proof.
  unfold reconcileRow.
  destruct v as [v|]; [destruct (JsMap.get v (Wallet.asset b)) as [f|]; [destruct (Num.truthy f)|]|].
  - destruct (negb (Num.eqb f (Wallet.locked b))); [|left; reflexivity].
    right; left. eexists. reflexivity.
  - destruct (negb (Num.eqb (Wallet.locked b) 0)); [right; right|left]; reflexivity.
  - destruct (negb (Num.eqb (Wallet.locked b) 0)); [right; right|left]; reflexivity.
  - destruct (negb (Num.eqb (Wallet.locked b) 0)); [right; right|left]; reflexivity.
Qed.

Lemma reconcileRow_rows_other u u' v s b :
  u <> u' ->
  getUserBalanceByUserIdOrThrow u [] (wallets (reconcileRow u' v s b)) =
  getUserBalanceByUserIdOrThrow u [] (wallets s).
Proof.
  intro Hne. destruct (reconcileRow_wallets u' v s b) as [E|[[d E]|E]]; rewrite E.
  - reflexivity.
  - apply rows_incWallet_other. exact Hne.
  - apply rows_setUserBalance_other. exact Hne.
Qed.

Lemma reconcileRow_find_other u v s b a' :
  a' <> Wallet.asset b ->
  findWallet (wallets (reconcileRow u v s b)) u a' = findWallet (wallets s) u a'.
Proof.
  intro Hne. destruct (reconcileRow_wallets u v s b) as [E|[[d E]|E]]; rewrite E.
  - reflexivity.
  - apply findWallet_incWallet_other. right. exact Hne.
  - apply findWallet_setUserBalance_other. right. exact Hne.
Qed.

Lemma reset_find_same u s b c :
  findWallet (wallets s) u (Wallet.asset b) = Some b ->
  0 == c ->
  exists b',
    findWallet
      (wallets
         (if negb (Num.eqb (Wallet.locked b) 0)
          then with_wallets s
                 (setUserBalance (wallets s) u
                    (BalanceUpdate.mk (Wallet.asset b) (unlockedFree b) 0))
          else s)) u (Wallet.asset b) = Some b' /\
    Wallet.locked b' == c /\
    Wallet.free b' == unlockedFree b.
Proof.
  intros Hf Hc. destruct (Num.eqb (Wallet.locked b) 0) eqn:E; cbn [negb].
  - exists b. split; [exact Hf|]. apply NumFacts.eqb_eq in E. split.
    + rewrite E. exact Hc.
    + unfold unlockedFree.
      destruct (Num.ltb (Wallet.locked b) 0); [ring | rewrite E; ring].
  - cbn [wallets with_wallets].
    pose proof (findWallet_setUserBalance_same (wallets s) u
                  (BalanceUpdate.mk (Wallet.asset b) (unlockedFree b) 0)) as Hs.
    cbn [BalanceUpdate.asset BalanceUpdate.free BalanceUpdate.locked] in Hs. rewrite Hs.
    eexists. split; [reflexivity|]. cbn [Wallet.locked Wallet.free].
    split; [exact Hc | reflexivity].
Qed.

Lemma reconcileRow_find_same u v s b :
  findWallet (wallets s) u (Wallet.asset b) = Some b ->
  let c := match v with
           | Some v => match JsMap.get v (Wallet.asset b) with Some x => x | None => 0 end
           | None => 0
           end in
  exists b',
    findWallet (wallets (reconcileRow u v s b)) u (Wallet.asset b) = Some b' /\
    Wallet.locked b' == c /\
    Wallet.free b' ==
      (if Num.truthy c then Wallet.free b + Wallet.locked b - c else unlockedFree b).
Proof.
  intros Hf c. unfold reconcileRow. subst c.
  destruct v as [v|]; [destruct (JsMap.get v (Wallet.asset b)) as [f|]|].
  - destruct (Num.truthy f) eqn:T.
    + destruct (Num.eqb f (Wallet.locked b)) eqn:E; cbn [negb].
      * exists b. split; [exact Hf|]. apply NumFacts.eqb_eq in E. split; [symmetry; exact E|].
        rewrite E. ring.
      * unfold updateBalance. cbn [wallets with_wallets increaseUserBalance fold_left].
        destruct (findWallet_incWallet_same (wallets s) u
                    (BalanceUpdate.mk (Wallet.asset b) (Wallet.locked b - f)
                       (- (Wallet.locked b - f)))) as (w & Hw & Hfree & Hlocked).
        cbn [BalanceUpdate.asset BalanceUpdate.free BalanceUpdate.locked] in Hw, Hfree, Hlocked.
        unfold freeOf, lockedOf in Hfree, Hlocked. rewrite Hf in Hfree, Hlocked.
        exists w. split; [exact Hw|]. split; [rewrite Hlocked; ring | rewrite Hfree; ring].
    + apply reset_find_same; [exact Hf|]. apply NumFacts.truthy_false in T. symmetry. exact T.
  - change (Num.truthy 0) with false. cbv iota. apply reset_find_same; [exact Hf | reflexivity].
  - change (Num.truthy 0) with false. cbv iota. apply reset_find_same; [exact Hf | reflexivity].
Qed.

Lemma fold_rows_find u v rows : forall s,
  NoDup (map Wallet.asset rows) ->
  (forall b, In b rows -> findWallet (wallets s) u (Wallet.asset b) = Some b) ->
  (forall a', ~ In a' (map Wallet.asset rows) ->
     findWallet (wallets (fold_left (reconcileRow u v) rows s)) u a' =
     findWallet (wallets s) u a') /\
  (forall b, In b rows ->
     exists b',
       findWallet (wallets (fold_left (reconcileRow u v) rows s)) u (Wallet.asset b) = Some b' /\
       Wallet.locked b' ==
         match v with
         | Some v => match JsMap.get v (Wallet.asset b) with Some x => x | None => 0 end
         | None => 0
         end /\
       Wallet.free b' ==
         (if Num.truthy
               match v with
               | Some v => match JsMap.get v (Wallet.asset b) with Some x => x | None => 0 end
               | None => 0
               end
          then Wallet.free b + Wallet.locked b -
               match v with
               | Some v => match JsMap.get v (Wallet.asset b) with Some x => x | None => 0 end
               | None => 0
               end
          else unlockedFree b)).
Proof.
  induction rows as [|b0 r IH]; intros s Hnd Hfind.
  - split; [reflexivity | intros b []].
  - cbn [map] in Hnd. inversion Hnd as [|? ? Hnotin Hnd']; subst.
    cbn [fold_left].
    destruct (IH (reconcileRow u v s b0) Hnd') as [IHo IHs].
    { intros b Hb. rewrite reconcileRow_find_other; [apply Hfind; right; exact Hb|].
      intro E. apply Hnotin. rewrite <- E. apply in_map. exact Hb. }
    split.
    + intros a' Ha. rewrite IHo by (intro H; apply Ha; right; exact H).
      apply reconcileRow_find_other. intro E. apply Ha. left. symmetry. exact E.
    + intros b [->|Hb].
      * rewrite IHo by exact Hnotin.
        apply reconcileRow_find_same. apply Hfind. left. reflexivity.
      * apply IHs. exact Hb.
Qed.

Lemma fold_rows_rows_other u u' v rows : forall s,
  u <> u' ->
  getUserBalanceByUserIdOrThrow u [] (wallets (fold_left (reconcileRow u' v) rows s)) =
  getUserBalanceByUserIdOrThrow u [] (wallets s).
Proof.
  induction rows as [|b r IH]; intros s Hne; [reflexivity|].
  cbn [fold_left]. rewrite IH by exact Hne. apply reconcileRow_rows_other. exact Hne.
Qed.

Lemma findWallet_rows ws u a :
  findWallet ws u a =
  find (fun w => String.eqb (Wallet.asset w) a) (getUserBalanceByUserIdOrThrow u [] ws).
Proof.
  unfold findWallet, getUserBalanceByUserIdOrThrow.
  induction ws as [|w r IH]; [reflexivity|]. cbn [find filter].
  destruct (String.eqb (Wallet.user w) u); cbn [andb].
  - cbn [find]. destruct (String.eqb (Wallet.asset w) a); [reflexivity | exact IH].
  - exact IH.
Qed.

Lemma find_unique_asset rows b :
  NoDup (map Wallet.asset rows) -> In b rows ->
  find (fun w => String.eqb (Wallet.asset w) (Wallet.asset b)) rows = Some b.
Proof.
  induction rows as [|x r IH]; intros Hnd Hin; [destruct Hin|].
  cbn [map] in Hnd. inversion Hnd as [|? ? Hnotin Hnd']; subst. cbn [find].
  destruct Hin as [->|Hin].
  - rewrite String.eqb_refl. reflexivity.
  - destruct (String.eqb_spec (Wallet.asset x) (Wallet.asset b)) as [E|E].
    + exfalso. apply Hnotin. rewrite E. apply in_map. exact Hin.
    + apply IH; assumption.
Qed.

Lemma fold_users_find lb us : forall s u,
  ~ In u (map User.id us) ->
  getUserBalanceByUserIdOrThrow u [] (wallets (fold_left (reconcileUser lb) us s)) =
  getUserBalanceByUserIdOrThrow u [] (wallets s).
Proof.
  induction us as [|x r IH]; intros s u Hn; [reflexivity|].
  cbn [fold_left]. rewrite IH by (intro H; apply Hn; right; exact H).
  unfold reconcileUser. apply fold_rows_rows_other.
  intro E. apply Hn. left. symmetry. exact E.
Qed.

(** X14.  For a registered user whose wallet rows have distinct assets,
    the start-up reconciliation leaves each row with [locked] equal to the
    computed reservation [c].  When [c] is not zero the difference moves
    between [locked] and [free], so [free + locked] is kept; when it is zero
    [free] takes over a positive [locked], and a negative [locked] is
    dropped. *)
Theorem reconciliation_sets_locked_to_reservations env orders positions s usr b :
  NoDup (map User.id (users s)) ->
  In usr (users s) ->
  NoDup (map Wallet.asset (getUserBalanceByUserIdOrThrow (User.id usr) [] (wallets s))) ->
  In b (wallets s) ->
  Wallet.user b = User.id usr ->
  let c := computedLocked env orders positions (User.id usr) (Wallet.asset b) in
  let ws' := wallets (updateBalances env orders positions s) in
  lockedOf ws' (User.id usr) (Wallet.asset b) == c /\
  freeOf ws' (User.id usr) (Wallet.asset b) ==
    (if Num.truthy c then Wallet.free b + Wallet.locked b - c else unlockedFree b).
Proof.
  intros Hnd Hu Hrows Hb Hbu c ws'. subst c ws'. unfold updateBalances, computedLocked.
  set (lb := lockedBalancesOf env orders positions).
  apply in_split in Hu. destruct Hu as (pre & post & Eus). rewrite Eus in *.
  rewrite map_app in Hnd. cbn [map] in Hnd.
  assert (Hpre : ~ In (User.id usr) (map User.id pre)).
  { intro H. apply NoDup_remove_2 in Hnd. apply Hnd. apply in_or_app. left. exact H. }
  assert (Hpost : ~ In (User.id usr) (map User.id post)).
  { intro H. apply NoDup_remove_2 in Hnd. apply Hnd. apply in_or_app. right. exact H. }
  rewrite fold_left_app. cbn [fold_left].
  set (s1 := fold_left (reconcileUser lb) pre s).
  assert (R1 : getUserBalanceByUserIdOrThrow (User.id usr) [] (wallets s1) =
               getUserBalanceByUserIdOrThrow (User.id usr) [] (wallets s)).
  { apply fold_users_find. exact Hpre. }
  set (rows := getUserBalanceByUserIdOrThrow (User.id usr) [] (wallets s)) in *.
  assert (Hbr : In b rows).
  { apply filter_In. split; [exact Hb|]. rewrite Hbu, String.eqb_refl. reflexivity. }
  destruct (fold_rows_find (User.id usr) (JsMap.get lb (User.id usr)) rows s1 Hrows) as [_ Hs].
  { intros b1 Hb1. rewrite findWallet_rows, R1. apply find_unique_asset; assumption. }
  destruct (Hs b Hbr) as (b' & Hf & Hl & Hfr).
  set (s2 := reconcileUser lb s1 usr).
  assert (E2 : s2 = fold_left (reconcileRow (User.id usr) (JsMap.get lb (User.id usr))) rows s1).
  { unfold s2, reconcileUser. rewrite R1. reflexivity. }
  assert (Hfinal : findWallet (wallets (fold_left (reconcileUser lb) post s2)) (User.id usr)
                     (Wallet.asset b) = Some b').
  { rewrite findWallet_rows, fold_users_find by exact Hpost.
    rewrite <- findWallet_rows, E2. exact Hf. }
  unfold lockedOf, freeOf. rewrite Hfinal. split; assumption.
Qed.

Lemma reconciliation_keeps_consistent_balances_witness :
  updateBalances (Scenario.envAt None)
    (fst (getOpenOrdersAndPositions Scenario.spotResting))
    (snd (getOpenOrdersAndPositions Scenario.spotResting)) Scenario.spotResting =
  Scenario.spotResting.
Proof.
  apply reconciliation_keeps_consistent_balances.
  intros w Hw. vm_compute in Hw. destruct Hw as [<-|[]]. vm_compute. reflexivity.
Defined.

Lemma reconciliation_sets_locked_to_reservations_witness :
  let ws' := wallets (updateBalances (Scenario.envAt None)
                        (fst (getOpenOrdersAndPositions Cases.drifted))
                        (snd (getOpenOrdersAndPositions Cases.drifted)) Cases.drifted) in
  (lockedOf ws' "u1" "USDT" == 5000 /\ freeOf ws' "u1" "USDT" == 4000) /\
  (lockedOf ws' "u1" "BTC" == 0 /\ freeOf ws' "u1" "BTC" == 3).
Proof.
  assert (Hu : NoDup (map User.id (users Cases.drifted))).
  { vm_compute. constructor; [intros [] | constructor]. }
  assert (Hr : NoDup (map Wallet.asset
                        (getUserBalanceByUserIdOrThrow (User.id Scenario.alice) []
                           (wallets Cases.drifted)))).
  { vm_compute. constructor; [intros [E|[]]; discriminate|].
    constructor; [intros [] | constructor]. }
  pose proof (reconciliation_sets_locked_to_reservations (Scenario.envAt None)
                (fst (getOpenOrdersAndPositions Cases.drifted))
                (snd (getOpenOrdersAndPositions Cases.drifted)) Cases.drifted
                Scenario.alice (Wallet.mk "u1" "USDT" 5000 4000) Hu
                (or_introl eq_refl) Hr (or_introl eq_refl) eq_refl) as [U1 U2].
  pose proof (reconciliation_sets_locked_to_reservations (Scenario.envAt None)
                (fst (getOpenOrdersAndPositions Cases.drifted))
                (snd (getOpenOrdersAndPositions Cases.drifted)) Cases.drifted
                Scenario.alice (Wallet.mk "u1" "BTC" 1 2) Hu
                (or_introl eq_refl) Hr (or_intror (or_introl eq_refl)) eq_refl) as [B1 B2].
  intro ws'. split; [split|split].
  - etransitivity; [exact U1 | vm_compute; reflexivity].
  - etransitivity; [exact U2 | vm_compute; reflexivity].
  - etransitivity; [exact B1 | vm_compute; reflexivity].
  - etransitivity; [exact B2 | vm_compute; reflexivity].
Defined.

(** ** Requests that [createOrder] refuses *)

Lemma marketable_withType order p :
  marketable (withType order (if marketable order p then OrderType.MARKET else OrderType.LIMIT)) p =
  marketable order p.
Proof.
  destruct (marketable order p) eqn:Em; [reflexivity|].
  unfold marketable in *. cbn.
  apply orb_false_iff in Em. destruct Em as [Em E3].
  apply orb_false_iff in Em. destruct Em as [_ E2]. now rewrite E2, E3.
Qed.

(** Admission on a spot exchange: one balance check, then the market or the
    limit path. *)
Lemma admitOrder_spot env order user ws leverage p s1 :
  isFutures (CreateOrderDto.exchange order) = false ->
  let symbol := getExchangeInfo env (CreateOrderDto.symbol order)
                  (CreateOrderDto.exchange order) in
  let quote := findWallet ws (User.id user) (QuoteAsset.name (ExchangeInfo.quoteAsset symbol)) in
  let base := findWallet ws (User.id user) (BaseAsset.name (ExchangeInfo.baseAsset symbol)) in
  let usedPrice := if marketable order p then p else CreateOrderDto.price order in
  admitOrder env order user
    (getUserBalanceByUserIdOrThrow (User.id user)
       [BaseAsset.name (ExchangeInfo.baseAsset symbol);
        QuoteAsset.name (ExchangeInfo.quoteAsset symbol)] ws)
    leverage p s1 =
  if match CreateOrderDto.side order with
     | OrderSide.BUY => lacks quote (CreateOrderDto.amount order * usedPrice)
     | OrderSide.SELL => lacks base (CreateOrderDto.amount order)
     end
  then (Throw (HttpException "Not enough balance" 400), s1)
  else if marketable order p
       then processMarketOrder env (withType order OrderType.MARKET) user leverage s1
       else createLimitOrder env (withType order OrderType.LIMIT) user s1.
Proof.
  intros Hspot symbol quote base usedPrice. subst symbol quote base usedPrice.
  unfold admitOrder. cbv zeta. rewrite Hspot.
  rewrite !find_balance by (simpl; rewrite String.eqb_refl; now rewrite ?orb_true_r).
  rewrite marketable_withType.
  destruct (marketable order p) eqn:Em;
    cbn [withType CreateOrderDto.side CreateOrderDto.amount CreateOrderDto.price];
    destruct (CreateOrderDto.side order); cbn [OrderSide.eqb andb];
    match goal with |- context [lacks ?b ?x] => destruct (lacks b x) end; reflexivity.
Qed.

(** X15.  On a spot exchange a request of a known user with a current price
    is refused with 400 "Not enough balance" when the wallet row it would
    draw on is missing or holds less than the order needs (the quote amount
    at the price used for a BUY, the base amount for a SELL); no order is
    stored and no balance, projection or watch-set entry changes. *)
Theorem spot_order_without_funds_is_refused env order s user p :
  isFutures (CreateOrderDto.exchange order) = false ->
  getUserByKeyAndSecretOrThrow (CreateOrderDto.key order) (CreateOrderDto.secret order) s =
    (Ok user, s) ->
  fst (getLatestPriceInExchange env (CreateOrderDto.symbol order)
         (CreateOrderDto.exchange order) s) = Ok p ->
  let symbol := getExchangeInfo env (CreateOrderDto.symbol order)
                  (CreateOrderDto.exchange order) in
  let usedPrice := if marketable order p then p else CreateOrderDto.price order in
  (CreateOrderDto.side order = OrderSide.BUY ->
   forall w, findWallet (wallets s) (User.id user)
               (QuoteAsset.name (ExchangeInfo.quoteAsset symbol)) = Some w ->
             Wallet.free w < CreateOrderDto.amount order * usedPrice) ->
  (CreateOrderDto.side order = OrderSide.SELL ->
   forall w, findWallet (wallets s) (User.id user)
               (BaseAsset.name (ExchangeInfo.baseAsset symbol)) = Some w ->
             Wallet.free w < CreateOrderDto.amount order) ->
  exists s',
    createOrder env order s = (Throw (HttpException "Not enough balance" 400), s') /\
    sameBooks s s'.
Proof.
  intros Hspot Hu Hp symbol usedPrice Hbuy Hsell. subst symbol usedPrice.
  assert (Hu' : find (fun u => String.eqb (User.key u) (CreateOrderDto.key order) &&
                               String.eqb (User.secret u) (CreateOrderDto.secret order))
                     (users s) = Some user).
  { unfold getUserByKeyAndSecretOrThrow in Hu. destruct (find _ (users s)); inversion Hu; reflexivity. }
  destruct (createOrder_reaches_admission env order s user p Hu' Hp)
    as (l & s1 & Hb & Hagain & E).
  rewrite E. rewrite admitOrder_spot by exact Hspot. cbv zeta.
  exists s1. split; [|exact Hb].
  destruct (CreateOrderDto.side order) eqn:Es.
  - specialize (Hbuy eq_refl). clear Hsell. unfold lacks.
    destruct (findWallet _ _ _) as [w|]; [|reflexivity].
    specialize (Hbuy w eq_refl). apply NumFacts.ltb_lt in Hbuy. rewrite Hbuy. reflexivity.
  - specialize (Hsell eq_refl). clear Hbuy. unfold lacks.
    destruct (findWallet _ _ _) as [w|]; [|reflexivity].
    specialize (Hsell w eq_refl). apply NumFacts.ltb_lt in Hsell. rewrite Hsell. reflexivity.
Qed.

(** X16.  A spot request that has the funds but repeats the [externalId]
    and symbol of a stored order fails on the unique index; the controller
    turns the failure into 400 "Duplicated externalId + symbol", and
    nothing is stored, reserved or projected. *)
Theorem duplicate_externalId_is_refused env order s user p existing :
  isFutures (CreateOrderDto.exchange order) = false ->
  getUserByKeyAndSecretOrThrow (CreateOrderDto.key order) (CreateOrderDto.secret order) s =
    (Ok user, s) ->
  fst (getLatestPriceInExchange env (CreateOrderDto.symbol order)
         (CreateOrderDto.exchange order) s) = Ok p ->
  findOrder (CreateOrderDto.externalId order) (CreateOrderDto.symbol order) s = Some existing ->
  let symbol := getExchangeInfo env (CreateOrderDto.symbol order)
                  (CreateOrderDto.exchange order) in
  let usedPrice := if marketable order p then p else CreateOrderDto.price order in
  (CreateOrderDto.side order = OrderSide.BUY ->
   exists w, findWallet (wallets s) (User.id user)
               (QuoteAsset.name (ExchangeInfo.quoteAsset symbol)) = Some w /\
             CreateOrderDto.amount order * usedPrice <= Wallet.free w) ->
  (CreateOrderDto.side order = OrderSide.SELL ->
   exists w, findWallet (wallets s) (User.id user)
               (BaseAsset.name (ExchangeInfo.baseAsset symbol)) = Some w /\
             CreateOrderDto.amount order <= Wallet.free w) ->
  exists s',
    createOrder env order s = (Throw (MongoServerError "E11000 duplicate key error"), s') /\
    OrderController.createOrder env order s =
      (Throw (HttpException "Duplicated externalId + symbol" 400), s') /\
    sameBooks s s'.
Proof.
  intros Hspot Hu Hp Hdup symbol usedPrice Hbuy Hsell. subst symbol usedPrice.
  assert (Hu' : find (fun u => String.eqb (User.key u) (CreateOrderDto.key order) &&
                               String.eqb (User.secret u) (CreateOrderDto.secret order))
                     (users s) = Some user).
  { unfold getUserByKeyAndSecretOrThrow in Hu. destruct (find _ (users s)); inversion Hu; reflexivity. }
  destruct (createOrder_reaches_admission env order s user p Hu' Hp)
    as (l & s1 & Hb & Hagain & E).
  unfold OrderController.createOrder. rewrite E. rewrite admitOrder_spot by exact Hspot. cbv zeta.
  assert (Hex : forall data,
            Order.externalId data = CreateOrderDto.externalId order ->
            Order.symbol data = CreateOrderDto.symbol order ->
            orderModel_create env data s1 =
              (Throw (MongoServerError "E11000 duplicate key error"), s1)).
  { intros data He Hs. unfold orderModel_create.
    assert (Hx : existsb (fun o => String.eqb (Order.externalId o) (Order.externalId data) &&
                                   String.eqb (Order.symbol o) (Order.symbol data))
                   (orderModel s1) = true).
    { destruct Hb as (_ & _ & Ho & _). rewrite Ho, He, Hs.
      unfold findOrder, keyed in Hdup. apply find_some in Hdup. destruct Hdup as [Hin Hk].
      apply existsb_exists. exists existing. split; assumption. }
    rewrite Hx. reflexivity. }
  assert (Hfunds :
    match CreateOrderDto.side order with
    | OrderSide.BUY =>
        lacks (findWallet (wallets s) (User.id user)
                 (QuoteAsset.name (ExchangeInfo.quoteAsset
                    (getExchangeInfo env (CreateOrderDto.symbol order)
                       (CreateOrderDto.exchange order)))))
          (CreateOrderDto.amount order *
           (if marketable order p then p else CreateOrderDto.price order))
    | OrderSide.SELL =>
        lacks (findWallet (wallets s) (User.id user)
                 (BaseAsset.name (ExchangeInfo.baseAsset
                    (getExchangeInfo env (CreateOrderDto.symbol order)
                       (CreateOrderDto.exchange order)))))
          (CreateOrderDto.amount order)
    end = false).
  { destruct (CreateOrderDto.side order).
    - destruct (Hbuy eq_refl) as (w & Ew & Hle). rewrite Ew. cbn [lacks].
      apply NumFacts.ltb_ge. exact Hle.
    - destruct (Hsell eq_refl) as (w & Ew & Hle). rewrite Ew. cbn [lacks].
      apply NumFacts.ltb_ge. exact Hle. }
  rewrite Hfunds. exists s1.
  destruct (marketable order p).
  - unfold processMarketOrder, bind.
    cbn [withType CreateOrderDto.symbol CreateOrderDto.exchange].
    rewrite Hagain. cbv zeta.
    match goal with
    | |- context [orderModel_create env ?d s1] => rewrite (Hex d eq_refl eq_refl)
    end.
    split; [reflexivity|]. split; [reflexivity | exact Hb].
  - unfold createLimitOrder, bind. cbv zeta.
    cbn [withType CreateOrderDto.symbol CreateOrderDto.exchange CreateOrderDto.externalId].
    match goal with
    | |- context [orderModel_create env ?d s1] => rewrite (Hex d eq_refl eq_refl)
    end.
    split; [reflexivity|]. split; [reflexivity | exact Hb].
Qed.

Lemma hedgeOf_sameBooks s s1 user : sameBooks s s1 -> hedgeOf user s1 = hedgeOf user s.
Proof. intros (_ & _ & _ & _ & Hh & _). unfold hedgeOf. rewrite Hh. reflexivity. Qed.

Lemma findPosition_sameBooks s s1 symbol user hedge side :
  sameBooks s s1 -> findPosition symbol user hedge side s1 = findPosition symbol user hedge side s.
Proof.
  intros (_ & _ & _ & _ & _ & _ & _ & _ & Hc & _). unfold findPosition. rewrite Hc. reflexivity.
Qed.

(** X17.  On a derivatives exchange a reduce-only request of a user who has
    no position for it to reduce is always refused with a 400 (for the
    position side in hedge mode, for the margin, or as "Reduce order is
    rejected"), and the books are unchanged: a reduce-only order never opens
    a position. *)
Theorem reduceOnly_without_position_is_refused env order s user p :
  isFutures (CreateOrderDto.exchange order) = true ->
  getUserByKeyAndSecretOrThrow (CreateOrderDto.key order) (CreateOrderDto.secret order) s =
    (Ok user, s) ->
  fst (getLatestPriceInExchange env (CreateOrderDto.symbol order)
         (CreateOrderDto.exchange order) s) = Ok p ->
  CreateOrderDto.reduceOnly order = true ->
  findPosition (CreateOrderDto.symbol order) (User.id user) (hedgeOf (User.id user) s)
    (CreateOrderDto.positionSide order) s = None ->
  exists message s',
    createOrder env order s = (Throw (HttpException message 400), s') /\
    (message = "Position side must be specified in hedge mode"%string \/
     message = "Not enough balance"%string \/
     message = "Reduce order is rejected"%string) /\
    sameBooks s s'.
Proof.
  intros Hfut Hu Hp Hred Hnone.
  assert (Hu' : find (fun u => String.eqb (User.key u) (CreateOrderDto.key order) &&
                               String.eqb (User.secret u) (CreateOrderDto.secret order))
                     (users s) = Some user).
  { unfold getUserByKeyAndSecretOrThrow in Hu. destruct (find _ (users s)); inversion Hu; reflexivity. }
  destruct (createOrder_reaches_admission env order s user p Hu' Hp)
    as (l & s1 & Hb & Hagain & E).
  rewrite E. unfold admitOrder. cbv zeta. rewrite Hfut.
  unfold bind, gets. rewrite (hedgeOf_sameBooks s s1 _ Hb).
  cbn [withType CreateOrderDto.positionSide CreateOrderDto.symbol CreateOrderDto.reduceOnly].
  match goal with |- context [if ?c then throw _ else _] => destruct c end.
  { unfold throw. do 2 eexists. split; [reflexivity|]. split; [left; reflexivity | exact Hb]. }
  rewrite (findPosition_sameBooks s s1 _ _ _ _ Hb), Hnone, Hred.
  match goal with |- context [if ?c then throw (HttpException "Not enough balance" 400) else _] =>
    destruct c end.
  - unfold throw. do 2 eexists. split; [reflexivity|].
    split; [right; left; reflexivity | exact Hb].
  - cbn [andb]. unfold throw. do 2 eexists. split; [reflexivity|].
    split; [right; right; reflexivity | exact Hb].
Qed.

Lemma spot_order_without_funds_is_refused_witness :
  exists s',
    createOrder (Scenario.envAt (Some 60000))
      (Scenario.request binance OrderType.LIMIT OrderSide.BUY 1 50000 "big" false None)
      Scenario.spotStart =
      (Throw (HttpException "Not enough balance" 400), s') /\
    sameBooks Scenario.spotStart s'.
Proof.
  apply (spot_order_without_funds_is_refused (Scenario.envAt (Some 60000))
           (Scenario.request binance OrderType.LIMIT OrderSide.BUY 1 50000 "big" false None)
           Scenario.spotStart Scenario.alice 60000 eq_refl eq_refl eq_refl).
  - intros _ w Hw. vm_compute in Hw. injection Hw as <-. vm_compute. reflexivity.
  - intro H. discriminate H.
Defined.

Lemma duplicate_externalId_is_refused_witness :
  exists s',
    OrderController.createOrder (Scenario.envAt (Some 50000)) Scenario.spotLimitBuy
      Cases.resting =
      (Throw (HttpException "Duplicated externalId + symbol" 400), s') /\
    sameBooks Cases.resting s'.
Proof.
  destruct (duplicate_externalId_is_refused (Scenario.envAt (Some 50000)) Scenario.spotLimitBuy
              Cases.resting Scenario.alice 50000 Scenario.limit1 eq_refl eq_refl eq_refl eq_refl)
    as (s' & _ & H & Hb).
  - intros _. eexists. split; [reflexivity|]. vm_compute. discriminate.
  - intro H. discriminate H.
  - exists s'. split; assumption.
Defined.

Lemma reduceOnly_without_position_is_refused_witness :
  exists message s',
    createOrder (Scenario.envAt (Some 100)) Scenario.linearReduce Scenario.linearStart =
      (Throw (HttpException message 400), s') /\
    sameBooks Scenario.linearStart s'.
Proof.
  destruct (reduceOnly_without_position_is_refused (Scenario.envAt (Some 100))
              Scenario.linearReduce Scenario.linearStart Scenario.alice 100
              eq_refl eq_refl eq_refl eq_refl eq_refl) as (message & s' & H & _ & Hb).
  exists message, s'. split; assumption.
Defined.

(** ** Placing and cancelling a limit order *)

Lemma freeOf_incWallet ws user u user' asset' :
  freeOf (incWallet ws user u) user' asset' ==
  freeOf ws user' asset' +
  (if String.eqb user' user && String.eqb asset' (BalanceUpdate.asset u)
   then BalanceUpdate.free u else 0).
Proof.
  destruct (String.eqb_spec user' user) as [->|Hne]; cbn [andb].
  - apply freeOf_after.
  - unfold freeOf. rewrite findWallet_incWallet_other by (left; exact Hne). ring.
Qed.

Lemma lockedOf_incWallet ws user u user' asset' :
  lockedOf (incWallet ws user u) user' asset' ==
  lockedOf ws user' asset' +
  (if String.eqb user' user && String.eqb asset' (BalanceUpdate.asset u)
   then BalanceUpdate.locked u else 0).
Proof.
  destruct (String.eqb_spec user' user) as [->|Hne]; cbn [andb].
  - apply lockedOf_after.
  - unfold lockedOf. rewrite findWallet_incWallet_other by (left; exact Hne). ring.
Qed.

(** A reservation [(- x, x)] followed by its release [(x', - x')], with
    [x' == x], leaves every balance as it was. *)
Lemma reserve_then_release ws user asset x x' user' asset' :
  x' == x ->
  freeOf (incWallet (incWallet ws user (BalanceUpdate.mk asset (- x) x)) user
            (BalanceUpdate.mk asset x' (- x'))) user' asset' == freeOf ws user' asset' /\
  lockedOf (incWallet (incWallet ws user (BalanceUpdate.mk asset (- x) x)) user
              (BalanceUpdate.mk asset x' (- x'))) user' asset' == lockedOf ws user' asset'.
Proof.
  intro E. rewrite !freeOf_incWallet, !lockedOf_incWallet.
  cbn [BalanceUpdate.asset BalanceUpdate.free BalanceUpdate.locked].
  destruct (String.eqb user' user && String.eqb asset' asset); split; rewrite ?E; ring.
Qed.

Lemma reserve_nothing ws user asset x user' asset' :
  x == 0 ->
  freeOf (incWallet ws user (BalanceUpdate.mk asset (- x) x)) user' asset' ==
    freeOf ws user' asset' /\
  lockedOf (incWallet ws user (BalanceUpdate.mk asset (- x) x)) user' asset' ==
    lockedOf ws user' asset'.
Proof.
  intro E. rewrite !freeOf_incWallet, !lockedOf_incWallet.
  cbn [BalanceUpdate.asset BalanceUpdate.free BalanceUpdate.locked].
  destruct (String.eqb user' user && String.eqb asset' asset); split; rewrite ?E; ring.
Qed.

Lemma watchSymbols_removeOrderAt symbol externalId s :
  watchSymbols (removeOrderAt symbol externalId s) = watchSymbols s.
Proof. unfold removeOrderAt. destruct (JsMap.get _ _); reflexivity. Qed.

Lemma wallets_removeOrderAt symbol externalId s :
  wallets (removeOrderAt symbol externalId s) = wallets s.
Proof. unfold removeOrderAt. destruct (JsMap.get _ _); reflexivity. Qed.

(** X18.  On a spot exchange, a limit request that does not cross the
    current price, has the funds and a new [externalId] is registered with
    status NEW, and cancelling it right away succeeds and gives back exactly
    what was reserved: [free] and [locked] of every wallet row are what they
    were before the order, and the order is neither in the projection nor in
    the watch set. *)
Theorem limit_order_cancel_round_trip env order s user p :
  isFutures (CreateOrderDto.exchange order) = false ->
  getUserByKeyAndSecretOrThrow (CreateOrderDto.key order) (CreateOrderDto.secret order) s =
    (Ok user, s) ->
  fst (getLatestPriceInExchange env (CreateOrderDto.symbol order)
         (CreateOrderDto.exchange order) s) = Ok p ->
  marketable order p = false ->
  findOrder (CreateOrderDto.externalId order) (CreateOrderDto.symbol order) s = None ->
  existsb (fun o => String.eqb (Order.externalId o) (CreateOrderDto.externalId order) &&
                    String.eqb (Order.user o) (User.id user)) (orderModel s) = false ->
  let symbol := getExchangeInfo env (CreateOrderDto.symbol order)
                  (CreateOrderDto.exchange order) in
  (CreateOrderDto.side order = OrderSide.BUY ->
   exists w, findWallet (wallets s) (User.id user)
               (QuoteAsset.name (ExchangeInfo.quoteAsset symbol)) = Some w /\
             CreateOrderDto.amount order * CreateOrderDto.price order <= Wallet.free w) ->
  (CreateOrderDto.side order = OrderSide.SELL ->
   exists w, findWallet (wallets s) (User.id user)
               (BaseAsset.name (ExchangeInfo.baseAsset symbol)) = Some w /\
             CreateOrderDto.amount order <= Wallet.free w) ->
  exists response s1 s2,
    createOrder env order s = (Ok response, s1) /\
    CreateOrderResponse.status response = OrderStatus.CREATED /\
    cancelOrderByKeySecretExternalIdAndSymbol env (CreateOrderDto.key order)
      (CreateOrderDto.secret order) (CreateOrderDto.externalId order) false s1 =
      (Ok "canceled"%string, s2) /\
    (forall user' asset',
       freeOf (wallets s2) user' asset' == freeOf (wallets s) user' asset' /\
       lockedOf (wallets s2) user' asset' == lockedOf (wallets s) user' asset') /\
    getOrderByExternalIdAndSymbol (CreateOrderDto.symbol order)
      (CreateOrderDto.externalId order) s2 = None /\
    JsSet.has (watchSet (symKey (CreateOrderDto.symbol order) (CreateOrderDto.exchange order)) s2)
      (CreateOrderDto.externalId order) = false.
Proof.
  intros Hspot Hu Hp Hm Hnew Hmine symbol Hbuy Hsell. subst symbol.
  assert (Hu' : find (fun u => String.eqb (User.key u) (CreateOrderDto.key order) &&
                               String.eqb (User.secret u) (CreateOrderDto.secret order))
                     (users s) = Some user).
  { unfold getUserByKeyAndSecretOrThrow in Hu. destruct (find _ (users s)); inversion Hu; reflexivity. }
  destruct (createOrder_reaches_admission env order s user p Hu' Hp)
    as (l & s1 & Hb & Hagain & E).
  rewrite E. rewrite admitOrder_spot by exact Hspot. cbv zeta. rewrite Hm.
  destruct Hb as (Hus & Hws & Hos & _).
  assert (Hfunds :
    match CreateOrderDto.side order with
    | OrderSide.BUY =>
        lacks (findWallet (wallets s) (User.id user)
                 (QuoteAsset.name (ExchangeInfo.quoteAsset
                    (getExchangeInfo env (CreateOrderDto.symbol order)
                       (CreateOrderDto.exchange order)))))
          (CreateOrderDto.amount order * CreateOrderDto.price order)
    | OrderSide.SELL =>
        lacks (findWallet (wallets s) (User.id user)
                 (BaseAsset.name (ExchangeInfo.baseAsset
                    (getExchangeInfo env (CreateOrderDto.symbol order)
                       (CreateOrderDto.exchange order)))))
          (CreateOrderDto.amount order)
    end = false).
  { destruct (CreateOrderDto.side order).
    - destruct (Hbuy eq_refl) as (w & Ew & Hle). rewrite Ew. cbn [lacks].
      apply NumFacts.ltb_ge. exact Hle.
    - destruct (Hsell eq_refl) as (w & Ew & Hle). rewrite Ew. cbn [lacks].
      apply NumFacts.ltb_ge. exact Hle. }
  rewrite Hfunds. clear Hfunds Hbuy Hsell E.
  unfold createLimitOrder, bind, orderModel_create.
  cbn [withType CreateOrderDto.symbol CreateOrderDto.exchange CreateOrderDto.externalId
       CreateOrderDto.side CreateOrderDto.amount CreateOrderDto.price CreateOrderDto.type
       CreateOrderDto.reduceOnly CreateOrderDto.positionSide Order.externalId Order.symbol].
  assert (Hk : existsb (fun o => String.eqb (Order.externalId o) (CreateOrderDto.externalId order) &&
                                 String.eqb (Order.symbol o) (CreateOrderDto.symbol order))
                 (orderModel s1) = false).
  { rewrite Hos. apply find_none_existsb. exact Hnew. }
  rewrite Hk. rewrite Hspot. cbn [negb]. unfold modify, ret.
  do 3 eexists. split; [reflexivity|]. split; [reflexivity|].
  unfold cancelOrderByKeySecretExternalIdAndSymbol, bind, getUserByKeyAndSecretOrThrow.
  match goal with |- context [users ?st] => replace (users st) with (users s) end.
  2:{ unfold watchAdd, setOrder, updateBalance.
      destruct (CreateOrderDto.side order); cbn; symmetry; exact Hus. }
  rewrite Hu'. unfold processCancelOrder.
  match goal with |- context [orderModel ?st] =>
    replace (orderModel st) with
      (orderModel s ++
       [Order.mk (nextId s1) (CreateOrderDto.amount order) 0 0
          (CreateOrderDto.amount order * CreateOrderDto.price order)
          (CreateOrderDto.price order) 0 0
          (getUserFee maker (CreateOrderDto.exchange order))
          (CreateOrderDto.symbol order) (User.id user) (CreateOrderDto.exchange order)
          OrderStatus.CREATED OrderType.LIMIT (CreateOrderDto.side order)
          (CreateOrderDto.externalId order) (now env) (now env)
          (CreateOrderDto.reduceOnly order) (CreateOrderDto.positionSide order)])
  end.
  2:{ unfold watchAdd, setOrder, updateBalance.
      destruct (CreateOrderDto.side order); cbn; rewrite Hos; reflexivity. }
  rewrite find_app_none by exact Hmine.
  cbn [Order.externalId Order.user Order.status Order.type OrderStatus.terminal].
  rewrite !String.eqb_refl. cbn [andb].
  split; [reflexivity|].
  split; [|split].
  - intros user' asset'. rewrite wallets_removeOrderAt, wallets_watchDrop.
    unfold cancelAmount, cancelAsset.
    cbn [Order.exchange Order.side Order.quoteAmount Order.filledQuoteAmount Order.amount
         Order.filledAmount Order.symbol Order.type Order.price Order.externalId Order.user].
    rewrite Hspot.
    destruct (CreateOrderDto.side order).
    + destruct (Num.truthy (CreateOrderDto.amount order * CreateOrderDto.price order - 0)) eqn:T.
      * rewrite wallets_updateBalance by discriminate.
        cbn [wallets with_wallets with_orderModel watchAdd setOrder updateBalance
             with_watchSymbols with_currentOrders with_nextId increaseUserBalance fold_left].
        rewrite Hws. apply reserve_then_release. ring.
      * cbn [wallets with_wallets with_orderModel watchAdd setOrder updateBalance
             with_watchSymbols with_currentOrders with_nextId increaseUserBalance fold_left].
        rewrite Hws. apply reserve_nothing. apply NumFacts.truthy_false in T. rewrite <- T. ring.
    + destruct (Num.truthy (CreateOrderDto.amount order - 0)) eqn:T.
      * rewrite wallets_updateBalance by discriminate.
        cbn [wallets with_wallets with_orderModel watchAdd setOrder updateBalance
             with_watchSymbols with_currentOrders with_nextId increaseUserBalance fold_left].
        rewrite Hws. apply reserve_then_release. ring.
      * cbn [wallets with_wallets with_orderModel watchAdd setOrder updateBalance
             with_watchSymbols with_currentOrders with_nextId increaseUserBalance fold_left].
        rewrite Hws. apply reserve_nothing. apply NumFacts.truthy_false in T. rewrite <- T. ring.
  - cbn [Order.symbol Order.externalId]. apply getOrder_removeOrderAt.
  - cbn [Order.symbol Order.externalId Order.exchange].
    unfold watchSet. rewrite watchSymbols_removeOrderAt. apply watchSet_watchDrop.
Qed.

Lemma limit_order_cancel_round_trip_witness :
  exists response s1 s2,
    createOrder (Scenario.envAt (Some 50000)) Scenario.spotLimitBuy Scenario.spotStart =
      (Ok response, s1) /\
    cancelOrderByKeySecretExternalIdAndSymbol (Scenario.envAt (Some 50000))
      "key1" "secret1" "limit1" false s1 = (Ok "canceled"%string, s2) /\
    freeOf (wallets s2) "u1" "USDT" == 10000 /\ lockedOf (wallets s2) "u1" "USDT" == 0.
Proof.
  destruct (limit_order_cancel_round_trip (Scenario.envAt (Some 50000)) Scenario.spotLimitBuy
              Scenario.spotStart Scenario.alice 50000 eq_refl eq_refl eq_refl eq_refl eq_refl
              eq_refl)
    as (response & s1 & s2 & H1 & _ & H2 & H3 & _).
  - intros _. eexists. split; [reflexivity|]. vm_compute. discriminate.
  - intro H. discriminate H.
  - exists response, s1, s2. split; [exact H1|]. split; [exact H2|].
    destruct (H3 "u1"%string "USDT"%string) as [Hf Hl]. split.
    + rewrite Hf. reflexivity.
    + rewrite Hl. reflexivity.
Defined.

Lemma orderModel_removeOrderAt symbol externalId s :
  orderModel (removeOrderAt symbol externalId s) = orderModel s.
Proof. unfold removeOrderAt. destruct (JsMap.get _ _); reflexivity. Qed.

Lemma users_removeOrderAt symbol externalId s :
  users (removeOrderAt symbol externalId s) = users s.
Proof. unfold removeOrderAt. destruct (JsMap.get _ _); reflexivity. Qed.

Lemma users_watchDrop sym id s : users (watchDrop sym id s) = users s.
Proof.
  unfold watchDrop. destruct (JsMap.get (watchSymbols s) sym);
    match goal with |- context [Nat.eqb ?n 0] => destruct (Nat.eqb n 0) end; reflexivity.
Qed.

(** The stored order found by [externalId] and user, after its status was
    set through its [_id]. *)
Lemma find_updateOrderById os externalId user order status :
  NoDup (map Order._id os) ->
  find (fun o => String.eqb (Order.externalId o) externalId &&
                 String.eqb (Order.user o) user) os = Some order ->
  find (fun o => String.eqb (Order.externalId o) externalId &&
                 String.eqb (Order.user o) user)
       (updateOrderById os (Order._id order) (setStatus status)) =
  Some (setStatus status order).
Proof.
  induction os as [|x r IH]; intros Hnd Hf; [discriminate|].
  cbn [map] in Hnd. inversion Hnd as [|? ? Hnotin Hnd']; subst.
  cbn [find] in Hf. cbn [updateOrderById].
  destruct (String.eqb (Order.externalId x) externalId && String.eqb (Order.user x) user) eqn:E.
  - injection Hf as <-. rewrite Nat.eqb_refl. cbn [find setStatus Order.externalId Order.user].
    rewrite E. reflexivity.
  - assert (Hin : In order r) by (apply find_some in Hf; tauto).
    destruct (Nat.eqb_spec (Order._id x) (Order._id order)) as [Ei|Ei].
    + exfalso. apply Hnotin. rewrite Ei. apply in_map. exact Hin.
    + cbn [find]. rewrite E. apply IH; assumption.
Qed.

(** X19.  After a successful cancellation the stored order carries the
    status CANCELED (EXPIRED when asked to expire); every further
    cancellation of the same [externalId] fails with 400 "Unknown order"
    and changes nothing, and a fill call that was already on its way for
    that order leaves the state unchanged.  Stored orders have distinct
    [_id]s. *)
Theorem cancelled_order_stays_cancelled env key secret externalId expired s r s' user order :
  NoDup (map Order._id (orderModel s)) ->
  getUserByKeyAndSecretOrThrow key secret s = (Ok user, s) ->
  find (fun o => String.eqb (Order.externalId o) externalId &&
                 String.eqb (Order.user o) (User.id user)) (orderModel s) = Some order ->
  cancelOrderByKeySecretExternalIdAndSymbol env key secret externalId expired s = (Ok r, s') ->
  find (fun o => String.eqb (Order.externalId o) externalId &&
                 String.eqb (Order.user o) (User.id user)) (orderModel s') =
    Some (setStatus (if expired then OrderStatus.EXPIRED else OrderStatus.CANCELED) order) /\
  (forall again,
     cancelOrderByKeySecretExternalIdAndSymbol env key secret externalId again s' =
       (Throw (HttpException "Unknown order" 400), s')) /\
  (forall stale data,
     Order.symbol stale = Order.symbol order ->
     Order.externalId stale = Order.externalId order ->
     processLimitOrder env stale data s' = s').
Proof.
  intros Hnd Hu Hf Hc.
  unfold cancelOrderByKeySecretExternalIdAndSymbol, bind in Hc. rewrite Hu in Hc.
  unfold processCancelOrder in Hc. rewrite Hf in Hc.
  destruct (OrderStatus.terminal (Order.status order)) eqn:Ht; [discriminate|].
  cbv zeta in Hc. injection Hc as _ Hs'.
  assert (Ho : orderModel s' =
               updateOrderById (orderModel s) (Order._id order)
                 (setStatus (if expired then OrderStatus.EXPIRED else OrderStatus.CANCELED))).
  { rewrite <- Hs'. rewrite orderModel_removeOrderAt, orderModel_watchDrop.
    destruct (Order.type order); cbv iota; [|reflexivity].
    destruct (Num.truthy (cancelAmount order)); cbv iota; [|reflexivity].
    reflexivity. }
  assert (Hus : users s' = users s).
  { rewrite <- Hs'. rewrite users_removeOrderAt, users_watchDrop.
    destruct (Order.type order); cbv iota; [|reflexivity].
    destruct (Num.truthy (cancelAmount order)); cbv iota; [|reflexivity].
    reflexivity. }
  assert (Hfind' : find (fun o => String.eqb (Order.externalId o) externalId &&
                                  String.eqb (Order.user o) (User.id user)) (orderModel s') =
                   Some (setStatus (if expired then OrderStatus.EXPIRED else OrderStatus.CANCELED)
                           order)).
  { rewrite Ho. apply find_updateOrderById; assumption. }
  split; [exact Hfind'|]. split.
  - intro again. unfold cancelOrderByKeySecretExternalIdAndSymbol, bind.
    assert (Hu' : getUserByKeyAndSecretOrThrow key secret s' = (Ok user, s')).
    { unfold getUserByKeyAndSecretOrThrow in *. rewrite Hus.
      destruct (find _ (users s)); inversion Hu; subst; reflexivity. }
    rewrite Hu'. unfold processCancelOrder. rewrite Hfind'.
    destruct expired; reflexivity.
  - intros stale data Hsym Hext. unfold processLimitOrder.
    destruct (OrderStatus.terminal (Order.status stale)); [reflexivity|].
    rewrite Hsym, Hext, <- Hs', getOrder_removeOrderAt. reflexivity.
Qed.

Lemma cancelled_order_stays_cancelled_witness :
  let s' := snd (cancelOrderByKeySecretExternalIdAndSymbol (Scenario.envAt None)
                   "key1" "secret1" "limit1" false Cases.resting) in
  cancelOrderByKeySecretExternalIdAndSymbol (Scenario.envAt None)
    "key1" "secret1" "limit1" false s' =
    (Throw (HttpException "Unknown order" 400), s') /\
  processLimitOrder (Scenario.envAt None) Scenario.limit1View Scenario.touch s' = s'.
Proof.
  intro s'.
  assert (Hnd : NoDup (map Order._id (orderModel Cases.resting))).
  { constructor; [intros [] | constructor]. }
  destruct (cancelled_order_stays_cancelled (Scenario.envAt None) "key1" "secret1" "limit1"
              false Cases.resting "canceled" s' Scenario.alice Scenario.limit1
              Hnd eq_refl eq_refl) as (_ & H2 & H3).
  - vm_compute. reflexivity.
  - split; [apply H2 | apply H3; reflexivity].
Defined.

(** ** The fill of a spot limit order *)

Lemma fillSize_le futures strictlyBetter remaining qty :
  fst (fillSize futures strictlyBetter remaining qty) <= remaining.
Proof.
  unfold fillSize. destruct (futures || strictlyBetter); cbn [fst]; [lra|].
  destruct (Num.leb remaining qty) eqn:E; cbn [fst]; [lra|].
  apply NumFacts.leb_gt in E. lra.
Qed.

Lemma wallets_setOrder o s : wallets (setOrder o s) = wallets s.
Proof. reflexivity. Qed.

Lemma watchSymbols_setOrder o s : watchSymbols (setOrder o s) = watchSymbols s.
Proof. reflexivity. Qed.

(** What a fill leaves in the projection and in the watch set:
    nothing of a completed order, the partially filled order otherwise. *)
Lemma fill_projection order' (isFilled : bool) sym s0 :
  let s' := if isFilled
            then removeOrder order' (watchDrop sym (Order.externalId order') (setOrder order' s0))
            else setOrder order' s0 in
  if isFilled
  then getOrderByExternalIdAndSymbol (Order.symbol order') (Order.externalId order') s' = None /\
       JsSet.has (watchSet sym s') (Order.externalId order') = false
  else getOrderByExternalIdAndSymbol (Order.symbol order') (Order.externalId order') s' =
         Some order'.
Proof.
  destruct isFilled; cbv zeta.
  - split.
    + apply getOrder_removeOrderAt.
    + unfold removeOrder, watchSet. rewrite watchSymbols_removeOrderAt. apply watchSet_watchDrop.
  - apply getOrder_setOrder_same.
Qed.

(** X20.  A tick that reaches an open spot limit order fills it by the
    whole remainder when the price is strictly better than the touched side
    or the quoted size covers the remainder, and by the quoted size
    otherwise; the fill never exceeds the remainder.  A BUY releases
    [fill * price] from [locked] of the quote asset and credits
    [fill - fill * feePerc] to [free] of the base asset; a SELL releases
    [fill] from [locked] of the base asset and credits the quote amount net
    of the fee.  A completed order leaves the projection and the watch set;
    a partial fill stays projected as PARTIALLY_FILLED with its filled
    amount raised by the fill. *)
Theorem spot_limit_fill_accounting env order data s inCurrent :
  isFutures (Order.exchange order) = false ->
  OrderStatus.terminal (Order.status order) = false ->
  getOrderByExternalIdAndSymbol (Order.symbol order) (Order.externalId order) s =
    Some inCurrent ->
  OrderStatus.terminal (Order.status inCurrent) = false ->
  let symbol := getExchangeInfo env (Order.symbol order) (Order.exchange order) in
  let quote := QuoteAsset.name (ExchangeInfo.quoteAsset symbol) in
  let base := BaseAsset.name (ExchangeInfo.baseAsset symbol) in
  let feePerc := if Num.truthy (Order.feePerc order) then Order.feePerc order
                 else getUserFee maker (Order.exchange order) in
  let remaining := Order.amount order - Order.filledAmount order in
  let sym := symKey (Order.symbol order) (Order.exchange order) in
  let s' := processLimitOrder env order data s in
  let after (fill : Q) (complete : bool) :=
    fill <= remaining /\
    (if complete
     then getOrderByExternalIdAndSymbol (Order.symbol order) (Order.externalId order) s' = None /\
          JsSet.has (watchSet sym s') (Order.externalId order) = false
     else exists o',
            getOrderByExternalIdAndSymbol (Order.symbol order) (Order.externalId order) s' =
              Some o' /\
            Order.status o' = OrderStatus.PARTIALLY_FILLED /\
            Order.filledAmount o' == Order.filledAmount order + fill /\
            Order.amount o' = Order.amount order) in
  (Order.side order = OrderSide.BUY ->
   Tick.bestAsk data <= Order.price order -> 0 < Tick.askQty data ->
   let r := fillSize false (Num.ltb (Tick.bestAsk data) (Order.price order)) remaining
              (Tick.askQty data) in
   after (fst r) (snd r) /\
   lockedOf (wallets s') (Order.user order) quote ==
     lockedOf (wallets s) (Order.user order) quote - fst r * Order.price order /\
   freeOf (wallets s') (Order.user order) base ==
     freeOf (wallets s) (Order.user order) base + fst r - fst r * feePerc) /\
  (Order.side order = OrderSide.SELL ->
   Order.price order <= Tick.bestBid data -> 0 < Tick.bidQty data ->
   let r := fillSize false (Num.ltb (Order.price order) (Tick.bestBid data)) remaining
              (Tick.bidQty data) in
   after (fst r) (snd r) /\
   lockedOf (wallets s') (Order.user order) base ==
     lockedOf (wallets s) (Order.user order) base - fst r /\
   freeOf (wallets s') (Order.user order) quote ==
     freeOf (wallets s) (Order.user order) quote + fst r * Order.price order -
     fst r * Order.price order * feePerc).
Proof.
  intros Hspot Ht Hg Hti symbol quote base feePerc remaining sym s' after.
  split.
  - intros Hside Hreach Hqty.
    apply NumFacts.leb_le in Hreach. apply NumFacts.ltb_lt in Hqty.
    pose proof (fillSize_le false (Num.ltb (Tick.bestAsk data) (Order.price order)) remaining
                  (Tick.askQty data)) as Hle.
    cbv zeta.
    destruct (fillSize false (Num.ltb (Tick.bestAsk data) (Order.price order)) remaining (Tick.askQty data))
      as [fill complete] eqn:Ef.
    cbn [fst snd] in *.
    set (status := if complete then OrderStatus.FILLED else OrderStatus.PARTIALLY_FILLED).
    set (order' := fillOrder order status fill (fill * Order.price order) (fill * feePerc) feePerc
                     (Tick.time data)).
    set (s0 := updateBalance (Order.user order)
           [BalanceUpdate.mk base (fill - fill * feePerc) 0;
            BalanceUpdate.mk quote 0 (- (fill * Order.price order))]
           (with_orderModel s
              (updateOrderById (orderModel s) (Order._id order)
                 (fillStored order status fill (fill * Order.price order) (fill * feePerc)
                    (Tick.time data))))).
    assert (E : s' = if complete
                     then removeOrder order' (watchDrop sym (Order.externalId order')
                                                (setOrder order' s0))
                     else setOrder order' s0).
    { subst s'. unfold processLimitOrder. rewrite Ht, Hg, Hti. cbv zeta.
      rewrite Hspot, (isCoinm_isFutures _ Hspot). cbn [orb negb].
      rewrite Hside. cbn [OrderSide.eqb andb]. rewrite Hreach, Hqty. cbn [andb].
      fold symbol. fold feePerc. fold remaining. rewrite Ef. cbv beta iota zeta.
      subst s0 order' status. destruct complete; reflexivity. }
    assert (W : wallets s' = wallets s0).
    { rewrite E. destruct complete; [|reflexivity].
      unfold removeOrder. rewrite wallets_removeOrderAt, wallets_watchDrop. reflexivity. }
    split; [|split].
    + subst after. cbv beta. split; [exact Hle|].
      pose proof (fill_projection order' complete sym s0) as P. cbv zeta in P.
      rewrite E. destruct complete.
      * exact P.
      * exists order'. split; [exact P|]. split; [reflexivity|]. split; reflexivity.
    + rewrite W. subst s0. rewrite wallets_updateBalance.
      cbn [increaseUserBalance fold_left wallets with_orderModel].
      rewrite !lockedOf_incWallet.
      cbn [BalanceUpdate.asset BalanceUpdate.free BalanceUpdate.locked].
      rewrite !String.eqb_refl. cbn [andb].
      destruct (String.eqb quote base); ring.
    + rewrite W. subst s0. rewrite wallets_updateBalance.
      cbn [increaseUserBalance fold_left wallets with_orderModel].
      rewrite !freeOf_incWallet.
      cbn [BalanceUpdate.asset BalanceUpdate.free BalanceUpdate.locked].
      rewrite !String.eqb_refl. cbn [andb].
      destruct (String.eqb base quote); ring.
  - intros Hside Hreach Hqty.
    apply NumFacts.leb_le in Hreach. apply NumFacts.ltb_lt in Hqty.
    pose proof (fillSize_le false (Num.ltb (Order.price order) (Tick.bestBid data)) remaining
                  (Tick.bidQty data)) as Hle.
    cbv zeta.
    destruct (fillSize false (Num.ltb (Order.price order) (Tick.bestBid data)) remaining (Tick.bidQty data))
      as [fill complete] eqn:Ef.
    cbn [fst snd] in *.
    set (status := if complete then OrderStatus.FILLED else OrderStatus.PARTIALLY_FILLED).
    set (order' := fillOrder order status fill (fill * Order.price order) (fill * Order.price order * feePerc) feePerc
                     (Tick.time data)).
    set (s0 := updateBalance (Order.user order)
           [BalanceUpdate.mk quote (fill * Order.price order - fill * Order.price order * feePerc) 0;
            BalanceUpdate.mk base 0 (- fill)]
           (with_orderModel s
              (updateOrderById (orderModel s) (Order._id order)
                 (fillStored order status fill (fill * Order.price order) (fill * Order.price order * feePerc)
                    (Tick.time data))))).
    assert (E : s' = if complete
                     then removeOrder order' (watchDrop sym (Order.externalId order')
                                                (setOrder order' s0))
                     else setOrder order' s0).
    { subst s'. unfold processLimitOrder. rewrite Ht, Hg, Hti. cbv zeta.
      rewrite Hspot, (isCoinm_isFutures _ Hspot). cbn [orb negb].
      rewrite Hside. cbn [OrderSide.eqb andb]. rewrite Hreach, Hqty. cbn [andb].
      fold symbol. fold feePerc. fold remaining. rewrite Ef. cbv beta iota zeta.
      subst s0 order' status. destruct complete; reflexivity. }
    assert (W : wallets s' = wallets s0).
    { rewrite E. destruct complete; [|reflexivity].
      unfold removeOrder. rewrite wallets_removeOrderAt, wallets_watchDrop. reflexivity. }
    split; [|split].
    + subst after. cbv beta. split; [exact Hle|].
      pose proof (fill_projection order' complete sym s0) as P. cbv zeta in P.
      rewrite E. destruct complete.
      * exact P.
      * exists order'. split; [exact P|]. split; [reflexivity|]. split; reflexivity.
    + rewrite W. subst s0. rewrite wallets_updateBalance.
      cbn [increaseUserBalance fold_left wallets with_orderModel].
      rewrite !lockedOf_incWallet.
      cbn [BalanceUpdate.asset BalanceUpdate.free BalanceUpdate.locked].
      rewrite !String.eqb_refl. cbn [andb].
      destruct (String.eqb base quote); ring.
    + rewrite W. subst s0. rewrite wallets_updateBalance.
      cbn [increaseUserBalance fold_left wallets with_orderModel].
      rewrite !freeOf_incWallet.
      cbn [BalanceUpdate.asset BalanceUpdate.free BalanceUpdate.locked].
      rewrite !String.eqb_refl. cbn [andb].
      destruct (String.eqb quote base); ring.
Qed.

Lemma spot_limit_fill_accounting_witness :
  let s' := processLimitOrder (Scenario.envAt None) Scenario.limit1View Scenario.touch
              Cases.resting in
  getOrderByExternalIdAndSymbol "BTCUSDT" "limit1" s' = None /\
  lockedOf (wallets s') "u1" "USDT" == 0 /\
  freeOf (wallets s') "u1" "BTC" == 999 # 10000.
Proof.
  intro s'.
  destruct (proj1 (spot_limit_fill_accounting (Scenario.envAt None) Scenario.limit1View
                     Scenario.touch Cases.resting Scenario.limit1View
                     eq_refl eq_refl eq_refl eq_refl) eq_refl)
    as ((_ & Hp) & Hl & Hf).
  - vm_compute. discriminate.
  - reflexivity.
  - split; [exact (proj1 Hp)|]. split.
    + etransitivity; [exact Hl | vm_compute; reflexivity].
    + etransitivity; [exact Hf | vm_compute; reflexivity].
Defined.
